(** * Billing-state reconciliation of the B&L Disposal back office

    A shallow embedding of the Payload CMS hooks that keep an account's
    balance, lateness flag and next billing date in step with its billing
    records:

    - [src/collections/residential-billing.ts]: the [beforeChange],
      [afterChange] and [afterDelete] hooks of the billing collection;
    - the Stripe invoice helpers ([createStripeInvoice],
      [getInvoicePaymentLink], [sendInvoiceEmail]);
    - the [beforeChange] hook of the commercial accounts collection
      (next billing date and lateness);
    - [src/collections/accounts-stripe-sync.ts]: the [beforeChange] hook of
      the invoices collection and the [beforeChange] hook of its field
      [customer] (invoice numbers).

    Conventions of the embedding.
    - A JavaScript number is an exact integer of [Z]; floating-point rounding
      is outside the model.  [x || 0] is [num_or0].
    - A [Date] is its time value, the milliseconds since the epoch, and the
      server's local time zone is UTC, so that [setDate], [getDate], ... are
      the ECMAScript operations [MakeDay]/[MakeDate] on the proleptic
      Gregorian calendar.  A date-valued string field of a document is
      represented by the time value that [new Date(field)] yields.
    - The database, the console, the mail transport and Stripe form an
      explicit [World]; a hook is a function in a state-and-exception monad
      over it.
    - A hook is a function of the arguments that Payload calls it with.  A
      relationship field of a document is the id of the related document or,
      when Payload has populated it, the document itself ([Ref]); which of
      the two a hook is given is a hypothesis of the theorem about it. *)

From Stdlib Require Import ZArith Lia List Bool String Ascii DecimalString.
From stdpp Require Import base option list gmap strings.

Local Open Scope Z_scope.

(** ** Calendar arithmetic (ECMAScript time values, UTC) *)

Definition msPerDay : Z := 86400000.

Definition Day (t : Z) : Z := t / msPerDay.
Definition TimeWithinDay (t : Z) : Z := t mod msPerDay.
Definition MakeDate (day time : Z) : Z := day * msPerDay + time.

(** Position of a month in the year that starts in March. *)
Definition marchMonth (m : Z) : Z := (m + 9) mod 12.

(** Day of the 400-year era, from the year of the era (March based), the
    March-based month and the day of the month. *)
Definition doe_of (yoe mp d : Z) : Z :=
  yoe * 365 + yoe / 4 - yoe / 100 + ((153 * mp + 2) / 5 + d - 1).

(** Number of days from 1970-01-01 to the civil date [y]-[m]-[d]
    ([m] in 1..12). *)
Definition days_from_civil (y m d : Z) : Z :=
  let y' := if m <=? 2 then y - 1 else y in
  (y' / 400) * 146097 + doe_of (y' mod 400) (marchMonth m) d - 719468.

Definition yoe_of_doe (doe : Z) : Z :=
  (doe - doe / 1460 + doe / 36524 - doe / 146096) / 365.

Definition doy_of_doe (doe : Z) : Z :=
  let yoe := yoe_of_doe doe in doe - (365 * yoe + yoe / 4 - yoe / 100).

Definition mp_of_doe (doe : Z) : Z := (5 * doy_of_doe doe + 2) / 153.

Definition dom_of_doe (doe : Z) : Z :=
  doy_of_doe doe - (153 * mp_of_doe doe + 2) / 5 + 1.

Definition month_of_mp (mp : Z) : Z := if mp <? 10 then mp + 3 else mp - 9.

(** The civil date (year, month 1..12, day) of a day number. *)
Definition civil_from_days (z : Z) : Z * Z * Z :=
  let z' := z + 719468 in
  let era := z' / 146097 in
  let doe := z' mod 146097 in
  let m := month_of_mp (mp_of_doe doe) in
  (yoe_of_doe doe + era * 400 + (if m <=? 2 then 1 else 0), m, dom_of_doe doe).

Definition isLeap (y : Z) : bool :=
  ((y mod 4 =? 0) && negb (y mod 100 =? 0)) || (y mod 400 =? 0).

Definition daysInMonth (y m : Z) : Z :=
  if m =? 2 then (if isLeap y then 29 else 28)
  else if (m =? 4) || (m =? 6) || (m =? 9) || (m =? 11) then 30 else 31.

Definition YearFromTime (t : Z) : Z := (civil_from_days (Day t)).1.1.
(** Months are numbered from 0 in JavaScript. *)
Definition MonthFromTime (t : Z) : Z := (civil_from_days (Day t)).1.2 - 1.
Definition DateFromTime (t : Z) : Z := (civil_from_days (Day t)).2.

(** ECMAScript [MakeDay]: any integer month and day are accepted and
    carried over. *)
Definition MakeDay (year month date : Z) : Z :=
  days_from_civil (year + month / 12) (month mod 12 + 1) 1 + date - 1.

Definition getFullYear := YearFromTime.
Definition getMonth := MonthFromTime.
Definition getDate := DateFromTime.

Definition setDate (t dt : Z) : Z :=
  MakeDate (MakeDay (YearFromTime t) (MonthFromTime t) dt) (TimeWithinDay t).
Definition setMonth (t m : Z) : Z :=
  MakeDate (MakeDay (YearFromTime t) m (DateFromTime t)) (TimeWithinDay t).
Definition setFullYear (t y : Z) : Z :=
  MakeDate (MakeDay y (MonthFromTime t) (DateFromTime t)) (TimeWithinDay t).
(** [d.setHours(0, 0, 0, 0)] *)
Definition setHours0 (t : Z) : Z := MakeDate (Day t) 0.

(** The time value of the date-only string [YYYY-MM-DD]. *)
Definition dateString (y m d : Z) : Z := MakeDate (days_from_civil y m d) 0.

(** [t.toISOString().split('T')[0]] *)
Definition toISODate (t : Z) : Z :=
  dateString (YearFromTime t) (MonthFromTime t + 1) (DateFromTime t).

(** ** Documents of the collections *)

Inductive Status := pending | paid | overdue | cancelled.
Inductive Lateness := current | late.
Inductive Cadence := weekly | biweekly | monthly | quarterly | annually.
(** The [operation] argument of a collection hook. *)
Inductive Operation := create | update | delete.

(** A relationship field holds the id of the related document (a string) or,
    when populated, the related document itself (an object, of which only the
    id matters here). *)
Inductive Ref := RefId (id : string) | RefDoc (id : string).

Definition status_eqb (a b : Status) : bool :=
  match a, b with
  | pending, pending | paid, paid | overdue, overdue | cancelled, cancelled => true
  | _, _ => false
  end.

(** [field === 'value'] on an optional select field. *)
Definition statusIs (o : option Status) (s : Status) : bool :=
  match o with Some a => status_eqb a s | None => false end.

(** [x || 0] on a number. *)
Definition num_or0 (o : option Z) : Z :=
  match o with Some v => v | None => 0 end.

(** [x || dflt] on a number: absent, and also zero, give the default. *)
Definition num_or (o : option Z) (dflt : Z) : Z :=
  match o with Some v => if v =? 0 then dflt else v | None => dflt end.

(** Truthiness of an optional string. *)
Definition truthyS (o : option string) : bool :=
  match o with Some s => negb (String.eqb s "") | None => false end.

(** [!x] on an optional value that is truthy when present. *)
Definition absent {A} (o : option A) : bool :=
  match o with Some _ => false | None => true end.

(** [a || b] on optional values that are truthy when present. *)
Definition orElse {A} (a b : option A) : option A :=
  match a with Some _ => a | None => b end.

Record BillingDoc := {
  docId : option nat;
  billingNumber : option string;
  account : option Ref;
  amount : option Z;
  billingDate : option Z;
  dueDate : option Z;
  status : option Status;
  paidDate : option Z;
  paidAmount : option Z;
  description : option string;
  stripeInvoiceId : option string
}.

Definition emptyDoc : BillingDoc :=
  {| docId := None; billingNumber := None; account := None; amount := None;
     billingDate := None; dueDate := None; status := None; paidDate := None;
     paidAmount := None; description := None; stripeInvoiceId := None |}.

Definition setBillingNumber (d : BillingDoc) (v : option string) : BillingDoc :=
  {| docId := docId d; billingNumber := v; account := account d;
     amount := amount d; billingDate := billingDate d; dueDate := dueDate d;
     status := status d; paidDate := paidDate d; paidAmount := paidAmount d;
     description := description d; stripeInvoiceId := stripeInvoiceId d |}.
Definition setDueDate (d : BillingDoc) (v : option Z) : BillingDoc :=
  {| docId := docId d; billingNumber := billingNumber d; account := account d;
     amount := amount d; billingDate := billingDate d; dueDate := v;
     status := status d; paidDate := paidDate d; paidAmount := paidAmount d;
     description := description d; stripeInvoiceId := stripeInvoiceId d |}.
Definition setStatus (d : BillingDoc) (v : option Status) : BillingDoc :=
  {| docId := docId d; billingNumber := billingNumber d; account := account d;
     amount := amount d; billingDate := billingDate d; dueDate := dueDate d;
     status := v; paidDate := paidDate d; paidAmount := paidAmount d;
     description := description d; stripeInvoiceId := stripeInvoiceId d |}.
Definition setStripeInvoiceId (d : BillingDoc) (v : option string) : BillingDoc :=
  {| docId := docId d; billingNumber := billingNumber d; account := account d;
     amount := amount d; billingDate := billingDate d; dueDate := dueDate d;
     status := status d; paidDate := paidDate d; paidAmount := paidAmount d;
     description := description d; stripeInvoiceId := v |}.

(** Payload merges the data of an update over the stored document: a field
    absent from the data keeps its stored value. *)
Definition mergeDoc (data original : BillingDoc) : BillingDoc :=
  {| docId := docId original;
     billingNumber := orElse (billingNumber data) (billingNumber original);
     account := orElse (account data) (account original);
     amount := orElse (amount data) (amount original);
     billingDate := orElse (billingDate data) (billingDate original);
     dueDate := orElse (dueDate data) (dueDate original);
     status := orElse (status data) (status original);
     paidDate := orElse (paidDate data) (paidDate original);
     paidAmount := orElse (paidAmount data) (paidAmount original);
     description := orElse (description data) (description original);
     stripeInvoiceId := orElse (stripeInvoiceId data) (stripeInvoiceId original) |}.

Record BillingInfo := {
  billingDay : option Z;            (* billingInfo.billingDate, a day of the month *)
  billingCadence : option Cadence;
  nextBillingDate : option Z;
  accountBalance : option Z
}.

Record PaymentInfo := {
  paymentMethod : option string;
  lastPaymentDate : option Z;
  lastPaymentAmount : option Z;
  autoPay : option bool;
  isLate : option Lateness;
  latePaymentCount : option Z;
  lastLatePaymentDate : option Z;
  totalLateFees : option Z;
  gracePeriodDays : option Z
}.

Record Account := {
  email : option string;
  name : option string;
  accountNumber : option string;
  stripeCustomerId : option string;
  borough : option Ref;
  serviceStartDate : option Z;      (* serviceInfo.serviceStartDate *)
  password : option string;
  confirmPassword : option string;
  billingInfo : option BillingInfo;
  paymentInfo : option PaymentInfo
}.

Definition emptyBillingInfo : BillingInfo :=
  {| billingDay := None; billingCadence := None; nextBillingDate := None;
     accountBalance := None |}.

Definition emptyPaymentInfo : PaymentInfo :=
  {| paymentMethod := None; lastPaymentDate := None; lastPaymentAmount := None;
     autoPay := None; isLate := None; latePaymentCount := None;
     lastLatePaymentDate := None; totalLateFees := None; gracePeriodDays := None |}.

(** [{ ...account.billingInfo }]: spreading an absent group gives the empty
    object. *)
Definition spreadBillingInfo (o : option BillingInfo) : BillingInfo :=
  match o with Some b => b | None => emptyBillingInfo end.
Definition spreadPaymentInfo (o : option PaymentInfo) : PaymentInfo :=
  match o with Some p => p | None => emptyPaymentInfo end.

Definition setAccountBalance (b : BillingInfo) (v : option Z) : BillingInfo :=
  {| billingDay := billingDay b; billingCadence := billingCadence b;
     nextBillingDate := nextBillingDate b; accountBalance := v |}.
Definition setNextBillingDate (b : BillingInfo) (v : option Z) : BillingInfo :=
  {| billingDay := billingDay b; billingCadence := billingCadence b;
     nextBillingDate := v; accountBalance := accountBalance b |}.

Definition setLastPayment (p : PaymentInfo) (date : option Z) (amt : option Z) : PaymentInfo :=
  {| paymentMethod := paymentMethod p; lastPaymentDate := date;
     lastPaymentAmount := amt; autoPay := autoPay p; isLate := isLate p;
     latePaymentCount := latePaymentCount p;
     lastLatePaymentDate := lastLatePaymentDate p;
     totalLateFees := totalLateFees p; gracePeriodDays := gracePeriodDays p |}.
Definition setIsLate (p : PaymentInfo) (v : option Lateness) : PaymentInfo :=
  {| paymentMethod := paymentMethod p; lastPaymentDate := lastPaymentDate p;
     lastPaymentAmount := lastPaymentAmount p; autoPay := autoPay p; isLate := v;
     latePaymentCount := latePaymentCount p;
     lastLatePaymentDate := lastLatePaymentDate p;
     totalLateFees := totalLateFees p; gracePeriodDays := gracePeriodDays p |}.

Definition setBillingInfo (a : Account) (v : option BillingInfo) : Account :=
  {| email := email a; name := name a; accountNumber := accountNumber a;
     stripeCustomerId := stripeCustomerId a; borough := borough a;
     serviceStartDate := serviceStartDate a; password := password a;
     confirmPassword := confirmPassword a; billingInfo := v;
     paymentInfo := paymentInfo a |}.
Definition setPaymentInfo (a : Account) (v : option PaymentInfo) : Account :=
  {| email := email a; name := name a; accountNumber := accountNumber a;
     stripeCustomerId := stripeCustomerId a; borough := borough a;
     serviceStartDate := serviceStartDate a; password := password a;
     confirmPassword := confirmPassword a; billingInfo := billingInfo a;
     paymentInfo := v |}.
Definition deletePasswords (a : Account) : Account :=
  {| email := email a; name := name a; accountNumber := accountNumber a;
     stripeCustomerId := stripeCustomerId a; borough := borough a;
     serviceStartDate := serviceStartDate a; password := None;
     confirmPassword := None; billingInfo := billingInfo a;
     paymentInfo := paymentInfo a |}.

(** The [data] object that the billing hooks pass to
    [payload.update({ collection: 'accounts', ... })]. *)
Record UpdateData := {
  ud_billingInfo : BillingInfo;
  ud_paymentInfo : option PaymentInfo
}.

Definition setUdBalance (u : UpdateData) (v : Z) : UpdateData :=
  {| ud_billingInfo := setAccountBalance (ud_billingInfo u) (Some v);
     ud_paymentInfo := ud_paymentInfo u |}.
Definition setUdPaymentInfo (u : UpdateData) (p : PaymentInfo) : UpdateData :=
  {| ud_billingInfo := ud_billingInfo u; ud_paymentInfo := Some p |}.

(** The stored account after the update: a group present in the data
    replaces the stored group (the hooks always send a group as a spread of
    the stored one), an absent group is kept. *)
Definition mergeAccount (a : Account) (u : UpdateData) : Account :=
  let a' := setBillingInfo a (Some (ud_billingInfo u)) in
  match ud_paymentInfo u with
  | Some p => setPaymentInfo a' (Some p)
  | None => a'
  end.

Record Borough := { boroughCode : option string }.

Record InvoiceDoc := {
  customer : option Ref;
  invoiceNumber : option string
}.

(** ** The world outside the hooks *)

Inductive Error :=
  | NotFound            (* Payload: no document with that id *)
  | PersistenceError    (* a read or write of the database failed *)
  | StripeError         (* a Stripe API call failed *)
  | MailError           (* the SMTP transport failed *)
  | TypeError.          (* a method was called on undefined *)

Inductive LogEntry := ConsoleError (msg : string) | ConsoleWarn (msg : string).

(** The notification helpers that were entered, in order (a ghost trace). *)
Inductive Call := CallCreateStripeInvoice | CallGetInvoicePaymentLink | CallSendInvoiceEmail.

Record Email := {
  mailTo : string;
  mailBillingNumber : option string;
  mailAmount : Z;
  mailDueDate : option Z;
  mailPaymentLink : option string
}.

Record StripeInvoice := {
  si_customer : string;
  si_amountCents : Z;
  si_daysUntilDue : Z
}.

Record World := {
  accounts : gmap string Account;
  (** The billing collection; the id of a record is its position, a deleted
      record leaves [None]. *)
  billing : list (option BillingDoc);
  boroughs : gmap string Borough;
  (** The invoices collection, in the order in which a query returns it. *)
  invoices : list InvoiceDoc;
  console : list LogEntry;
  outbox : list Email;
  stripe : list StripeInvoice;
  calls : list Call
}.

Definition setAccounts (w : World) (v : gmap string Account) : World :=
  {| accounts := v; billing := billing w; boroughs := boroughs w;
     invoices := invoices w; console := console w; outbox := outbox w;
     stripe := stripe w; calls := calls w |}.
Definition setBilling (w : World) (v : list (option BillingDoc)) : World :=
  {| accounts := accounts w; billing := v; boroughs := boroughs w;
     invoices := invoices w; console := console w; outbox := outbox w;
     stripe := stripe w; calls := calls w |}.
Definition setConsole (w : World) (v : list LogEntry) : World :=
  {| accounts := accounts w; billing := billing w; boroughs := boroughs w;
     invoices := invoices w; console := v; outbox := outbox w;
     stripe := stripe w; calls := calls w |}.
Definition setOutbox (w : World) (v : list Email) : World :=
  {| accounts := accounts w; billing := billing w; boroughs := boroughs w;
     invoices := invoices w; console := console w; outbox := v;
     stripe := stripe w; calls := calls w |}.
Definition setStripe (w : World) (v : list StripeInvoice) : World :=
  {| accounts := accounts w; billing := billing w; boroughs := boroughs w;
     invoices := invoices w; console := console w; outbox := outbox w;
     stripe := v; calls := calls w |}.
Definition setCalls (w : World) (v : list Call) : World :=
  {| accounts := accounts w; billing := billing w; boroughs := boroughs w;
     invoices := invoices w; console := console w; outbox := outbox w;
     stripe := stripe w; calls := v |}.

(** The places where an external call can fail. *)
Inductive Site :=
  | AccountsFind | AccountsUpdate | BillingUpdate | BoroughsFind | InvoicesFind
  | InvoicesCount | StripeInvoices | StripeRetrieve | SendMail.

(** What a hook run finds around it: the clock, the configuration taken
    from [process.env], and which external calls fail. *)
Record Env := {
  now : Z;                           (* new Date() *)
  STRIPE_SECRET_KEY : bool;
  SMTP_HOST : bool;
  stripeAssignedId : string;         (* the id Stripe gives the invoice *)
  hosted_invoice_url : option string;
  fails : Site -> bool
}.

(** ** The monad of hooks *)

Inductive Outcome (A : Type) :=
  | Ret (a : A)
  | Throw (e : Error)
  | Diverge.                          (* the nesting bound of hooks was hit *)
Arguments Ret {A} a.
Arguments Throw {A} e.
Arguments Diverge {A}.

Definition M (A : Type) : Type := World -> Outcome A * World.

Definition ret {A} (a : A) : M A := fun w => (Ret a, w).
Definition throw {A} (e : Error) : M A := fun w => (Throw e, w).
Definition diverge {A} : M A := fun w => (Diverge, w).
Definition bind {A B} (m : M A) (k : A -> M B) : M B :=
  fun w =>
    match m w with
    | (Ret a, w') => k a w'
    | (Throw e, w') => (Throw e, w')
    | (Diverge, w') => (Diverge, w')
    end.
(** [try { body } catch (error) { handler }] *)
Definition tryCatch {A} (body : M A) (handler : Error -> M A) : M A :=
  fun w =>
    match body w with
    | (Throw e, w') => handler e w'
    | r => r
    end.
Definition get : M World := fun w => (Ret w, w).
Definition modify (f : World -> World) : M unit := fun w => (Ret tt, f w).

Notation "x <- m ;; k" := (bind m (fun x => k))
  (at level 100, m at next level, right associativity).
Notation "m ;;; k" := (bind m (fun _ => k))
  (at level 100, right associativity).

Definition consoleError (msg : string) : M unit :=
  modify (fun w => setConsole w (console w ++ [ConsoleError msg])).
Definition consoleWarn (msg : string) : M unit :=
  modify (fun w => setConsole w (console w ++ [ConsoleWarn msg])).
Definition traceCall (c : Call) : M unit :=
  modify (fun w => setCalls w (calls w ++ [c])).

(** *** Payload's local API *)

(** [payload.findByID({ collection: 'accounts', id })]: Payload raises
    [NotFound] for a missing document. *)
Definition findAccountByID (env : Env) (id : string) : M (option Account) :=
  fun w =>
    if fails env AccountsFind then (Throw PersistenceError, w)
    else match accounts w !! id with
         | Some a => (Ret (Some a), w)
         | None => (Throw NotFound, w)
         end.

Definition findBoroughByID (env : Env) (id : string) : M (option Borough) :=
  fun w =>
    if fails env BoroughsFind then (Throw PersistenceError, w)
    else match boroughs w !! id with
         | Some b => (Ret (Some b), w)
         | None => (Throw NotFound, w)
         end.

(** [payload.update({ collection: 'accounts', id, data })].  The hooks of the
    accounts collection only drop password fields, which the data never
    carries. *)
Definition updateAccount (env : Env) (id : string) (data : UpdateData) : M unit :=
  fun w =>
    if fails env AccountsUpdate then (Throw PersistenceError, w)
    else match accounts w !! id with
         | Some a => (Ret tt, setAccounts w (<[id := mergeAccount a data]> (accounts w)))
         | None => (Throw NotFound, w)
         end.

(** [payload.count({ collection: 'residential-billing' })] *)
Definition countBilling : M nat :=
  fun w => (Ret (length (List.filter (fun d => negb (absent d)) (billing w))), w).

(** ** Strings *)

(** [String(n)] for a natural number. *)
Definition String_of_nat (n : nat) : string :=
  NilEmpty.string_of_uint (Nat.to_uint n).

Fixpoint repeatString (n : nat) (c : string) : string :=
  match n with
  | O => EmptyString
  | S k => String.append c (repeatString k c)
  end.

(** [s.padStart(width, '0')] *)
Definition padStart0 (width : nat) (s : string) : string :=
  String.append (repeatString (width - String.length s)%nat "0") s.

(** [String(n).padStart(6, '0')] *)
Definition zeroPad (n : nat) (width : nat) : string :=
  padStart0 width (String_of_nat n).

Definition startsWith (s pre : string) : bool := String.prefix pre s.

Definition lowerChar (c : ascii) : ascii :=
  let n := nat_of_ascii c in
  if (65 <=? n)%nat && (n <=? 90)%nat then ascii_of_nat (n + 32) else c.

Fixpoint lowerCase (s : string) : string :=
  match s with
  | EmptyString => EmptyString
  | String c r => String (lowerChar c) (lowerCase r)
  end.

Fixpoint includes (s sub : string) : bool :=
  if String.prefix sub s then true
  else match s with
       | EmptyString => false
       | String _ r => includes r sub
       end.

(** Payload's [contains] operator: a substring match that ignores case. *)
Definition containsOp (field : option string) (value : string) : bool :=
  match field with
  | Some s => includes (lowerCase s) (lowerCase value)
  | None => false
  end.

(** ** Stripe invoices and the invoice email (invoice-stripe) *)

(** [calculateDaysUntilDue]: whole days from today to the due date, at
    least 0.  The due date is dereferenced, so an absent one raises. *)
Definition calculateDaysUntilDue (env : Env) (dueDate : option Z) : M Z :=
  match dueDate with
  | None => throw TypeError
  | Some due =>
      let today := setHours0 (now env) in
      let due := setHours0 due in
      let diffTime := due - today in
      (* Math.ceil(diffTime / msPerDay) *)
      let diffDays := - ((- diffTime) / msPerDay) in
      ret (Z.max 0 diffDays)
  end.

(** [createStripeInvoice]: [null] when Stripe is not configured or the
    account has no Stripe customer; any failure of the Stripe calls (invoice
    item, invoice, finalisation, sending, taken as one step) is logged and
    thrown again. *)
Definition createStripeInvoice (env : Env) (billingRecord : BillingDoc)
    (account : Account) : M (option string) :=
  traceCall CallCreateStripeInvoice ;;;
  if negb (STRIPE_SECRET_KEY env) then
    consoleWarn "Stripe not configured - skipping invoice creation" ;;; ret None
  else match stripeCustomerId account with
  | Some cust =>
    if String.eqb cust "" then
      consoleWarn "Account does not have a Stripe customer ID" ;;; ret None
    else
    tryCatch
      (days <- calculateDaysUntilDue env (dueDate billingRecord) ;;
       if fails env StripeInvoices then throw StripeError
       else
         modify (fun w => setStripe w (stripe w ++
           [{| si_customer := cust;
               si_amountCents := num_or0 (amount billingRecord) * 100;
               si_daysUntilDue := days |}])) ;;;
         ret (Some (stripeAssignedId env)))
      (fun error => consoleError "Error creating Stripe invoice:" ;;; throw error)
  | None =>
    consoleWarn "Account does not have a Stripe customer ID" ;;; ret None
  end.

(** [getInvoicePaymentLink]: the hosted invoice URL, [null] on any failure. *)
Definition getInvoicePaymentLink (env : Env) (invoiceId : string) : M (option string) :=
  traceCall CallGetInvoicePaymentLink ;;;
  if negb (STRIPE_SECRET_KEY env) then ret None
  else
    tryCatch
      (if fails env StripeRetrieve then throw StripeError
       else ret (if truthyS (hosted_invoice_url env) then hosted_invoice_url env else None))
      (fun error => consoleError "Error retrieving invoice payment link:" ;;; ret None).

(** [sendInvoiceEmail]: nothing is sent without an address or without SMTP
    configuration; a failure of the transport is logged and not thrown. *)
Definition sendInvoiceEmail (env : Env) (account : Account) (billingRecord : BillingDoc)
    (invoiceId paymentLink : option string) : M unit :=
  traceCall CallSendInvoiceEmail ;;;
  match email account with
  | Some addr =>
    if String.eqb addr "" then
      consoleWarn "Account does not have an email address"
    else
    tryCatch
      (if negb (SMTP_HOST env) then
         consoleWarn "SMTP not configured - skipping invoice email"
       else if fails env SendMail then throw MailError
       else
         modify (fun w => setOutbox w (outbox w ++
           [{| mailTo := addr;
               mailBillingNumber := billingNumber billingRecord;
               mailAmount := num_or0 (amount billingRecord);
               mailDueDate := dueDate billingRecord;
               mailPaymentLink := if truthyS paymentLink then paymentLink else None |}])))
      (fun error => consoleError "Error sending invoice email:")
  | None => consoleWarn "Account does not have an email address"
  end.

(** ** The hooks of the residential billing collection *)

Definition isCreate (operation : Operation) : bool :=
  match operation with create => true | _ => false end.

(** [beforeChange] (residential-billing.ts, lines 29-60). *)
Definition beforeChange (env : Env) (data : BillingDoc) (operation : Operation) : M BillingDoc :=
  (* Auto-generate billing number if creating *)
  data <- (if isCreate operation && negb (truthyS (billingNumber data)) then
             count <- countBilling ;;
             ret (setBillingNumber data
                    (Some (String.append "BILL-" (zeroPad (count + 1) 6))))
           else ret data) ;;
  (* Calculate due date if not provided *)
  let data :=
    match billingDate data, dueDate data with
    | Some billingDate, None =>
        let dueDate := setDate billingDate (getDate billingDate + 30) in
        setDueDate data (Some (toISODate dueDate))
    | _, _ => data
    end in
  (* Auto-set status to overdue if due date has passed and not paid/cancelled *)
  let data :=
    match dueDate data with
    | Some dueDate =>
        if negb (statusIs (status data) paid) && negb (statusIs (status data) cancelled) then
          let today := setHours0 (now env) in
          let dueDate := setHours0 dueDate in
          if (dueDate <? today)
             && (absent (status data) || statusIs (status data) pending)
          then setStatus data (Some overdue)
          else data
        else data
    | None => data
    end in
  ret data.

(** The account a billing record names, when the reference is a non-empty
    string ([!doc.account || typeof doc.account !== 'string'] otherwise). *)
Definition accountIdOf (doc : BillingDoc) : option string :=
  match account doc with
  | Some (RefId s) => if String.eqb s "" then None else Some s
  | _ => None
  end.

(** Lines 80-93. *)
Definition balanceChangeOf (doc : BillingDoc) (operation : Operation)
    (previousDoc : option BillingDoc) : Z :=
  match operation, previousDoc with
  | create, _ => num_or0 (amount doc)
  | update, Some previousDoc => num_or0 (amount doc) - num_or0 (amount previousDoc)
  | update, None => 0
  | delete, _ => - num_or0 (amount doc)
  end.

(** Lines 107-148: the payment status of an updated record. *)
Definition paymentStatusUpdate (env : Env) (account : Account) (doc : BillingDoc)
    (operation : Operation) (previousDoc : option BillingDoc) (newBalance : Z)
    (updateData : UpdateData) : UpdateData :=
  match operation, previousDoc with
  | update, Some previousDoc =>
      let previousStatus := status previousDoc in
      let currentStatus := status doc in
      let previousPaidAmount := num_or0 (paidAmount previousDoc) in
      let currentPaidAmount := num_or0 (paidAmount doc) in
      if statusIs currentStatus paid && negb (statusIs previousStatus paid) then
        (* status changed to paid: subtract the paid amount *)
        let paidAmount := if currentPaidAmount =? 0 then num_or0 (amount doc)
                          else currentPaidAmount in
        let updateData :=
          setUdPaymentInfo updateData
            (setLastPayment (spreadPaymentInfo (paymentInfo account))
               (orElse (paidDate doc) (Some (toISODate (now env))))
               (Some paidAmount)) in
        if 0 <? paidAmount then setUdBalance updateData (Z.max 0 (newBalance - paidAmount))
        else updateData
      else if statusIs previousStatus paid && negb (statusIs currentStatus paid) then
        (* status changed from paid: add back the previously paid amount *)
        if 0 <? previousPaidAmount then setUdBalance updateData (newBalance + previousPaidAmount)
        else updateData
      else if statusIs currentStatus paid && statusIs previousStatus paid then
        (* already paid and the paid amount changed *)
        let paidAmountDifference := currentPaidAmount - previousPaidAmount in
        if negb (paidAmountDifference =? 0) then
          let updateData := setUdBalance updateData (Z.max 0 (newBalance - paidAmountDifference)) in
          if 0 <? currentPaidAmount then
            setUdPaymentInfo updateData
              (setLastPayment (spreadPaymentInfo (paymentInfo account))
                 (orElse (paidDate doc)
                    (orElse (lastPaymentDate (spreadPaymentInfo (paymentInfo account)))
                       (Some (toISODate (now env)))))
                 (Some currentPaidAmount))
          else updateData
        else updateData
      else updateData
  | _, _ => updateData
  end.

(** [account.paymentInfo?.gracePeriodDays || 5] *)
Definition gracePeriodOf (account : Account) : Z :=
  num_or (gracePeriodDays (spreadPaymentInfo (paymentInfo account))) 5.

(** Lines 171-184: the late status of the account. *)
Definition lateStatusUpdate (account : Account) (dueDate : Z) (isOverdue : bool)
    (updateData : UpdateData) : UpdateData :=
  let pinfo :=
    match ud_paymentInfo updateData with
    | Some p => p
    | None => spreadPaymentInfo (paymentInfo account)
    end in
  let accountBalance := num_or0 (accountBalance (ud_billingInfo updateData)) in
  let lastPaymentDate :=
    orElse (lastPaymentDate pinfo)
           (lastPaymentDate (spreadPaymentInfo (paymentInfo account))) in
  if isOverdue && (0 <? accountBalance) then
    let paymentWasLate :=
      match lastPaymentDate with
      | None => true
      | Some l => l <? dueDate
      end in
    setUdPaymentInfo updateData
      (setIsLate pinfo (Some (if paymentWasLate then late else current)))
  else if accountBalance <=? 0 then
    setUdPaymentInfo updateData (setIsLate pinfo (Some current))
  else setUdPaymentInfo updateData pinfo.

(** Lines 150-185: a pending record past its due date and the grace period
    is marked overdue, and the late status of the account is derived.
    [updateBilling] is [payload.update] on the billing collection. *)
Definition overdueCheck (updateBilling : option nat -> BillingDoc -> M unit)
    (env : Env) (doc : BillingDoc) (account : Account) (updateData : UpdateData)
    : M UpdateData :=
  let today := now env in
  let gracePeriodDays := gracePeriodOf account in
  match dueDate doc with
  | Some dueDate =>
    if negb (statusIs (status doc) paid) && negb (statusIs (status doc) cancelled) then
      let lateDate := setDate dueDate (getDate dueDate + gracePeriodDays) in
      let isOverdue := lateDate <? today in
      (* Update billing record status if overdue *)
      (if isOverdue && statusIs (status doc) pending then
         updateBilling (docId doc) (setStatus emptyDoc (Some overdue))
       else ret tt) ;;;
      (* Update account late payment status *)
      ret (lateStatusUpdate account dueDate isOverdue updateData)
    else ret updateData
  | None => ret updateData
  end.

(** Lines 194-251: the Stripe invoice and the email of a created record.
    [updateBilling] is [payload.update] on the billing collection. *)
Definition notifyCreated (updateBilling : option nat -> BillingDoc -> M unit)
    (env : Env) (doc : BillingDoc) (account : Account) : M unit :=
  tryCatch
    (invoiceId <- createStripeInvoice env doc account ;;
     if truthyS invoiceId then
       updateBilling (docId doc) (setStripeInvoiceId emptyDoc invoiceId) ;;;
       paymentLink <- getInvoicePaymentLink env (match invoiceId with Some s => s | None => "" end) ;;
       sendInvoiceEmail env account doc invoiceId paymentLink
     else
       sendInvoiceEmail env account doc None None)
    (fun error =>
       consoleError "Error creating Stripe invoice or sending email:" ;;;
       tryCatch
         (sendInvoiceEmail env account doc None None)
         (fun emailError => consoleError "Error sending invoice email:")).

(** [afterChange] (lines 63-256), over the implementation of
    [payload.update] on the billing collection. *)
Definition afterChangeBody (updateBilling : option nat -> BillingDoc -> M unit)
    (env : Env) (doc : BillingDoc) (operation : Operation)
    (previousDoc : option BillingDoc) : M unit :=
  match accountIdOf doc with
  | None => ret tt
  | Some accountId =>
    tryCatch
      (found <- findAccountByID env accountId ;;
       match found with
       | None => consoleError "Account not found for billing record:"
       | Some account =>
         let balanceChange := balanceChangeOf doc operation previousDoc in
         (* Calculate new balance *)
         let currentBalance := num_or0 (accountBalance (spreadBillingInfo (billingInfo account))) in
         let newBalance := currentBalance + balanceChange in
         let updateData :=
           {| ud_billingInfo :=
                setAccountBalance (spreadBillingInfo (billingInfo account)) (Some newBalance);
              ud_paymentInfo := None |} in
         (* Handle payment status updates *)
         let updateData :=
           paymentStatusUpdate env account doc operation previousDoc newBalance updateData in
         (* Check if bill is overdue and update account late status *)
         updateData <- overdueCheck updateBilling env doc account updateData ;;
         (* Update the account *)
         updateAccount env accountId updateData ;;;
         (* Create Stripe invoice and send email when billing record is created *)
         if isCreate operation && negb (statusIs (status doc) cancelled) then
           notifyCreated updateBilling env doc account
         else ret tt
       end)
      (fun error => consoleError "Error updating account from billing record:")
  end.

(** [req.payload.update({ collection: 'residential-billing', id, data })],
    as [afterChange] itself calls it (lines 162-168 and 206-212) with a
    status or a Stripe invoice id as the data: the hooks of the collection
    run again around the write.  The data go through [beforeChange], are
    merged over the stored record, and [hook], the [afterChange] hook, runs
    on the merged record. *)
Definition updateBillingWith (hook : BillingDoc -> Operation -> option BillingDoc -> M unit)
    (env : Env) (id : option nat) (data : BillingDoc) : M unit :=
  if fails env BillingUpdate then throw PersistenceError
  else
    w <- get ;;
    match id with
    | Some i =>
      match billing w !! i with
      | Some (Some originalDoc) =>
          data <- beforeChange env data update ;;
          let doc := mergeDoc data originalDoc in
          modify (fun w => setBilling w (<[i := Some doc]> (billing w))) ;;;
          hook doc update (Some originalDoc)
      | _ => throw NotFound
      end
    | None => throw NotFound
    end.

(** The hook re-enters itself through [payload.update]; [depth] bounds the
    nesting. *)
Fixpoint afterChangeN (depth : nat) (env : Env) (doc : BillingDoc)
    (operation : Operation) (previousDoc : option BillingDoc) : M unit :=
  match depth with
  | O => diverge
  | S depth' =>
      afterChangeBody (updateBillingWith (afterChangeN depth' env) env)
        env doc operation previousDoc
  end.

(** A record that the hook marks overdue is no longer pending, and only a
    created record is notified: two levels of nesting are all there are. *)
Definition afterChange : Env -> BillingDoc -> Operation -> option BillingDoc -> M unit :=
  afterChangeN 2.

(** [afterDelete] (lines 259-293). *)
Definition afterDelete (env : Env) (doc : BillingDoc) : M unit :=
  match accountIdOf doc with
  | None => ret tt
  | Some accountId =>
    tryCatch
      (found <- findAccountByID env accountId ;;
       match found with
       | None => ret tt
       | Some account =>
         (* Subtract the billing amount from account balance *)
         let currentBalance := num_or0 (accountBalance (spreadBillingInfo (billingInfo account))) in
         let billingAmount := num_or0 (amount doc) in
         let newBalance := currentBalance - billingAmount in
         updateAccount env accountId
           {| ud_billingInfo :=
                setAccountBalance (spreadBillingInfo (billingInfo account)) (Some newBalance);
              ud_paymentInfo := None |}
       end)
      (fun error => consoleError "Error updating account balance after billing deletion:")
  end.

(** ** The [beforeChange] hook of the commercial accounts collection *)

(** Lines 125-176: the next billing date, from the billing day of the
    month, the cadence and the start of service. *)
Definition computeNextBillingDate (today : Z) (billingDate : Z) (cadence : Cadence)
    (serviceStartDate : option Z) : Z :=
  let nextBilling := today in
  let nextBilling :=
    match cadence with
    | weekly | biweekly =>
        (* Use service start date if available, otherwise use today *)
        let nextBilling :=
          match serviceStartDate with Some s => s | None => nextBilling end in
        let weeksSinceStart := (today - nextBilling) / (1000 * 60 * 60 * 24 * 7) in
        let periodsSinceStart :=
          match cadence with weekly => weeksSinceStart | _ => weeksSinceStart / 2 end in
        let periodsToAdd :=
          match cadence with
          | weekly => periodsSinceStart + 1
          | _ => (periodsSinceStart + 1) * 2
          end in
        setDate nextBilling (getDate nextBilling + periodsToAdd * 7)
    | _ =>
        (* For monthly/quarterly/annually, use day of month *)
        let nextBilling := setDate nextBilling billingDate in
        (* If the billing date has passed this month, move to next period *)
        if nextBilling <? today then
          match cadence with
          | monthly => setMonth nextBilling (getMonth nextBilling + 1)
          | quarterly => setMonth nextBilling (getMonth nextBilling + 3)
          | annually => setFullYear nextBilling (getFullYear nextBilling + 1)
          | _ => nextBilling
          end
        else nextBilling
    end in
  (* Format as YYYY-MM-DD *)
  let year := getFullYear nextBilling in
  let month := getMonth nextBilling + 1 in
  let day := getDate nextBilling in
  dateString year month day.

Definition nextBillingDateStep (env : Env) (data : Account) : Account :=
  match billingInfo data with
  | Some billingInfo =>
      match billingDay billingInfo, billingCadence billingInfo with
      | Some billingDate, Some cadence =>
          if billingDate =? 0 then data
          else
            setBillingInfo data
              (Some (setNextBillingDate billingInfo
                 (Some (computeNextBillingDate (now env) billingDate cadence
                          (serviceStartDate data)))))
      | _, _ => data
      end
  | None => data
  end.

(** Lines 178-209: whether the account is late. *)
Definition latenessStep (env : Env) (data : Account) : Account :=
  match billingInfo data, paymentInfo data with
  | Some billingInfo, Some paymentInfo =>
      let accountBalance := num_or0 (accountBalance billingInfo) in
      let nextBillingDate := nextBillingDate billingInfo in
      let lastPaymentDate := lastPaymentDate paymentInfo in
      let gracePeriodDays := num_or (gracePeriodDays paymentInfo) 5 in
      match nextBillingDate with
      | Some dueDate =>
          if 0 <? accountBalance then
            let today := now env in
            (* Add grace period to due date *)
            let lateDate := setDate dueDate (getDate dueDate + gracePeriodDays) in
            let isLate :=
              (lateDate <? today) && (0 <? accountBalance)
              && match lastPaymentDate with
                 | None => true
                 | Some l => l <? dueDate
                 end in
            setPaymentInfo data
              (Some (setIsLate paymentInfo (Some (if isLate then late else current))))
          else if accountBalance <=? 0 then
            setPaymentInfo data (Some (setIsLate paymentInfo (Some current)))
          else data
      | None =>
          if accountBalance <=? 0 then
            setPaymentInfo data (Some (setIsLate paymentInfo (Some current)))
          else data
      end
  | _, _ => data
  end.

(** The whole hook (lines 113-212): passwords are dropped, then the next
    billing date and the late status are derived. *)
Definition CommercialAccounts_beforeChange (env : Env) (data : Account) : Account :=
  latenessStep env (nextBillingDateStep env (deletePasswords data)).

(** ** The [beforeChange] hook of the invoices collection *)

(** The id behind a relationship value: the string itself, or the [id] of
    the populated document. *)
Definition refId (r : option Ref) : option string :=
  match r with
  | Some (RefId s) => if String.eqb s "" then None else Some s
  | Some (RefDoc s) => if String.eqb s "" then None else Some s
  | None => None
  end.

(** [payload.find({ collection: 'invoices', where: { invoiceNumber:
    { contains } }, limit })] *)
Definition findInvoicesContaining (env : Env) (value : string) (limit : nat)
    : M (list InvoiceDoc) :=
  fun w =>
    if fails env InvoicesFind then (Throw PersistenceError, w)
    else (Ret (take limit (List.filter (fun inv => containsOp (invoiceNumber inv) value)
                             (invoices w))), w).

(** [payload.count({ collection: 'invoices' })] *)
Definition countInvoices (env : Env) : M nat :=
  fun w =>
    if fails env InvoicesCount then (Throw PersistenceError, w)
    else (Ret (length (invoices w)), w).

Definition setInvoiceNumber (d : InvoiceDoc) (v : option string) : InvoiceDoc :=
  {| customer := customer d; invoiceNumber := v |}.

(** [inv.invoiceNumber.startsWith(prefix)] *)
Definition numberStartsWith (inv : InvoiceDoc) (pre : string) : bool :=
  match invoiceNumber inv with
  | Some n => startsWith n pre
  | None => false
  end.

(** Lines 203-223: the next number under the borough code. *)
Definition nextInvoiceNumber (env : Env) (boroughCode : string) : M string :=
  let pre := String.append boroughCode "-" in
  invoicesWithCode <- findInvoicesContaining env boroughCode 1000 ;;
  (* Filter to only those that start with the exact prefix *)
  let matchingInvoices :=
    List.filter (fun inv => truthyS (invoiceNumber inv) && numberStartsWith inv pre)
      invoicesWithCode in
  let nextNumber := (length matchingInvoices + 1)%nat in
  ret (String.append boroughCode (String.append "-" (zeroPad nextNumber 6))).

(** Lines 151-240. *)
Definition Invoices_beforeChange (env : Env) (data : InvoiceDoc)
    (originalDoc : option InvoiceDoc) : M InvoiceDoc :=
  match refId (customer data) with
  | None => ret data
  | Some customerId =>
      let customerChanged :=
        match originalDoc with
        | Some o =>
            match customer o with
            | Some (RefId s) => negb (String.eqb s "") && negb (String.eqb s customerId)
            | Some (RefDoc s) => negb (String.eqb s customerId)
            | None => false
            end
        | None => false
        end in
      let shouldGenerate := negb (truthyS (invoiceNumber data)) || customerChanged in
      if shouldGenerate then
        tryCatch
          (found <- findAccountByID env customerId ;;
           match found with
           | Some account =>
             match refId (borough account) with
             | Some boroughId =>
                 b <- findBoroughByID env boroughId ;;
                 match b with
                 | Some borough =>
                     if truthyS (boroughCode borough) then
                       number <- nextInvoiceNumber env
                                   (match boroughCode borough with Some c => c | None => "" end) ;;
                       ret (setInvoiceNumber data (Some number))
                     else ret data
                 | None => ret data
                 end
             | None => ret data
             end
           | None => ret data
           end)
          (fun error =>
             consoleError "Error generating invoice number:" ;;;
             (* Fallback if borough lookup fails *)
             if negb (truthyS (invoiceNumber data)) then
               count <- countInvoices env ;;
               ret (setInvoiceNumber data
                      (Some (String.append "INV-" (zeroPad (count + 1) 6))))
             else ret data)
      else ret data
  end.

(** The [beforeChange] hook of the field [customer] (lines 251-316): it
    writes the invoice number into [data] and returns the value of the
    field as it came; the result here is [data] after the hook. *)
Definition customer_beforeChange (env : Env) (value : option Ref) (data : InvoiceDoc)
    : M InvoiceDoc :=
  match refId value with
  | None => ret data
  | Some customerId =>
      tryCatch
        (found <- findAccountByID env customerId ;;
         match found with
         | Some account =>
           match refId (borough account) with
           | Some boroughId =>
               b <- findBoroughByID env boroughId ;;
               match b with
               | Some borough =>
                   if truthyS (boroughCode borough) then
                     number <- nextInvoiceNumber env
                                 (match boroughCode borough with Some c => c | None => "" end) ;;
                     ret (setInvoiceNumber data (Some number))
                   else ret data
               | None => ret data
               end
           | None => ret data
           end
         | None => ret data
         end)
        (fun error =>
           consoleError "Error generating invoice number in customer hook:" ;;; ret data)
  end.

(** ** Auxiliary definitions of the proofs *)

(** Days before the first of March of year [y], up to a constant. *)
Definition yearDays (y : Z) : Z := 365 * y + y / 4 - y / 100 + y / 400.

Ltac zdiv_lia := Z.div_mod_to_equations; lia.

Ltac is_pos_num p :=
  lazymatch p with
  | xH => idtac
  | xO ?q => is_pos_num q
  | xI ?q => is_pos_num q
  end.
Ltac is_num a :=
  lazymatch a with
  | Z0 => idtac
  | Z.pos ?p => is_pos_num p
  | Z.neg ?p => is_pos_num p
  end.

(** Evaluates the operations of the goal whose arguments are numerals. *)
Ltac num_eval :=
  repeat match goal with
  | |- context [?a + ?b] => is_num a; is_num b;
      let v := eval vm_compute in (a + b) in change (a + b) with v
  | |- context [?a * ?b] => is_num a; is_num b;
      let v := eval vm_compute in (a * b) in change (a * b) with v
  | |- context [?a - ?b] => is_num a; is_num b;
      let v := eval vm_compute in (a - b) in change (a - b) with v
  | |- context [?a `mod` ?b] => is_num a; is_num b;
      let v := eval vm_compute in (a `mod` b) in change (a `mod` b) with v
  | |- context [?a `div` ?b] => is_num a; is_num b;
      let v := eval vm_compute in (a `div` b) in change (a `div` b) with v
  | |- context [?a <=? ?b] => is_num a; is_num b;
      let v := eval vm_compute in (a <=? b) in change (a <=? b) with v
  | |- context [?a <? ?b] => is_num a; is_num b;
      let v := eval vm_compute in (a <? b) in change (a <? b) with v
  | |- context [?a =? ?b] => is_num a; is_num b;
      let v := eval vm_compute in (a =? b) in change (a =? b) with v
  end; cbv beta iota.


(** ** The next billing date, as the specification words it *)

(** The specification's cadence period: 1, 3 or 12 months. *)
Definition periodMonths (cadence : Cadence) : Z :=
  match cadence with
  | monthly => 1
  | quarterly => 3
  | annually => 12
  | _ => 0
  end.

(** The specification's next billing day: the day (a day number) obtained
    by setting the day of the month to [billingDayOfMonth] in the month that
    contains the reference time and, if that day is strictly before the day
    of the reference time, by advancing it by one cadence period of 1, 3 or
    12 months.  Days and months beyond the end of a month or year carry
    over, as in [MakeDay]. *)
Definition spec_nextBillingDay (cadence : Cadence) (billingDayOfMonth referenceTime : Z) : Z :=
  let today := Day referenceTime in
  let '(y, m, _) := civil_from_days today in
  let candidate := MakeDay y (m - 1) billingDayOfMonth in
  if candidate <? today then
    let '(y', m', d') := civil_from_days candidate in
    MakeDay y' (m' - 1 + periodMonths cadence) d'
  else candidate.

Definition monthBased (cadence : Cadence) : bool :=
  match cadence with
  | monthly | quarterly | annually => true
  | _ => false
  end.

(** ** Sample data *)

Definition noFault : Site -> bool := fun _ => false.

(** A clock reading on a server where everything is configured and works. *)
Definition envAt (t : Z) : Env :=
  {| now := t; STRIPE_SECRET_KEY := true; SMTP_HOST := true;
     stripeAssignedId := "in_1"; hosted_invoice_url := Some "https://pay.example/in_1";
     fails := noFault |}.

Definition sampleBillingInfo (day : Z) (cadence : Cadence) (balance : Z) : BillingInfo :=
  {| billingDay := Some day; billingCadence := Some cadence;
     nextBillingDate := None; accountBalance := Some balance |}.

Definition sampleAccount (bi : option BillingInfo) (pi : option PaymentInfo) : Account :=
  {| email := Some "customer@example.com"; name := Some "Customer";
     accountNumber := Some "ACC-000001"; stripeCustomerId := Some "cus_1";
     borough := Some (RefId "b1"); serviceStartDate := None;
     password := None; confirmPassword := None;
     billingInfo := bi; paymentInfo := pi |}.

Definition graceZeroPayment : PaymentInfo :=
  {| paymentMethod := None; lastPaymentDate := None; lastPaymentAmount := None;
     autoPay := None; isLate := None; latePaymentCount := None;
     lastLatePaymentDate := None; totalLateFees := None; gracePeriodDays := Some 0 |}.

Definition graceZeroAccount : Account :=
  sampleAccount
    (Some {| billingDay := None; billingCadence := None;
             nextBillingDate := Some (dateString 2024 4 1);
             accountBalance := Some 100 |})
    (Some graceZeroPayment).


(** ** The reconciliation of one record event, without its effects *)

(** Whether the record is past its due date and the grace period of the
    account. *)
Definition isOverdueFor (env : Env) (account : Account) (doc : BillingDoc) : bool :=
  match dueDate doc with
  | Some dueDate =>
      setDate dueDate (getDate dueDate + gracePeriodOf account) <? now env
  | None => false
  end.

Definition openStatus (doc : BillingDoc) : bool :=
  negb (statusIs (status doc) paid) && negb (statusIs (status doc) cancelled).

(** Whether [afterChange] marks the record overdue. *)
Definition marksOverdue (env : Env) (account : Account) (doc : BillingDoc) : bool :=
  match dueDate doc with
  | Some _ => openStatus doc && (isOverdueFor env account doc && statusIs (status doc) pending)
  | None => false
  end.

(** Whether [afterChange] notifies the customer. *)
Definition notifies (operation : Operation) (doc : BillingDoc) : bool :=
  isCreate operation && negb (statusIs (status doc) cancelled).

Definition lateSection (env : Env) (account : Account) (doc : BillingDoc)
    (updateData : UpdateData) : UpdateData :=
  match dueDate doc with
  | Some dueDate =>
      if openStatus doc then
        lateStatusUpdate account dueDate (isOverdueFor env account doc) updateData
      else updateData
  | None => updateData
  end.

(** The data that [afterChange] sends to the account. *)
Definition reconcile (env : Env) (account : Account) (doc : BillingDoc)
    (operation : Operation) (previousDoc : option BillingDoc) : UpdateData :=
  let currentBalance := num_or0 (accountBalance (spreadBillingInfo (billingInfo account))) in
  let newBalance := currentBalance + balanceChangeOf doc operation previousDoc in
  lateSection env account doc
    (paymentStatusUpdate env account doc operation previousDoc newBalance
       {| ud_billingInfo :=
            setAccountBalance (spreadBillingInfo (billingInfo account)) (Some newBalance);
          ud_paymentInfo := None |}).

(** The balance of an account, [0] when absent. *)
Definition balanceOf (a : Account) : Z :=
  num_or0 (accountBalance (spreadBillingInfo (billingInfo a))).

Definition balanceAt (w : World) (accountId : string) : Z :=
  match accounts w !! accountId with
  | Some a => balanceOf a
  | None => 0
  end.

(** The fields of an account that the billing hooks never write. *)
Definition sameProfile (a a' : Account) : Prop :=
  email a' = email a /\ name a' = name a /\ accountNumber a' = accountNumber a /\
  stripeCustomerId a' = stripeCustomerId a /\ borough a' = borough a /\
  serviceStartDate a' = serviceStartDate a /\ password a' = password a /\
  confirmPassword a' = confirmPassword a.

(** A stored record after a hook run: the hooks only ever write its status
    (pending to overdue) and its Stripe invoice id. *)
Definition sameRecord (d d' : BillingDoc) : Prop :=
  docId d' = docId d /\ billingNumber d' = billingNumber d /\
  account d' = account d /\ amount d' = amount d /\
  billingDate d' = billingDate d /\ dueDate d' = dueDate d /\
  paidDate d' = paidDate d /\ paidAmount d' = paidAmount d /\
  description d' = description d.

(** The database is as it was, and nothing was taken from the console. *)
Definition sameStores (w w' : World) : Prop :=
  accounts w' = accounts w /\ billing w' = billing w /\
  (forall x, In x (console w) -> In x (console w')).

(** Whether the Stripe calls of [createStripeInvoice] are reached and fail. *)
Definition stripeFails (env : Env) (account : Account) (doc : BillingDoc) : bool :=
  STRIPE_SECRET_KEY env && truthyS (stripeCustomerId account)
  && (absent (dueDate doc) || fails env StripeInvoices).

(** Whether the mail transport is reached and fails. *)
Definition mailFails (env : Env) (account : Account) : bool :=
  truthyS (email account) && SMTP_HOST env && fails env SendMail.

(** Whether the payment link is asked for and the retrieval fails. *)
Definition linkFails (env : Env) (account : Account) (doc : BillingDoc) : bool :=
  STRIPE_SECRET_KEY env && truthyS (stripeCustomerId account)
  && negb (absent (dueDate doc)) && negb (fails env StripeInvoices)
  && truthyS (Some (stripeAssignedId env)) && negb (fails env BillingUpdate)
  && fails env StripeRetrieve.

Ltac stores_tac :=
  repeat match goal with
         | |- _ /\ _ => split
         | |- sameStores _ _ => unfold sameStores
         end;
  try reflexivity; try discriminate;
  try (intros; cbn in *; rewrite ?in_app_iff; cbn; tauto).

(** ** The data of [beforeChange], without the monad *)

Definition billingCount (w : World) : nat :=
  length (List.filter (fun d => negb (absent d)) (billing w)).

Definition withBillingNumber (count : nat) (data : BillingDoc) (operation : Operation)
    : BillingDoc :=
  if isCreate operation && negb (truthyS (billingNumber data)) then
    setBillingNumber data (Some (String.append "BILL-" (zeroPad (count + 1) 6)))
  else data.

Definition withDueDate (data : BillingDoc) : BillingDoc :=
  match billingDate data, dueDate data with
  | Some billingDate, None =>
      setDueDate data (Some (toISODate (setDate billingDate (getDate billingDate + 30))))
  | _, _ => data
  end.

Definition withOverdue (env : Env) (data : BillingDoc) : BillingDoc :=
  match dueDate data with
  | Some dueDate =>
      if negb (statusIs (status data) paid) && negb (statusIs (status data) cancelled) then
        if (setHours0 dueDate <? setHours0 (now env))
           && (absent (status data) || statusIs (status data) pending)
        then setStatus data (Some overdue)
        else data
      else data
  | None => data
  end.

Definition beforeChangeData (env : Env) (count : nat) (data : BillingDoc)
    (operation : Operation) : BillingDoc :=
  withOverdue env (withDueDate (withBillingNumber count data operation)).

(** The balance that [afterChange] writes, from the balance it read. *)
Definition reconciledBalance (a : Account) (doc : BillingDoc) (operation : Operation)
    (previousDoc : option BillingDoc) : Z :=
  let newBalance := balanceOf a + balanceChangeOf doc operation previousDoc in
  match operation, previousDoc with
  | update, Some previousDoc =>
      let previousPaid := num_or0 (paidAmount previousDoc) in
      let currentPaid := num_or0 (paidAmount doc) in
      if statusIs (status doc) paid && negb (statusIs (status previousDoc) paid) then
        let settled := if currentPaid =? 0 then num_or0 (amount doc) else currentPaid in
        if 0 <? settled then Z.max 0 (newBalance - settled) else newBalance
      else if statusIs (status previousDoc) paid && negb (statusIs (status doc) paid) then
        if 0 <? previousPaid then newBalance + previousPaid else newBalance
      else if statusIs (status doc) paid && statusIs (status previousDoc) paid then
        if negb (currentPaid - previousPaid =? 0)
        then Z.max 0 (newBalance - (currentPaid - previousPaid))
        else newBalance
      else newBalance
  | _, _ => newBalance
  end.

(** More sample data: one account, by the id ["acc"]. *)
Definition sampleWorld (balance : Z) (records : list (option BillingDoc)) : World :=
  {| accounts := {[ "acc" := sampleAccount
                      (Some {| billingDay := Some 1; billingCadence := Some monthly;
                               nextBillingDate := None; accountBalance := Some balance |})
                      None ]};
     billing := records; boroughs := ∅; invoices := [];
     console := []; outbox := []; stripe := []; calls := [] |}.

Definition sampleRecord (id : nat) (amt : Z) (st : Status) (paidAmt : option Z) : BillingDoc :=
  {| docId := Some id; billingNumber := Some "BILL-000001";
     account := Some (RefId "acc"); amount := Some amt;
     billingDate := Some (dateString 2024 3 15); dueDate := Some (dateString 2024 4 14);
     status := Some st; paidDate := None; paidAmount := paidAmt;
     description := None; stripeInvoiceId := None |}.

(** The data of a create that names no due date and no status, as they
    reach [beforeChange]: Payload has filled in ['pending'], the default
    value of the field [status]. *)
Definition sampleData (amt : Z) : BillingDoc :=
  {| docId := None; billingNumber := None;
     account := Some (RefId "acc"); amount := Some amt;
     billingDate := Some (dateString 2024 3 15); dueDate := None;
     status := Some pending; paidDate := None; paidAmount := None;
     description := None; stripeInvoiceId := None |}.

Definition setPaidAmount (d : BillingDoc) (v : option Z) : BillingDoc :=
  {| docId := docId d; billingNumber := billingNumber d; account := account d;
     amount := amount d; billingDate := billingDate d; dueDate := dueDate d;
     status := status d; paidDate := paidDate d; paidAmount := v;
     description := description d; stripeInvoiceId := stripeInvoiceId d |}.

(** The second component of a run: the world it leaves. *)
Definition worldAfter {A} (r : Outcome A * World) : World := r.2.

(** A server on which the accounts collection cannot be written. *)
Definition envAccountsReadOnly (t : Z) : Env :=
  {| now := t; STRIPE_SECRET_KEY := true; SMTP_HOST := true;
     stripeAssignedId := "in_1"; hosted_invoice_url := Some "https://pay.example/in_1";
     fails := fun s => match s with AccountsUpdate => true | _ => false end |}.

(** A server on which Stripe and the mail transport fail. *)
Definition envNotifierDown (t : Z) : Env :=
  {| now := t; STRIPE_SECRET_KEY := true; SMTP_HOST := true;
     stripeAssignedId := "in_1"; hosted_invoice_url := Some "https://pay.example/in_1";
     fails := fun s => match s with StripeInvoices | SendMail => true | _ => false end |}.

Definition updateErrorEntry : LogEntry :=
  ConsoleError "Error updating account from billing record:".

(** ** Invoice numbers, as the specification counts them *)

(** The number of invoices whose number starts with the prefix. *)
Definition countWithPrefix (pre : string) (l : list InvoiceDoc) : nat :=
  length (List.filter (fun inv => numberStartsWith inv pre) l).

(** The number of invoices whose number contains the code, which is what
    the query of the hook asks for. *)
Definition countContaining (code : string) (l : list InvoiceDoc) : nat :=
  length (List.filter (fun inv => containsOp (invoiceNumber inv) code) l).

(** The page of invoices that the query of the hook returns: the first
    1000 invoices whose number contains the code. *)
Definition invoicePage (code : string) (w : World) : list InvoiceDoc :=
  take 1000 (List.filter (fun inv => containsOp (invoiceNumber inv) code) (invoices w)).

Definition boroughNY : Borough := {| boroughCode := Some "NY" |}.

(** A collection of [n] invoices under the code NY, numbered from 1. *)
Definition invoicesNY (n : nat) : list InvoiceDoc :=
  map (fun k => {| customer := Some (RefId "acc");
                   invoiceNumber := Some (String.append "NY-" (zeroPad k 6)) |})
      (seq 1 n).

Definition invoiceWorld (n : nat) : World :=
  {| accounts := {[ "acc" := sampleAccount None None ]};
     billing := []; boroughs := {[ "b1" := boroughNY ]}; invoices := invoicesNY n;
     console := []; outbox := []; stripe := []; calls := [] |}.

Definition newInvoice : InvoiceDoc :=
  {| customer := Some (RefId "acc"); invoiceNumber := None |}.

(** ** The event log of the billing collection, and the ledger *)

(** What the hooks of the billing collection see of a mutation: Payload has
    written the document to the collection, and calls [afterChange] with
    the document (and, for an update, with the document as it was before),
    or [afterDelete] with the deleted document. *)
Inductive Event :=
  | EvCreate (doc : BillingDoc)
  | EvUpdate (doc previousDoc : BillingDoc)
  | EvDelete (doc : BillingDoc).

(** The collection when the hook is called; the id of a record is its
    position. *)
Definition written (ev : Event) (w : World) : World :=
  match ev with
  | EvCreate doc => setBilling w (billing w ++ [Some doc])
  | EvUpdate doc _ =>
      match docId doc with
      | Some i => setBilling w (<[i := Some doc]> (billing w))
      | None => w
      end
  | EvDelete doc =>
      match docId doc with
      | Some i => setBilling w (<[i := None]> (billing w))
      | None => w
      end
  end.

(** The run of the hook for an event. *)
Definition applyEvent (env : Env) (ev : Event) : M unit :=
  modify (written ev) ;;;
  match ev with
  | EvCreate doc => afterChange env doc create None
  | EvUpdate doc previousDoc => afterChange env doc update (Some previousDoc)
  | EvDelete doc => afterDelete env doc
  end.

(** The world after a sequence of events, each under its environment. *)
Fixpoint runLog (log : list (Env * Event)) (w : World) : World :=
  match log with
  | [] => w
  | (env, ev) :: rest => runLog rest (worldAfter (applyEvent env ev w))
  end.

(** The specification's ledger, recomputed from the event log alone.  The
    log is replayed into a table of records: a record is live from its
    create to its delete, and stands as the last event has it.  The
    previous documents of the updates and the account are not looked at. *)
Definition ledgerStep (t : list (bool * BillingDoc)) (ev : Event)
    : list (bool * BillingDoc) :=
  match ev with
  | EvCreate doc => t ++ [(true, doc)]
  | EvUpdate doc _ =>
      match docId doc with
      | Some i => <[i := (true, doc)]> t
      | None => t
      end
  | EvDelete doc =>
      match docId doc with
      | Some i => <[i := (false, doc)]> t
      | None => t
      end
  end.

Definition ledgerTable (events : list Event) : list (bool * BillingDoc) :=
  fold_left ledgerStep events [].

(** Each record contributes its amount once while it exists, and minus its
    paid amount once it is paid. *)
Definition contribution (x : bool * BillingDoc) : Z :=
  (if x.1 then num_or0 (amount x.2) else 0)
  - (if statusIs (status x.2) paid then num_or0 (paidAmount x.2) else 0).

Fixpoint ledgerSum (t : list (bool * BillingDoc)) : Z :=
  match t with
  | [] => 0
  | x :: rest => contribution x + ledgerSum rest
  end.

Definition ledgerBalance (events : list Event) : Z := ledgerSum (ledgerTable events).

(** *** The logs for which the balance is the ledger *)








From Stdlib Require DecimalNat.

(** ** More auxiliary definitions of the proofs *)

(** The length in days of a week-based cadence. *)
Definition periodDays (cadence : Cadence) : Z :=
  match cadence with
  | weekly => 7
  | biweekly => 14
  | _ => 0
  end.

Definition weekBased (cadence : Cadence) : bool :=
  match cadence with
  | weekly | biweekly => true
  | _ => false
  end.

(** Reduces the projections and the setters of the account records. *)
Ltac proj_cbn :=
  cbn [billingInfo paymentInfo email name accountNumber stripeCustomerId borough
       serviceStartDate password confirmPassword setPaymentInfo setBillingInfo setIsLate
       setNextBillingDate setAccountBalance setLastPayment deletePasswords
       billingDay billingCadence nextBillingDate accountBalance
       paymentMethod lastPaymentDate lastPaymentAmount autoPay isLate latePaymentCount
       lastLatePaymentDate totalLateFees gracePeriodDays].

Ltac case_matches :=
  repeat match goal with |- context [match ?c with _ => _ end] => destruct c end.

(** ** The lookups behind an invoice number *)

(** Whether one of the lookups by which [Invoices_beforeChange] finds the
    borough code and counts the invoices raises: the account or the borough
    is missing or cannot be read, or the invoices cannot be queried. *)
Definition numberLookupFails (env : Env) (w : World) (customerId : string) : bool :=
  fails env AccountsFind ||
  match accounts w !! customerId with
  | None => true
  | Some a =>
      match refId (borough a) with
      | None => false
      | Some boroughId =>
          fails env BoroughsFind ||
          match boroughs w !! boroughId with
          | None => true
          | Some b => truthyS (boroughCode b) && fails env InvoicesFind
          end
      end
  end.

Definition invoiceErrorEntry : LogEntry := ConsoleError "Error generating invoice number:".

(** An invoice that has a number. *)
Definition numberedInvoice (customerId number : string) : InvoiceDoc :=
  {| customer := Some (RefId customerId); invoiceNumber := Some number |}.

(** ** The notification, as data *)

(** The mail that [sendInvoiceEmail] hands to the transport. *)
Definition invoiceMail (account : Account) (doc : BillingDoc) (paymentLink : option string)
    : Email :=
  {| mailTo := match email account with Some addr => addr | None => "" end;
     mailBillingNumber := billingNumber doc;
     mailAmount := num_or0 (amount doc);
     mailDueDate := dueDate doc;
     mailPaymentLink := if truthyS paymentLink then paymentLink else None |}.

(** Whether [sendInvoiceEmail] reaches the transport and the transport
    accepts the mail. *)
Definition mailGoesOut (env : Env) (account : Account) : bool :=
  truthyS (email account) && SMTP_HOST env && negb (fails env SendMail).

Definition deleteErrorEntry : LogEntry :=
  ConsoleError "Error updating account balance after billing deletion:".

(** The account of [sampleWorld]. *)
Definition sampleAccountWith (balance : Z) : Account :=
  sampleAccount
    (Some {| billingDay := Some 1; billingCadence := Some monthly;
             nextBillingDate := None; accountBalance := Some balance |})
    None.

(** A server on which the accounts collection cannot be read. *)
Definition envAccountsUnreadable (t : Z) : Env :=
  {| now := t; STRIPE_SECRET_KEY := true; SMTP_HOST := true;
     stripeAssignedId := "in_1"; hosted_invoice_url := Some "https://pay.example/in_1";
     fails := fun s => match s with AccountsFind => true | _ => false end |}.

(** A server on which no collection can be read. *)
Definition envDatabaseDown : Env :=
  {| now := 0; STRIPE_SECRET_KEY := true; SMTP_HOST := true;
     stripeAssignedId := "in_1"; hosted_invoice_url := Some "https://pay.example/in_1";
     fails := fun s => match s with
                       | AccountsFind | BoroughsFind | InvoicesFind | InvoicesCount => true
                       | _ => false
                       end |}.

(** ** The validation of a ZIP code *)

(** A JavaScript string is the sequence of its UTF-16 code units. *)
Definition CodeUnit : Type := N.
Definition JsString : Type := list CodeUnit.

(** Regular expressions over code units, as far as the patterns of the
    validators use them, matched by derivatives. *)
Inductive Regex :=
  | REmpty
  | REps
  | RClass (p : CodeUnit -> bool)
  | RSeq (r1 r2 : Regex)
  | RAlt (r1 r2 : Regex).

Fixpoint nullable (r : Regex) : bool :=
  match r with
  | REmpty => false
  | REps => true
  | RClass _ => false
  | RSeq r1 r2 => nullable r1 && nullable r2
  | RAlt r1 r2 => nullable r1 || nullable r2
  end.

Fixpoint deriv (c : CodeUnit) (r : Regex) : Regex :=
  match r with
  | REmpty | REps => REmpty
  | RClass p => if p c then REps else REmpty
  | RSeq r1 r2 =>
      if nullable r1 then RAlt (RSeq (deriv c r1) r2) (deriv c r2)
      else RSeq (deriv c r1) r2
  | RAlt r1 r2 => RAlt (deriv c r1) (deriv c r2)
  end.

(** [/^r$/.test(s)] *)
Fixpoint test (r : Regex) (s : JsString) : bool :=
  match s with
  | [] => nullable r
  | c :: s' => test (deriv c r) s'
  end.

(** [r{n}] and [r?] *)
Fixpoint times (n : nat) (r : Regex) : Regex :=
  match n with
  | O => REps
  | S k => RSeq r (times k r)
  end.
Definition optional (r : Regex) : Regex := RAlt r REps.

(** [\d]: the digits 0 to 9. *)
Definition isDigit (c : CodeUnit) : bool := ((48 <=? c) && (c <=? 57))%N.

(** ECMAScript's WhiteSpace: TAB, VT, FF, SP, NBSP, the other space
    separators of Unicode (category Zs) and ZWNBSP. *)
Definition isWhiteSpace (c : CodeUnit) : bool :=
  ((c =? 9) || (c =? 11) || (c =? 12) || (c =? 32) || (c =? 160)
   || (c =? 5760) || ((8192 <=? c) && (c <=? 8202)) || (c =? 8239) || (c =? 8287)
   || (c =? 12288) || (c =? 65279))%N.

(** ECMAScript's LineTerminator: LF, CR, LS and PS. *)
Definition isLineTerminator (c : CodeUnit) : bool :=
  ((c =? 10) || (c =? 13) || (c =? 8232) || (c =? 8233))%N.

(** What [trim] strips. *)
Definition isSpace (c : CodeUnit) : bool := isWhiteSpace c || isLineTerminator c.

Fixpoint trimStart (s : JsString) : JsString :=
  match s with
  | [] => []
  | c :: r => if isSpace c then trimStart r else s
  end.

Fixpoint trimEnd (s : JsString) : JsString :=
  match s with
  | [] => []
  | c :: r =>
      match trimEnd r with
      | [] => if isSpace c then [] else [c]
      | r' => c :: r'
      end
  end.

(** [s.trim()] *)
Definition trim (s : JsString) : JsString := trimEnd (trimStart s).

(** The code unit of the hyphen. *)
Definition hyphen : CodeUnit := 45%N.

(** [/^\d{5}(-\d{4})?$/] *)
Definition zipPattern : Regex :=
  RSeq (times 5 (RClass isDigit))
       (optional (RSeq (RClass (N.eqb hyphen)) (times 4 (RClass isDigit)))).

(** What a field validator returns: [true], or the message of the error. *)
Inductive Validation := Valid | Invalid (message : string).

(** The [validate] function of the ZIP field (part_004, lines 333-336 and
    1162-1165), on a string or on [null] or [undefined], which are [None]. *)
Definition validateZip (val : option JsString) : Validation :=
  let zipStr := trim (match val with Some s => s | None => [] end) in
  if match zipStr with [] => true | _ => false end || test zipPattern zipStr then Valid
  else Invalid "Enter a valid ZIP code (e.g., 12345 or 12345-6789)".

(** The strings that a regular expression denotes. *)
Inductive Lang : Regex -> JsString -> Prop :=
  | LEps : Lang REps []
  | LClass p c : p c = true -> Lang (RClass p) [c]
  | LSeq r1 r2 s1 s2 : Lang r1 s1 -> Lang r2 s2 -> Lang (RSeq r1 r2) (s1 ++ s2)
  | LAltL r1 r2 s : Lang r1 s -> Lang (RAlt r1 r2) s
  | LAltR r1 r2 s : Lang r2 s -> Lang (RAlt r1 r2) s.

(** The code units that [trim] strips, one by one: the white space and the
    line terminators of ECMAScript. *)
Definition spaceCodeUnits : list CodeUnit :=
  [9; 10; 11; 12; 13; 32; 160; 5760; 8192; 8193; 8194; 8195; 8196; 8197; 8198;
   8199; 8200; 8201; 8202; 8232; 8233; 8239; 8287; 12288; 65279]%N.

(** The code units of the digits 0 to 9. *)
Definition digitCodeUnits : list CodeUnit :=
  [48; 49; 50; 51; 52; 53; 54; 55; 56; 57]%N.

Definition allIn (codes : list CodeUnit) (s : JsString) : Prop :=
  Forall (fun c => In c codes) s.

(** * Properties *)

(** ** The calendar *)

Lemma isLeap_cases y :
  (isLeap y = true /\ (y mod 4 = 0 /\ y mod 100 <> 0 \/ y mod 400 = 0)) \/
  (isLeap y = false /\ (y mod 4 <> 0 \/ y mod 100 = 0) /\ y mod 400 <> 0).
Proof.
  unfold isLeap.
  destruct (Z.eqb_spec (y mod 4) 0), (Z.eqb_spec (y mod 100) 0),
    (Z.eqb_spec (y mod 400) 0); simpl; lia.
Qed.

Lemma era_fold y :
  (y / 400) * 146097 + ((y mod 400) * 365 + (y mod 400) / 4 - (y mod 400) / 100)
  = yearDays y.
Proof. unfold yearDays. zdiv_lia. Qed.

Lemma days_from_civil_alt y m d :
  days_from_civil y m d =
  yearDays (if m <=? 2 then y - 1 else y) + (153 * marchMonth m + 2) / 5 + d - 1 - 719468.
Proof. unfold days_from_civil, doe_of. rewrite <- era_fold. lia. Qed.

Lemma days_from_civil_day y m d :
  days_from_civil y m d = days_from_civil y m 1 + d - 1.
Proof. unfold days_from_civil, doe_of. lia. Qed.

Lemma pred_div4 y : (y - 1) / 4 = y / 4 - (if y mod 4 =? 0 then 1 else 0).
Proof. destruct (Z.eqb_spec (y mod 4) 0); zdiv_lia. Qed.
Lemma pred_div100 y : (y - 1) / 100 = y / 100 - (if y mod 100 =? 0 then 1 else 0).
Proof. destruct (Z.eqb_spec (y mod 100) 0); zdiv_lia. Qed.
Lemma pred_div400 y : (y - 1) / 400 = y / 400 - (if y mod 400 =? 0 then 1 else 0).
Proof. destruct (Z.eqb_spec (y mod 400) 0); zdiv_lia. Qed.
Lemma mod100_mod4 y : y mod 100 = 0 -> y mod 4 = 0.
Proof. intros. zdiv_lia. Qed.
Lemma mod400_mod100 y : y mod 400 = 0 -> y mod 100 = 0.
Proof. intros. zdiv_lia. Qed.

Lemma year_len y :
  yearDays y = yearDays (y - 1) + (if isLeap y then 366 else 365).
Proof.
  unfold yearDays, isLeap.
  rewrite pred_div4, pred_div100, pred_div400.
  pose proof (mod100_mod4 y). pose proof (mod400_mod100 y).
  destruct (Z.eqb_spec (y mod 4) 0), (Z.eqb_spec (y mod 100) 0),
    (Z.eqb_spec (y mod 400) 0); simpl; lia.
Qed.

Lemma daysInMonth_bounds y m : 28 <= daysInMonth y m <= 31.
Proof.
  unfold daysInMonth.
  destruct (m =? 2); [destruct (isLeap y); lia|].
  destruct ((m =? 4) || (m =? 6) || (m =? 9) || (m =? 11)); lia.
Qed.

(** The first of the next month, within a year. *)
Lemma month_step y m : 1 <= m <= 11 ->
  days_from_civil y (m + 1) 1 = days_from_civil y m 1 + daysInMonth y m.
Proof.
  intros Hm.
  rewrite !days_from_civil_alt. unfold daysInMonth, marchMonth.
  destruct (Z.eq_dec m 2) as [->|Hne].
  - num_eval. rewrite (year_len y). destruct (isLeap y); lia.
  - assert (m = 1 \/ m = 3 \/ m = 4 \/ m = 5 \/ m = 6 \/ m = 7 \/ m = 8 \/
            m = 9 \/ m = 10 \/ m = 11) as Hc by lia.
    repeat (destruct Hc as [->|Hc]); try subst m; num_eval; simpl orb; cbv iota; lia.
Qed.

(** From December to January. *)
Lemma year_step y :
  days_from_civil (y + 1) 1 1 = days_from_civil y 12 1 + daysInMonth y 12.
Proof.
  rewrite !days_from_civil_alt. unfold marchMonth, daysInMonth. num_eval.
  simpl orb. cbv iota.
  replace (y + 1 - 1) with y by lia. lia.
Qed.

Lemma MakeDay_date y m d : MakeDay y m d = MakeDay y m 1 + d - 1.
Proof. unfold MakeDay. lia. Qed.

(** The first of the next month, for any month number. *)
Lemma MakeDay_step y m :
  MakeDay y (m + 1) 1 = MakeDay y m 1 + daysInMonth (y + m / 12) (m mod 12 + 1).
Proof.
  unfold MakeDay.
  destruct (Z.eq_dec (m mod 12) 11) as [H11|H11].
  - replace ((m + 1) / 12) with (m / 12 + 1) by zdiv_lia.
    replace ((m + 1) mod 12) with 0 by zdiv_lia.
    rewrite H11. change (11 + 1) with 12. change (0 + 1) with 1.
    rewrite Z.add_assoc, year_step. lia.
  - replace ((m + 1) / 12) with (m / 12) by zdiv_lia.
    replace ((m + 1) mod 12) with (m mod 12 + 1) by zdiv_lia.
    pose proof (Z.mod_pos_bound m 12 ltac:(lia)).
    rewrite month_step by lia. lia.
Qed.

Lemma MakeDay_lt_step y m : MakeDay y m 1 + 28 <= MakeDay y (m + 1) 1.
Proof.
  rewrite MakeDay_step.
  pose proof (daysInMonth_bounds (y + m / 12) (m mod 12 + 1)). lia.
Qed.

(** The first days of the months increase with the month number. *)
Lemma MakeDay_mono_nat y m (k : nat) :
  MakeDay y m 1 <= MakeDay y (m + Z.of_nat k) 1.
Proof.
  induction k as [|k IH].
  - replace (m + Z.of_nat 0) with m by lia. lia.
  - replace (m + Z.of_nat (S k)) with (m + Z.of_nat k + 1) by lia.
    pose proof (MakeDay_lt_step y (m + Z.of_nat k)). lia.
Qed.

Lemma MakeDay_mono y m m' : m <= m' -> MakeDay y m 1 <= MakeDay y m' 1.
Proof.
  intros H. replace m' with (m + Z.of_nat (Z.to_nat (m' - m))) by lia.
  apply MakeDay_mono_nat.
Qed.

Lemma MakeDay_strict y m m' : m < m' -> MakeDay y m 1 + 28 <= MakeDay y m' 1.
Proof.
  intros H. pose proof (MakeDay_lt_step y m).
  pose proof (MakeDay_mono y (m + 1) m' ltac:(lia)). lia.
Qed.

(** Twelve months are a year. *)
Lemma MakeDay_year y m d : MakeDay (y + 1) m d = MakeDay y (m + 12) d.
Proof.
  unfold MakeDay.
  replace ((m + 12) / 12) with (m / 12 + 1) by zdiv_lia.
  replace ((m + 12) mod 12) with (m mod 12) by zdiv_lia.
  f_equal. f_equal. f_equal. lia.
Qed.

(** *** The civil date of a day number *)

Lemma yoe_bounds doe : 0 <= doe < 146097 ->
  0 <= yoe_of_doe doe < 400 /\ 0 <= doy_of_doe doe.
Proof. intros H. unfold doy_of_doe, yoe_of_doe. zdiv_lia. Qed.

Lemma doy_upper doe : 0 <= doe < 146097 ->
  doy_of_doe doe <= 364 + (if isLeap (yoe_of_doe doe + 1) then 1 else 0).
Proof.
  intros H. unfold doy_of_doe.
  destruct (isLeap_cases (yoe_of_doe doe + 1)) as [[Hl Hy]|[Hl Hy]]; rewrite Hl;
    unfold yoe_of_doe in *; zdiv_lia.
Qed.

Lemma isLeap_era a e : isLeap (a + e * 400) = isLeap a.
Proof.
  unfold isLeap.
  replace ((a + e * 400) mod 4) with (a mod 4) by zdiv_lia.
  replace ((a + e * 400) mod 100) with (a mod 100) by zdiv_lia.
  replace ((a + e * 400) mod 400) with (a mod 400) by zdiv_lia.
  reflexivity.
Qed.

Lemma mp_bounds doy : 0 <= doy <= 365 ->
  0 <= (5 * doy + 2) / 153 <= 11 /\
  (153 * ((5 * doy + 2) / 153) + 2) / 5 <= doy.
Proof. intros H. zdiv_lia. Qed.

Lemma marchMonth_month_of_mp mp : 0 <= mp <= 11 -> marchMonth (month_of_mp mp) = mp.
Proof.
  intros H. unfold marchMonth, month_of_mp.
  destruct (Z.ltb_spec mp 10); zdiv_lia.
Qed.

Lemma month_of_mp_range mp : 0 <= mp <= 11 -> 1 <= month_of_mp mp <= 12.
Proof. intros H. unfold month_of_mp. destruct (Z.ltb_spec mp 10); lia. Qed.

(** The length of a month, from its March-based number. *)
Lemma daysInMonth_march y mp : 0 <= mp <= 10 ->
  daysInMonth y (month_of_mp mp) = (153 * (mp + 1) + 2) / 5 - (153 * mp + 2) / 5.
Proof.
  intros H.
  assert (mp = 0 \/ mp = 1 \/ mp = 2 \/ mp = 3 \/ mp = 4 \/ mp = 5 \/ mp = 6 \/
          mp = 7 \/ mp = 8 \/ mp = 9 \/ mp = 10) as Hc by lia.
  repeat (destruct Hc as [->|Hc]); try subst mp; reflexivity.
Qed.

Lemma dom_upper doy : 0 <= doy <= 365 ->
  let mp := (5 * doy + 2) / 153 in
  mp <= 10 -> doy < (153 * (mp + 1) + 2) / 5.
Proof. intros H mp Hmp. subst mp. zdiv_lia. Qed.

(** The civil date of a day number is a date of the calendar. *)
Lemma civil_from_days_valid z :
  let '(y, m, d) := civil_from_days z in
  1 <= m <= 12 /\ 1 <= d <= daysInMonth y m.
Proof.
  unfold civil_from_days.
  set (doe := (z + 719468) mod 146097).
  set (era := (z + 719468) / 146097).
  assert (0 <= doe < 146097) as Hdoe by (subst doe; apply Z.mod_pos_bound; lia).
  destruct (yoe_bounds doe Hdoe) as [Hyoe Hdoy0].
  pose proof (doy_upper doe Hdoe) as Hdoy1.
  assert (0 <= doy_of_doe doe <= 365) as Hdoy
    by (destruct (isLeap (yoe_of_doe doe + 1)); lia).
  destruct (mp_bounds _ Hdoy) as [Hmp Hlow].
  fold (mp_of_doe doe) in Hmp, Hlow.
  split; [apply month_of_mp_range; exact Hmp|].
  unfold dom_of_doe. split; [lia|].
  destruct (Z.eq_dec (mp_of_doe doe) 11) as [H11|H11].
  - rewrite H11. change (month_of_mp 11) with 2. cbv iota.
    change (2 <=? 2) with true. cbv iota.
    unfold daysInMonth. change (2 =? 2) with true. cbv iota.
    replace (yoe_of_doe doe + era * 400 + 1) with (yoe_of_doe doe + 1 + era * 400) by lia.
    rewrite isLeap_era.
    change ((153 * 11 + 2) / 5) with 337.
    destruct (isLeap (yoe_of_doe doe + 1)); lia.
  - rewrite daysInMonth_march by lia.
    pose proof (dom_upper _ Hdoy) as Hup. cbv zeta in Hup.
    fold (mp_of_doe doe) in Hup. specialize (Hup ltac:(lia)). lia.
Qed.

(** A day number is recovered from its civil date. *)
Lemma days_from_civil_from_days z :
  let '(y, m, d) := civil_from_days z in days_from_civil y m d = z.
Proof.
  unfold civil_from_days.
  set (doe := (z + 719468) mod 146097).
  set (era := (z + 719468) / 146097).
  assert (0 <= doe < 146097) as Hdoe by (subst doe; apply Z.mod_pos_bound; lia).
  destruct (yoe_bounds doe Hdoe) as [Hyoe Hdoy0].
  pose proof (doy_upper doe Hdoe) as Hdoy1.
  assert (0 <= doy_of_doe doe <= 365) as Hdoy
    by (destruct (isLeap (yoe_of_doe doe + 1)); lia).
  destruct (mp_bounds _ Hdoy) as [Hmp Hlow].
  fold (mp_of_doe doe) in Hmp, Hlow.
  unfold days_from_civil.
  rewrite marchMonth_month_of_mp by exact Hmp.
  set (m := month_of_mp (mp_of_doe doe)).
  assert ((if m <=? 2
           then yoe_of_doe doe + era * 400 + (if m <=? 2 then 1 else 0) - 1
           else yoe_of_doe doe + era * 400 + (if m <=? 2 then 1 else 0))
          = yoe_of_doe doe + era * 400) as ->
    by (destruct (m <=? 2); lia).
  replace ((yoe_of_doe doe + era * 400) / 400) with era by zdiv_lia.
  replace ((yoe_of_doe doe + era * 400) mod 400) with (yoe_of_doe doe) by zdiv_lia.
  unfold doe_of, dom_of_doe.
  assert (z + 719468 = 146097 * era + doe) as Hz
    by (subst era doe; apply Z.div_mod; lia).
  unfold doy_of_doe. lia.
Qed.

Lemma days_from_civil_MakeDay y m d : 1 <= m <= 12 ->
  days_from_civil y m d = MakeDay 0 (12 * y + (m - 1)) d.
Proof.
  intros H. unfold MakeDay.
  replace ((12 * y + (m - 1)) / 12) with y by zdiv_lia.
  replace ((12 * y + (m - 1)) mod 12) with (m - 1) by zdiv_lia.
  replace (0 + y) with y by lia. replace (m - 1 + 1) with m by lia.
  rewrite (days_from_civil_day y m d). lia.
Qed.

(** A date of the calendar lies in its month. *)
Lemma date_in_month y m d : 1 <= m <= 12 -> 1 <= d <= daysInMonth y m ->
  let i := 12 * y + (m - 1) in
  MakeDay 0 i 1 <= days_from_civil y m d < MakeDay 0 (i + 1) 1.
Proof.
  intros Hm Hd i.
  rewrite (days_from_civil_MakeDay y m d Hm). fold i.
  rewrite (MakeDay_date 0 i d), MakeDay_step.
  replace (0 + i / 12) with y by (subst i; zdiv_lia).
  replace (i mod 12 + 1) with m by (subst i; zdiv_lia).
  lia.
Qed.

Lemma days_from_civil_inj y1 m1 d1 y2 m2 d2 :
  1 <= m1 <= 12 -> 1 <= d1 <= daysInMonth y1 m1 ->
  1 <= m2 <= 12 -> 1 <= d2 <= daysInMonth y2 m2 ->
  days_from_civil y1 m1 d1 = days_from_civil y2 m2 d2 ->
  (y1, m1, d1) = (y2, m2, d2).
Proof.
  intros Hm1 Hd1 Hm2 Hd2 Heq.
  pose proof (date_in_month y1 m1 d1 Hm1 Hd1) as H1.
  pose proof (date_in_month y2 m2 d2 Hm2 Hd2) as H2.
  cbv zeta in H1, H2.
  set (i1 := 12 * y1 + (m1 - 1)) in *. set (i2 := 12 * y2 + (m2 - 1)) in *.
  assert (i1 = i2) as Hi.
  { destruct (Z.lt_trichotomy i1 i2) as [Hlt|[Heq'|Hgt]]; [|exact Heq'|].
    - pose proof (MakeDay_mono 0 (i1 + 1) i2 ltac:(lia)). lia.
    - pose proof (MakeDay_mono 0 (i2 + 1) i1 ltac:(lia)). lia. }
  assert (y1 = y2 /\ m1 = m2) as [-> ->] by (subst i1 i2; lia).
  rewrite (days_from_civil_day y2 m2 d1), (days_from_civil_day y2 m2 d2) in Heq.
  f_equal. lia.
Qed.

(** A date of the calendar is recovered from its day number. *)
Lemma civil_from_days_from_civil y m d :
  1 <= m <= 12 -> 1 <= d <= daysInMonth y m ->
  civil_from_days (days_from_civil y m d) = (y, m, d).
Proof.
  intros Hm Hd.
  pose proof (civil_from_days_valid (days_from_civil y m d)) as Hv.
  pose proof (days_from_civil_from_days (days_from_civil y m d)) as Hr.
  destruct (civil_from_days (days_from_civil y m d)) as [[y' m'] d'].
  destruct Hv as [Hm' Hd'].
  apply days_from_civil_inj; assumption.
Qed.

(** *** Time values *)

Lemma Day_MakeDate day time : 0 <= time < msPerDay -> Day (MakeDate day time) = day.
Proof. unfold Day, MakeDate, msPerDay. intros H. zdiv_lia. Qed.

Lemma TimeWithinDay_MakeDate day time :
  0 <= time < msPerDay -> TimeWithinDay (MakeDate day time) = time.
Proof. unfold TimeWithinDay, MakeDate, msPerDay. intros H. zdiv_lia. Qed.

Lemma TimeWithinDay_bounds t : 0 <= TimeWithinDay t < msPerDay.
Proof. unfold TimeWithinDay, msPerDay. apply Z.mod_pos_bound. lia. Qed.

Lemma MakeDate_Day t : MakeDate (Day t) (TimeWithinDay t) = t.
Proof. unfold MakeDate, Day, TimeWithinDay, msPerDay. zdiv_lia. Qed.

(** The fields of a time value, as one civil date. *)
Lemma civil_fields t :
  civil_from_days (Day t) = (YearFromTime t, MonthFromTime t + 1, DateFromTime t).
Proof.
  unfold YearFromTime, MonthFromTime, DateFromTime.
  destruct (civil_from_days (Day t)) as [[y m] d]. simpl. f_equal. f_equal. lia.
Qed.

Lemma fields_valid t :
  0 <= MonthFromTime t <= 11 /\
  1 <= DateFromTime t <= daysInMonth (YearFromTime t) (MonthFromTime t + 1).
Proof.
  pose proof (civil_from_days_valid (Day t)) as H.
  rewrite civil_fields in H. lia.
Qed.

Lemma MakeDay_fields t :
  MakeDay (YearFromTime t) (MonthFromTime t) (DateFromTime t) = Day t.
Proof.
  pose proof (days_from_civil_from_days (Day t)) as H.
  rewrite civil_fields in H.
  destruct (fields_valid t) as [Hm _].
  unfold MakeDay.
  replace (MonthFromTime t / 12) with 0 by zdiv_lia.
  replace (MonthFromTime t mod 12) with (MonthFromTime t) by zdiv_lia.
  replace (YearFromTime t + 0) with (YearFromTime t) by lia.
  rewrite (days_from_civil_day _ _ (DateFromTime t)) in H. lia.
Qed.

(** [d.setDate(d.getDate() + n)] moves a date by [n] days. *)
Lemma setDate_getDate_add t n : setDate t (getDate t + n) = t + n * msPerDay.
Proof.
  unfold setDate, getDate.
  rewrite (MakeDay_date _ _ (DateFromTime t + n)).
  pose proof (MakeDay_fields t) as H.
  rewrite (MakeDay_date _ _ (DateFromTime t)) in H.
  pose proof (MakeDate_Day t) as Ht. unfold MakeDate in *. lia.
Qed.

(** A date-only string denotes midnight of its day. *)
Lemma toISODate_day t : toISODate t = MakeDate (Day t) 0.
Proof.
  unfold toISODate, dateString.
  pose proof (days_from_civil_from_days (Day t)) as H.
  rewrite civil_fields in H. rewrite H. reflexivity.
Qed.

Lemma Day_dateString y m d : Day (dateString y m d) = days_from_civil y m d.
Proof. unfold dateString. apply Day_MakeDate. unfold msPerDay. lia. Qed.

(** ** The next billing date (commercial accounts) *)

Lemma setDate_day t d : Day (setDate t d) = Day t - DateFromTime t + d.
Proof.
  unfold setDate. rewrite Day_MakeDate by apply TimeWithinDay_bounds.
  pose proof (MakeDay_fields t) as H.
  rewrite (MakeDay_date _ _ (DateFromTime t)) in H.
  rewrite (MakeDay_date _ _ d). lia.
Qed.

Lemma setDate_lt t d : (setDate t d <? t) = (Day (setDate t d) <? Day t).
Proof.
  rewrite setDate_day.
  pose proof (setDate_getDate_add t (d - DateFromTime t)) as H.
  unfold getDate in H.
  replace (DateFromTime t + (d - DateFromTime t)) with d in H by lia.
  rewrite H. unfold Day, msPerDay.
  destruct (Z.ltb_spec (t + (d - DateFromTime t) * 86400000) t),
    (Z.ltb_spec (t / 86400000 - DateFromTime t + d) (t / 86400000)); try reflexivity; lia.
Qed.

Lemma format_date t :
  dateString (getFullYear t) (getMonth t + 1) (getDate t) = MakeDate (Day t) 0.
Proof. apply toISODate_day. Qed.

Lemma setMonth_day t m :
  Day (setMonth t m) = MakeDay (YearFromTime t) m (DateFromTime t).
Proof. unfold setMonth. apply Day_MakeDate, TimeWithinDay_bounds. Qed.

Lemma setFullYear_day t y :
  Day (setFullYear t y) = MakeDay y (MonthFromTime t) (DateFromTime t).
Proof. unfold setFullYear. apply Day_MakeDate, TimeWithinDay_bounds. Qed.

(** The hook computes the date that the specification describes. *)
Lemma computeNextBillingDate_spec today d cadence start :
  monthBased cadence = true ->
  computeNextBillingDate today d cadence start
  = MakeDate (spec_nextBillingDay cadence d today) 0.
Proof.
  intros Hc.
  assert (computeNextBillingDate today d cadence start =
          let nb := setDate today d in
          let nb := if nb <? today then
                      match cadence with
                      | monthly => setMonth nb (getMonth nb + 1)
                      | quarterly => setMonth nb (getMonth nb + 3)
                      | _ => setFullYear nb (getFullYear nb + 1)
                      end
                    else nb in
          MakeDate (Day nb) 0) as ->.
  { unfold computeNextBillingDate. destruct cadence; try discriminate Hc;
      cbv zeta; rewrite format_date; destruct (setDate today d <? today); reflexivity. }
  cbv zeta. f_equal.
  unfold spec_nextBillingDay.
  rewrite civil_fields.
  replace (MonthFromTime today + 1 - 1) with (MonthFromTime today) by lia.
  rewrite setDate_lt.
  assert (Day (setDate today d) = MakeDay (YearFromTime today) (MonthFromTime today) d) as Hday
    by (unfold setDate; apply Day_MakeDate, TimeWithinDay_bounds).
  rewrite <- Hday.
  destruct (Day (setDate today d) <? Day today); [|reflexivity].
  rewrite civil_fields. unfold getMonth, getFullYear.
  set (nb := setDate today d).
  destruct cadence; try discriminate Hc; cbn [periodMonths].
  - rewrite setMonth_day. f_equal. lia.
  - rewrite setMonth_day. f_equal. lia.
  - rewrite setFullYear_day, MakeDay_year. f_equal. lia.
Qed.

(** The day that the specification describes is not before the day of the
    reference time. *)
Lemma spec_nextBillingDay_not_past cadence d today :
  monthBased cadence = true -> 1 <= d ->
  Day today <= spec_nextBillingDay cadence d today.
Proof.
  intros Hc Hd.
  unfold spec_nextBillingDay.
  rewrite civil_fields.
  replace (MonthFromTime today + 1 - 1) with (MonthFromTime today) by lia.
  set (Y := YearFromTime today). set (Mo := MonthFromTime today).
  set (D := DateFromTime today).
  destruct (fields_valid today) as [HM HD]. fold Y Mo D in HM, HD.
  pose proof (MakeDay_fields today) as Hf. fold Y Mo D in Hf.
  rewrite (MakeDay_date _ _ D) in Hf.
  rewrite (MakeDay_date Y Mo d).
  destruct (Z.ltb_spec (MakeDay Y Mo 1 + d - 1) (Day today)) as [Hlt|Hge]; [|lia].
  assert (MakeDay Y Mo 1 + d - 1 = days_from_civil Y (Mo + 1) d) as Hcand.
  { unfold MakeDay.
    replace (Mo / 12) with 0 by zdiv_lia. replace (Mo mod 12) with Mo by zdiv_lia.
    replace (Y + 0) with Y by lia.
    rewrite (days_from_civil_day Y (Mo + 1) d). lia. }
  rewrite Hcand, civil_from_days_from_civil by lia.
  replace (Mo + 1 - 1 + periodMonths cadence) with (Mo + periodMonths cadence) by lia.
  rewrite (MakeDay_date _ _ d).
  assert (1 <= periodMonths cadence) as Hp by (destruct cadence; try discriminate Hc; simpl; lia).
  pose proof (MakeDay_mono Y (Mo + 1) (Mo + periodMonths cadence) ltac:(lia)) as Hmono.
  pose proof (MakeDay_step Y Mo) as Hstep.
  replace (Mo / 12) with 0 in Hstep by zdiv_lia.
  replace (Mo mod 12) with Mo in Hstep by zdiv_lia.
  replace (Y + 0) with Y in Hstep by lia.
  lia.
Qed.

Lemma latenessStep_billingInfo env a : billingInfo (latenessStep env a) = billingInfo a.
Proof.
  unfold latenessStep.
  destruct (billingInfo a) as [bi|] eqn:Hbi; [|exact Hbi].
  destruct (paymentInfo a) as [pi|]; [|exact Hbi].
  repeat match goal with
         | |- context [match ?x with _ => _ end] => destruct x
         end; exact Hbi.
Qed.

(** C5. For the cadences monthly, quarterly and annually and every billing
    day of the month from 1 to 31, the next billing date that the hook
    stores is obtained by setting the day of the month in the month of the
    reference time and, if that day is strictly before the reference day, by
    advancing one cadence period (1, 3 or 12 months); it is never a date
    before the day of the reference time. *)
Theorem C5_next_billing_date env data bi d cadence :
  billingInfo data = Some bi ->
  billingDay bi = Some d ->
  billingCadence bi = Some cadence ->
  monthBased cadence = true ->
  1 <= d <= 31 ->
  exists bi' r,
    billingInfo (CommercialAccounts_beforeChange env data) = Some bi' /\
    nextBillingDate bi' = Some r /\
    r = MakeDate (spec_nextBillingDay cadence d (now env)) 0 /\
    Day (now env) <= Day r.
Proof.
  intros Hbi Hd Hcad Hmb Hrange.
  unfold CommercialAccounts_beforeChange.
  rewrite latenessStep_billingInfo.
  unfold nextBillingDateStep.
  change (billingInfo (deletePasswords data)) with (billingInfo data).
  rewrite Hbi, Hd, Hcad.
  destruct (Z.eqb_spec d 0) as [->|_]; [lia|].
  eexists. eexists. split; [reflexivity|]. split; [reflexivity|].
  rewrite computeNextBillingDate_spec by exact Hmb.
  split; [reflexivity|].
  rewrite Day_MakeDate by (unfold msPerDay; lia).
  apply spec_nextBillingDay_not_past; [exact Hmb|lia].
Qed.

Lemma C5_next_billing_date_witness :
  exists bi' r,
    billingInfo (CommercialAccounts_beforeChange
                   (envAt (dateString 2024 1 31 + 3600000))
                   (sampleAccount (Some (sampleBillingInfo 30 monthly 0)) None)) = Some bi' /\
    nextBillingDate bi' = Some r /\
    r = MakeDate (spec_nextBillingDay monthly 30 (dateString 2024 1 31 + 3600000)) 0 /\
    Day (dateString 2024 1 31 + 3600000) <= Day r.
Proof.
  apply (C5_next_billing_date (envAt (dateString 2024 1 31 + 3600000))
           (sampleAccount (Some (sampleBillingInfo 30 monthly 0)) None)
           (sampleBillingInfo 30 monthly 0) 30 monthly);
    [reflexivity | reflexivity | reflexivity | reflexivity | lia].
Defined.

(** On 31 January 2024 a monthly account billed on the 30th is next billed
    on 1 March: 30 January has passed and there is no 30 February. *)
Example next_billing_jan31 :
  computeNextBillingDate (dateString 2024 1 31 + 3600000) 30 monthly None
  = dateString 2024 3 1.
Proof. vm_compute. reflexivity. Qed.

Example next_billing_same_day :
  computeNextBillingDate (dateString 2024 5 15 + 3600000) 15 quarterly None
  = dateString 2024 5 15.
Proof. vm_compute. reflexivity. Qed.

Example next_billing_leap_year :
  computeNextBillingDate (dateString 2024 3 1) 29 annually None
  = dateString 2024 3 29.
Proof. vm_compute. reflexivity. Qed.

(** ** The late status (commercial accounts) *)

(** What the hook derives: the grace period it uses is 5 days when the
    field is absent and also when it is 0. *)
Lemma latenessStep_spec env data bi pi nbd :
  billingInfo data = Some bi ->
  paymentInfo data = Some pi ->
  nextBillingDate bi = Some nbd ->
  exists pi',
    paymentInfo (latenessStep env data) = Some pi' /\
    (isLate pi' = Some late \/ isLate pi' = Some current) /\
    (isLate pi' = Some late <->
       0 < num_or0 (accountBalance bi) /\
       nbd + num_or (gracePeriodDays pi) 5 * msPerDay < now env /\
       (lastPaymentDate pi = None \/ exists l, lastPaymentDate pi = Some l /\ l < nbd)).
Proof.
  intros Hbi Hpi Hnbd. unfold latenessStep. rewrite Hbi, Hpi, Hnbd.
  rewrite setDate_getDate_add.
  destruct (Z.ltb_spec 0 (num_or0 (accountBalance bi))) as [Hpos|Hnp].
  - destruct (Z.ltb_spec (nbd + num_or (gracePeriodDays pi) 5 * msPerDay) (now env)) as [Hl|Hl].
    + destruct (lastPaymentDate pi) as [l|] eqn:Hlpd.
      * destruct (Z.ltb_spec l nbd); eexists; (split; [reflexivity|]); simpl;
          (split; [auto|]); split; try discriminate; try (intros _; repeat split; eauto; lia).
        intros (_ & _ & [?|(l' & [= <-] & ?)]); [discriminate|lia].
      * eexists; (split; [reflexivity|]); simpl. split; [auto|].
        split; auto.
    + eexists; (split; [reflexivity|]); simpl. split; [auto|].
      split; [discriminate|]. intros (_ & ? & _). lia.
  - destruct (Z.leb_spec (num_or0 (accountBalance bi)) 0); [|lia].
    eexists; (split; [reflexivity|]); simpl. split; [auto|].
    split; [discriminate|]. intros (? & _). lia.
Qed.

(** The account is current whenever its balance is zero, for all dates. *)
Lemma latenessStep_zero_balance env data bi pi :
  billingInfo data = Some bi ->
  paymentInfo data = Some pi ->
  num_or0 (accountBalance bi) = 0 ->
  exists pi', paymentInfo (latenessStep env data) = Some pi' /\ isLate pi' = Some current.
Proof.
  intros Hbi Hpi H0. unfold latenessStep. rewrite Hbi, Hpi, H0.
  destruct (nextBillingDate bi); simpl; eexists; split; reflexivity.
Qed.

(** C3. With a grace period of 0 days, a balance of 100, no payment on
    record and a next billing date of 1 April 2024, the account is two days
    past the billing date plus the grace period on 3 April, and the hook
    still derives the status current: it takes the grace period 0 for an
    absent one and uses 5 days. *)
Theorem C3_grace_zero_evaluates_current :
  let env := envAt (dateString 2024 4 3) in
  let data := graceZeroAccount in
  (0 < 100 /\
   dateString 2024 4 1 + 0 * msPerDay < now env /\
   lastPaymentDate graceZeroPayment = None) /\
  paymentInfo (CommercialAccounts_beforeChange env data)
  = Some (setIsLate graceZeroPayment (Some current)).
Proof. vm_compute. repeat split. Qed.

(** ** Running the hooks *)

Lemma bind_ret_eq {A B} (m : M A) (k : A -> M B) w a w' :
  m w = (Ret a, w') -> bind m k w = k a w'.
Proof. intros H. unfold bind. rewrite H. reflexivity. Qed.

Lemma bind_throw_eq {A B} (m : M A) (k : A -> M B) w e w' :
  m w = (Throw e, w') -> bind m k w = (Throw e, w').
Proof. intros H. unfold bind. rewrite H. reflexivity. Qed.

Lemma tryCatch_ret_eq {A} (m : M A) h w a w' :
  m w = (Ret a, w') -> tryCatch m h w = (Ret a, w').
Proof. intros H. unfold tryCatch. rewrite H. reflexivity. Qed.

Lemma tryCatch_throw_eq {A} (m : M A) h w e w' :
  m w = (Throw e, w') -> tryCatch m h w = h e w'.
Proof. intros H. unfold tryCatch. rewrite H. reflexivity. Qed.

Lemma tryCatch_bind_ret {A B} (m : M A) (k : A -> M B) h w a w' :
  m w = (Ret a, w') -> tryCatch (bind m k) h w = tryCatch (k a) h w'.
Proof. intros H. unfold tryCatch, bind. rewrite H. reflexivity. Qed.

Lemma sameStores_refl w : sameStores w w.
Proof. repeat split. auto. Qed.

Lemma sameStores_trans w1 w2 w3 :
  sameStores w1 w2 -> sameStores w2 w3 -> sameStores w1 w3.
Proof. intros (H1 & H2 & H3) (H4 & H5 & H6). repeat split; try congruence. auto. Qed.

(** *** The notification helpers never touch the database *)

Lemma createStripeInvoice_run env doc a w :
  exists o w', createStripeInvoice env doc a w = (o, w') /\
    o <> Diverge /\ sameStores w w' /\
    calls w' = calls w ++ [CallCreateStripeInvoice] /\
    (forall id, o = Ret id ->
       stripeFails env a doc = false /\
       (truthyS id = true ->
          id = Some (stripeAssignedId env) /\
          STRIPE_SECRET_KEY env = true /\ truthyS (stripeCustomerId a) = true /\
          absent (dueDate doc) = false /\ fails env StripeInvoices = false)) /\
    (stripeFails env a doc = true -> exists e, o = Throw e) /\
    (forall e, o = Throw e -> stripeFails env a doc = true) /\
    (STRIPE_SECRET_KEY env = true -> truthyS (stripeCustomerId a) = true ->
     absent (dueDate doc) = false -> fails env StripeInvoices = false ->
     o = Ret (Some (stripeAssignedId env))).
Proof.
  unfold createStripeInvoice, bind, traceCall, consoleWarn, consoleError, modify, tryCatch,
    stripeFails.
  destruct (STRIPE_SECRET_KEY env); cbn.
  2: { do 2 eexists. split; [reflexivity|]. stores_tac. intros id [= <-]. stores_tac. }
  destruct (stripeCustomerId a) as [cust|]; cbn.
  2: { do 2 eexists. split; [reflexivity|]. stores_tac. intros id [= <-]. stores_tac. }
  destruct (String.eqb cust ""); cbn.
  { do 2 eexists. split; [reflexivity|]. stores_tac. intros id [= <-]. stores_tac. }
  unfold calculateDaysUntilDue.
  destruct (dueDate doc); cbn.
  2: { do 2 eexists. split; [reflexivity|]. stores_tac. eauto. }
  destruct (fails env StripeInvoices); cbn.
  { do 2 eexists. split; [reflexivity|]. stores_tac. eauto. }
  do 2 eexists. split; [reflexivity|]. stores_tac.
  intros id [= <-]. stores_tac.
Qed.

Lemma getInvoicePaymentLink_run env id w :
  exists l w', getInvoicePaymentLink env id w = (Ret l, w') /\
    sameStores w w' /\ calls w' = calls w ++ [CallGetInvoicePaymentLink] /\
    (STRIPE_SECRET_KEY env = true -> fails env StripeRetrieve = true ->
       In (ConsoleError "Error retrieving invoice payment link:") (console w')).
Proof.
  unfold getInvoicePaymentLink, bind, traceCall, consoleError, modify, tryCatch.
  destruct (STRIPE_SECRET_KEY env); cbn.
  2: { do 2 eexists. split; [reflexivity|]. stores_tac. }
  destruct (fails env StripeRetrieve); cbn;
    do 2 eexists; (split; [reflexivity|]); stores_tac.
Qed.

Lemma sendInvoiceEmail_run env a doc id l w :
  exists w', sendInvoiceEmail env a doc id l w = (Ret tt, w') /\
    sameStores w w' /\ calls w' = calls w ++ [CallSendInvoiceEmail] /\
    (mailFails env a = true -> In (ConsoleError "Error sending invoice email:") (console w')).
Proof.
  unfold sendInvoiceEmail, bind, traceCall, consoleError, consoleWarn, modify, tryCatch,
    mailFails.
  destruct (email a) as [addr|]; cbn.
  2: { eexists. split; [reflexivity|]. stores_tac. }
  destruct (String.eqb addr ""); cbn.
  { eexists. split; [reflexivity|]. stores_tac. }
  destruct (SMTP_HOST env); cbn.
  2: { eexists. split; [reflexivity|]. stores_tac. }
  destruct (fails env SendMail); cbn; eexists; (split; [reflexivity|]); stores_tac.
Qed.

(** *** The data sent to the account *)

Lemma lateStatusUpdate_billingInfo a due ov ud :
  ud_billingInfo (lateStatusUpdate a due ov ud) = ud_billingInfo ud.
Proof.
  unfold lateStatusUpdate.
  repeat match goal with
         | |- context [if ?b then _ else _] => destruct b
         end; reflexivity.
Qed.

Lemma lateSection_billingInfo env a doc ud :
  ud_billingInfo (lateSection env a doc ud) = ud_billingInfo ud.
Proof.
  unfold lateSection. destruct (dueDate doc); [|reflexivity].
  destruct (openStatus doc); [|reflexivity].
  apply lateStatusUpdate_billingInfo.
Qed.

(** The grace period survives every update of the payment group. *)
Lemma lateStatusUpdate_grace a due ov ud :
  (forall p, ud_paymentInfo ud = Some p ->
     gracePeriodDays p = gracePeriodDays (spreadPaymentInfo (paymentInfo a))) ->
  exists p, ud_paymentInfo (lateStatusUpdate a due ov ud) = Some p /\
    gracePeriodDays p = gracePeriodDays (spreadPaymentInfo (paymentInfo a)).
Proof.
  intros H. unfold lateStatusUpdate.
  assert (gracePeriodDays
            match ud_paymentInfo ud with
            | Some p => p
            | None => spreadPaymentInfo (paymentInfo a)
            end = gracePeriodDays (spreadPaymentInfo (paymentInfo a))) as Hg
    by (destruct (ud_paymentInfo ud) as [p|]; [apply H|]; reflexivity).
  repeat match goal with
         | |- context [if ?b then _ else _] => destruct b
         end; eexists; (split; [reflexivity|]); exact Hg.
Qed.

Lemma paymentStatusUpdate_grace env a doc op prev nb ud :
  ud_paymentInfo ud = None ->
  forall p, ud_paymentInfo (paymentStatusUpdate env a doc op prev nb ud) = Some p ->
    gracePeriodDays p = gracePeriodDays (spreadPaymentInfo (paymentInfo a)).
Proof.
  intros Hnone p. unfold paymentStatusUpdate.
  destruct op; try (rewrite Hnone; discriminate).
  destruct prev as [prev|]; try (rewrite Hnone; discriminate).
  repeat match goal with
         | |- context [if ?b then _ else _] => destruct b
         end; cbn; rewrite ?Hnone; try discriminate; intros [= <-]; reflexivity.
Qed.

Lemma reconcile_grace env a doc op prev :
  forall p, ud_paymentInfo (reconcile env a doc op prev) = Some p ->
    gracePeriodDays p = gracePeriodDays (spreadPaymentInfo (paymentInfo a)).
Proof.
  intros p. unfold reconcile, lateSection.
  set (ud := paymentStatusUpdate _ _ _ _ _ _ _).
  assert (forall p, ud_paymentInfo ud = Some p ->
            gracePeriodDays p = gracePeriodDays (spreadPaymentInfo (paymentInfo a))) as Hud
    by (intros q; apply paymentStatusUpdate_grace; reflexivity).
  destruct (dueDate doc) as [due|]; [|apply Hud].
  destruct (openStatus doc); [|apply Hud].
  destruct (lateStatusUpdate_grace a due (isOverdueFor env a doc) ud Hud) as (q & Hq & Hg).
  rewrite Hq. intros [= <-]. exact Hg.
Qed.

Lemma reconcile_paymentInfo_open env a doc op prev due :
  dueDate doc = Some due -> openStatus doc = true ->
  exists p, ud_paymentInfo (reconcile env a doc op prev) = Some p.
Proof.
  intros Hd Ho. unfold reconcile, lateSection. rewrite Hd, Ho.
  unfold lateStatusUpdate.
  repeat match goal with
         | |- context [if ?b then _ else _] => destruct b
         end; eexists; reflexivity.
Qed.

Lemma paymentStatusUpdate_balance_some env a doc op prev nb ud :
  is_Some (accountBalance (ud_billingInfo ud)) ->
  is_Some (accountBalance (ud_billingInfo (paymentStatusUpdate env a doc op prev nb ud))).
Proof.
  intros H. unfold paymentStatusUpdate.
  destruct op; try exact H. destruct prev; try exact H.
  repeat match goal with
         | |- context [if ?b then _ else _] => destruct b
         end; cbn; eauto.
Qed.

Lemma reconcile_balance_some env a doc op prev :
  is_Some (accountBalance (ud_billingInfo (reconcile env a doc op prev))).
Proof.
  unfold reconcile. rewrite lateSection_billingInfo.
  apply paymentStatusUpdate_balance_some. cbn. eauto.
Qed.

Lemma mergeAccount_profile a ud : sameProfile a (mergeAccount a ud).
Proof.
  unfold mergeAccount, sameProfile.
  destruct (ud_paymentInfo ud); cbn; repeat split.
Qed.

Lemma sameProfile_trans a b c : sameProfile a b -> sameProfile b c -> sameProfile a c.
Proof. unfold sameProfile. intuition congruence. Qed.

Lemma mergeAccount_billingInfo a ud :
  billingInfo (mergeAccount a ud) = Some (ud_billingInfo ud).
Proof. unfold mergeAccount. destruct (ud_paymentInfo ud); reflexivity. Qed.

Lemma mergeAccount_paymentInfo a ud :
  paymentInfo (mergeAccount a ud) =
  match ud_paymentInfo ud with Some p => Some p | None => paymentInfo a end.
Proof. unfold mergeAccount. destruct (ud_paymentInfo ud); reflexivity. Qed.

Lemma gracePeriodOf_reconcile env a doc op prev :
  gracePeriodOf (mergeAccount a (reconcile env a doc op prev)) = gracePeriodOf a.
Proof.
  unfold gracePeriodOf. rewrite mergeAccount_paymentInfo.
  destruct (ud_paymentInfo (reconcile env a doc op prev)) as [p|] eqn:Hp; [|reflexivity].
  cbn. rewrite (reconcile_grace _ _ _ _ _ _ Hp). reflexivity.
Qed.

(** An update that changes neither the amount nor the payment leaves the
    balance as it is. *)
Lemma reconcile_neutral env a doc prev :
  num_or0 (amount doc) = num_or0 (amount prev) ->
  statusIs (status doc) paid = statusIs (status prev) paid ->
  num_or0 (paidAmount doc) = num_or0 (paidAmount prev) ->
  ud_billingInfo (reconcile env a doc update (Some prev))
  = setAccountBalance (spreadBillingInfo (billingInfo a)) (Some (balanceOf a)).
Proof.
  intros Ha Hs Hp. unfold reconcile. rewrite lateSection_billingInfo.
  unfold paymentStatusUpdate, balanceChangeOf, balanceOf.
  rewrite Ha, Hs, Hp, !Z.sub_diag, Z.add_0_r.
  change (0 =? 0) with true.
  destruct (statusIs (status prev) paid); cbn; reflexivity.
Qed.

(** *** The hooks, step by step *)

Lemma beforeChange_patch env patch w :
  billingDate patch = None -> dueDate patch = None ->
  beforeChange env patch update w = (Ret patch, w).
Proof.
  intros Hb Hd. unfold beforeChange, bind, ret. cbn [isCreate andb].
  rewrite Hb, Hd. reflexivity.
Qed.

Lemma overdueCheck_plain ub env doc a ud w :
  marksOverdue env a doc = false ->
  overdueCheck ub env doc a ud w = (Ret (lateSection env a doc ud), w).
Proof.
  unfold marksOverdue, overdueCheck, lateSection, isOverdueFor, openStatus.
  destruct (dueDate doc) as [due|]; [|reflexivity].
  destruct (negb (statusIs (status doc) paid) && negb (statusIs (status doc) cancelled));
    [|reflexivity].
  cbn [andb]. intros ->. reflexivity.
Qed.

Lemma overdueCheck_mark ub env doc a ud w :
  marksOverdue env a doc = true ->
  overdueCheck ub env doc a ud w
  = bind (ub (docId doc) (setStatus emptyDoc (Some overdue)))
      (fun _ => ret (lateSection env a doc ud)) w.
Proof.
  unfold marksOverdue, overdueCheck, lateSection, isOverdueFor, openStatus.
  destruct (dueDate doc) as [due|]; [|discriminate].
  destruct (negb (statusIs (status doc) paid) && negb (statusIs (status doc) cancelled));
    [|discriminate].
  cbn [andb]. intros ->. reflexivity.
Qed.

Lemma updateAccount_run env id ud w a :
  fails env AccountsUpdate = false -> accounts w !! id = Some a ->
  updateAccount env id ud w = (Ret tt, setAccounts w (<[id := mergeAccount a ud]> (accounts w))).
Proof. intros Hf Ha. unfold updateAccount. rewrite Hf, Ha. reflexivity. Qed.

Lemma findAccountByID_run env id w a :
  fails env AccountsFind = false -> accounts w !! id = Some a ->
  findAccountByID env id w = (Ret (Some a), w).
Proof. intros Hf Ha. unfold findAccountByID. rewrite Hf, Ha. reflexivity. Qed.

(** A run of the hook that neither marks the record overdue nor notifies:
    the account is read, reconciled and written. *)
Lemma afterChange_plain n env doc op prev w accId a :
  fails env AccountsFind = false -> fails env AccountsUpdate = false ->
  accountIdOf doc = Some accId -> accounts w !! accId = Some a ->
  marksOverdue env a doc = false -> notifies op doc = false ->
  afterChangeN (S n) env doc op prev w
  = (Ret tt, setAccounts w (<[accId := mergeAccount a (reconcile env a doc op prev)]> (accounts w))).
Proof.
  intros Hf Hu Hid Ha Hm Hn.
  cbn [afterChangeN]. unfold afterChangeBody. rewrite Hid.
  apply tryCatch_ret_eq.
  rewrite (bind_ret_eq _ _ _ _ _ (findAccountByID_run env accId w a Hf Ha)).
  rewrite (bind_ret_eq _ _ _ _ _ (overdueCheck_plain _ env doc a _ w Hm)).
  fold (reconcile env a doc op prev).
  rewrite (bind_ret_eq _ _ _ _ _ (updateAccount_run env accId _ w a Hu Ha)).
  unfold notifies in Hn. rewrite Hn. reflexivity.
Qed.

Lemma accountIdOf_mergeDoc patch r :
  account patch = None -> accountIdOf (mergeDoc patch r) = accountIdOf r.
Proof. intros H. unfold accountIdOf, mergeDoc. cbn. rewrite H. reflexivity. Qed.

(** [payload.update] on a record, with data that carry no dates, when the
    nested hook run has nothing to mark. *)
Lemma updateBilling_plain n env i patch r w accId a :
  fails env BillingUpdate = false ->
  fails env AccountsFind = false -> fails env AccountsUpdate = false ->
  billing w !! i = Some (Some r) ->
  billingDate patch = None -> dueDate patch = None ->
  accountIdOf (mergeDoc patch r) = Some accId -> accounts w !! accId = Some a ->
  marksOverdue env a (mergeDoc patch r) = false ->
  updateBillingWith (afterChangeN (S n) env) env (Some i) patch w
  = (Ret tt,
     setAccounts (setBilling w (<[i := Some (mergeDoc patch r)]> (billing w)))
       (<[accId := mergeAccount a (reconcile env a (mergeDoc patch r) update (Some r))]>
          (accounts w))).
Proof.
  intros Hb Hf Hu Hr Hbd Hdd Hid Ha Hm.
  unfold updateBillingWith. rewrite Hb.
  unfold bind at 1. unfold get. rewrite Hr.
  rewrite (bind_ret_eq _ _ _ _ _ (beforeChange_patch env patch w Hbd Hdd)).
  unfold bind, modify.
  rewrite (afterChange_plain n env (mergeDoc patch r) update (Some r) _ accId a);
    try assumption; reflexivity.
Qed.

(** *** The notification of a created record *)

Lemma notify_fallback env account doc w (h : Error -> M unit) :
  exists w', (consoleError "Error creating Stripe invoice or sending email:" ;;;
              tryCatch (sendInvoiceEmail env account doc None None) h) w = (Ret tt, w') /\
    sameStores w w' /\ (exists l, calls w' = calls w ++ l) /\
    In (ConsoleError "Error creating Stripe invoice or sending email:") (console w') /\
    (mailFails env account = true ->
       In (ConsoleError "Error sending invoice email:") (console w')).
Proof.
  unfold bind at 1. unfold consoleError, modify.
  destruct (sendInvoiceEmail_run env account doc None None
              (setConsole w (console w ++
                 [ConsoleError "Error creating Stripe invoice or sending email:"])))
    as (w' & Hrun & (Hs1 & Hs2 & Hs3) & Hc & Hmail).
  exists w'. split; [apply tryCatch_ret_eq; exact Hrun|].
  split; [repeat split; try assumption; intros x Hx; apply Hs3; cbn;
          rewrite in_app_iff; tauto|].
  split; [eexists; exact Hc|].
  split; [apply Hs3; cbn; rewrite in_app_iff; cbn; tauto|exact Hmail].
Qed.

Lemma setAccountBalance_same bi B :
  accountBalance bi = Some B -> setAccountBalance bi (Some B) = bi.
Proof. destruct bi; cbn; intros ->; reflexivity. Qed.

Lemma sameRecord_refl d : sameRecord d d.
Proof. unfold sameRecord. repeat split. Qed.

Lemma sameRecord_trans a b c : sameRecord a b -> sameRecord b c -> sameRecord a c.
Proof. unfold sameRecord. intuition congruence. Qed.

Lemma marksOverdue_ext env a a' d d' :
  gracePeriodOf a' = gracePeriodOf a -> dueDate d' = dueDate d -> status d' = status d ->
  marksOverdue env a' d' = marksOverdue env a d.
Proof.
  intros Hg Hd Hs. unfold marksOverdue, isOverdueFor, openStatus.
  rewrite Hg, Hd, Hs. reflexivity.
Qed.

(** The notification always returns normally; it leaves the balance of the
    account and the money of the record as they are; what failed is on the
    console. *)
Lemma notifyCreated_run n env doc account w accId a r i :
  fails env AccountsFind = false -> fails env AccountsUpdate = false ->
  docId doc = Some i -> billing w !! i = Some (Some r) ->
  accountIdOf r = Some accId -> accounts w !! accId = Some a ->
  marksOverdue env a r = false ->
  exists w' a' r',
    notifyCreated (updateBillingWith (afterChangeN (S n) env) env) env doc account w
      = (Ret tt, w') /\
    accounts w' = <[accId := a']> (accounts w) /\
    sameProfile a a' /\
    (forall bi B, billingInfo a = Some bi -> accountBalance bi = Some B ->
       billingInfo a' = Some bi) /\
    billing w' = <[i := Some r']> (billing w) /\
    sameRecord r r' /\ status r' = status r /\
    (exists rest, calls w' = calls w ++ CallCreateStripeInvoice :: rest) /\
    (forall x, In x (console w) -> In x (console w')) /\
    (stripeFails env account doc = true ->
       In (ConsoleError "Error creating Stripe invoice or sending email:") (console w')) /\
    (mailFails env account = true ->
       In (ConsoleError "Error sending invoice email:") (console w')) /\
    (linkFails env account doc = true ->
       In (ConsoleError "Error retrieving invoice payment link:") (console w')).
Proof.
  intros Hf Hu Hdoc Hr Hid Ha Hm.
  assert (forall w1 l, sameStores w w1 -> calls w1 = calls w ++ CallCreateStripeInvoice :: l ->
    exists a' r',
      accounts w1 = <[accId := a']> (accounts w) /\ sameProfile a a' /\
      (forall bi B, billingInfo a = Some bi -> accountBalance bi = Some B ->
         billingInfo a' = Some bi) /\
      billing w1 = <[i := Some r']> (billing w) /\
      sameRecord r r' /\ status r' = status r /\
      (exists rest, calls w1 = calls w ++ CallCreateStripeInvoice :: rest) /\
      (forall x, In x (console w) -> In x (console w1))) as Hsame.
  { intros w1 l (Hs1 & Hs2 & Hs3) Hc. exists a, r. rewrite Hs1, Hs2.
    split; [symmetry; apply insert_id; exact Ha|].
    split; [unfold sameProfile; repeat split|].
    split; [intros bi B Hbi _; exact Hbi|].
    split; [symmetry; apply list_insert_id; exact Hr|].
    split; [apply sameRecord_refl|]. split; [reflexivity|].
    split; [eexists; exact Hc|exact Hs3]. }
  unfold notifyCreated.
  destruct (createStripeInvoice_run env doc account w)
    as (o & w1 & Hrun & Hnd & Hst1 & Hc1 & Hret & Hthrow & Hthrown & Hgood).
  destruct o as [invoiceId|e|]; [| |congruence].
  2: { (* Stripe failed *)
    rewrite (tryCatch_throw_eq _ _ _ _ _ (bind_throw_eq _ _ _ _ _ Hrun)).
    destruct (notify_fallback env account doc w1
                (fun _ => consoleError "Error sending invoice email:"))
      as (w' & Hfb & Hst2 & (l & Hc2) & Hlog & Hmail).
    destruct (Hsame w' ([] ++ l) (sameStores_trans _ _ _ Hst1 Hst2)) as (a' & r' & H).
    { rewrite Hc2, Hc1, <- app_assoc. reflexivity. }
    exists w', a', r'. split; [exact Hfb|].
    destruct H as (H1 & H2 & H3 & H4 & H5 & H6 & H7 & H8).
    repeat (split; [assumption|]).
    split; [intros _; exact Hlog|]. split; [exact Hmail|].
    intros Hl. pose proof (Hthrown _ eq_refl) as Hsf. unfold linkFails, stripeFails in *.
    destruct (STRIPE_SECRET_KEY env), (truthyS (stripeCustomerId account)),
      (absent (dueDate doc)), (fails env StripeInvoices); cbn in *; discriminate. }
  destruct (Hret _ eq_refl) as [Hnf Hid1].
  rewrite (tryCatch_bind_ret _ _ _ _ _ _ Hrun).
  destruct (truthyS invoiceId) eqn:Htruthy.
  2: { (* no invoice: the email goes out without a payment link *)
    destruct (sendInvoiceEmail_run env account doc None None w1)
      as (w' & Hsend & Hst2 & Hc2 & Hmail).
    destruct (Hsame w' [CallSendInvoiceEmail] (sameStores_trans _ _ _ Hst1 Hst2))
      as (a' & r' & H).
    { rewrite Hc2, Hc1, <- app_assoc. reflexivity. }
    exists w', a', r'. split; [apply tryCatch_ret_eq; exact Hsend|].
    destruct H as (H1 & H2 & H3 & H4 & H5 & H6 & H7 & H8).
    repeat (split; [assumption|]).
    split; [intros Hs; congruence|]. split; [exact Hmail|].
    intros Hl. exfalso. unfold linkFails in Hl.
    apply andb_true_iff in Hl as [Hl _]. apply andb_true_iff in Hl as [Hl _].
    apply andb_true_iff in Hl as [Hl Hta]. apply andb_true_iff in Hl as [Hl Hfs].
    apply andb_true_iff in Hl as [Hl Hab]. apply andb_true_iff in Hl as [Hk Hcu].
    apply negb_true_iff in Hfs, Hab.
    specialize (Hgood Hk Hcu Hab Hfs). injection Hgood as ->. congruence. }
  destruct (Hid1 eq_refl) as (-> & Hkey & Hcust & Hdue & Hsi).
  destruct Hst1 as (Hacc1 & Hbil1 & Hcon1).
  destruct (fails env BillingUpdate) eqn:Hb.
  { (* the invoice id cannot be stored *)
    assert (updateBillingWith (afterChangeN (S n) env) env (docId doc)
              (setStripeInvoiceId emptyDoc (Some (stripeAssignedId env))) w1
            = (Throw PersistenceError, w1)) as Hup
      by (unfold updateBillingWith; rewrite Hb; reflexivity).
    rewrite (tryCatch_throw_eq _ _ _ _ _ (bind_throw_eq _ _ _ _ _ Hup)).
    destruct (notify_fallback env account doc w1
                (fun _ => consoleError "Error sending invoice email:"))
      as (w' & Hfb & Hst2 & (l & Hc2) & Hlog & Hmail).
    destruct (Hsame w' ([] ++ l)
                (sameStores_trans _ _ _ (conj Hacc1 (conj Hbil1 Hcon1)) Hst2))
      as (a' & r' & H).
    { rewrite Hc2, Hc1, <- app_assoc. reflexivity. }
    exists w', a', r'. split; [exact Hfb|].
    destruct H as (H1 & H2 & H3 & H4 & H5 & H6 & H7 & H8).
    repeat (split; [assumption|]).
    split; [intros _; exact Hlog|]. split; [exact Hmail|].
    intros Hl. unfold linkFails in Hl. rewrite Hb in Hl. cbn in Hl.
    rewrite !andb_false_r in Hl. discriminate. }
  (* the invoice id is stored, and the hook runs again for that update *)
  set (patch := setStripeInvoiceId emptyDoc (Some (stripeAssignedId env))).
  assert (marksOverdue env a (mergeDoc patch r) = false) as Hm'
    by (rewrite (marksOverdue_ext env a a r (mergeDoc patch r)); auto).
  pose proof (updateBilling_plain n env i patch r w1 accId a Hb Hf Hu
                ltac:(rewrite Hbil1; exact Hr) eq_refl eq_refl
                ltac:(rewrite accountIdOf_mergeDoc; [exact Hid|reflexivity])
                ltac:(rewrite Hacc1; exact Ha) Hm') as Hup.
  rewrite Hdoc.
  rewrite (tryCatch_bind_ret _ _ _ _ _ _ Hup).
  match type of Hup with _ = (_, ?x) => set (w2 := x) in * end.
  destruct (getInvoicePaymentLink_run env (stripeAssignedId env) w2)
    as (l & w3 & Hlink & (Hacc3 & Hbil3 & Hcon3) & Hc3 & Hlinklog).
  cbv iota beta.
  rewrite (tryCatch_bind_ret _ _ _ _ _ _ Hlink).
  destruct (sendInvoiceEmail_run env account doc (Some (stripeAssignedId env)) l w3)
    as (w4 & Hsend & (Hacc4 & Hbil4 & Hcon4) & Hc4 & Hmail).
  exists w4, (mergeAccount a (reconcile env a (mergeDoc patch r) update (Some r))),
    (mergeDoc patch r).
  split; [apply tryCatch_ret_eq; exact Hsend|].
  split; [rewrite Hacc4, Hacc3; subst w2; cbn; rewrite Hacc1; reflexivity|].
  split; [apply mergeAccount_profile|].
  split.
  { intros bi B Hbi HB. rewrite mergeAccount_billingInfo.
    rewrite reconcile_neutral by reflexivity.
    unfold balanceOf. rewrite Hbi. cbn. rewrite HB. cbn.
    rewrite setAccountBalance_same by exact HB. reflexivity. }
  split; [rewrite Hbil4, Hbil3; subst w2; cbn; rewrite Hbil1; reflexivity|].
  split; [unfold sameRecord; repeat split|].
  split; [reflexivity|].
  split; [eexists; rewrite Hc4, Hc3; subst w2; cbn; rewrite Hc1, <- !app_assoc; reflexivity|].
  split; [intros x Hx; apply Hcon4, Hcon3; subst w2; cbn; apply Hcon1; exact Hx|].
  split; [intros Hs; congruence|]. split; [exact Hmail|].
  intros Hl. apply Hcon4, Hlinklog; [exact Hkey|].
  unfold linkFails in Hl. apply andb_true_iff in Hl as [_ Hl]. exact Hl.
Qed.

(** *** A whole run of [afterChange] *)

Lemma marksOverdue_overdue env a d :
  status d = Some overdue -> marksOverdue env a d = false.
Proof.
  intros Hs. unfold marksOverdue. rewrite Hs. cbn.
  destruct (dueDate d); [|reflexivity].
  rewrite !andb_false_r. reflexivity.
Qed.

Lemma marksOverdue_open env a d :
  marksOverdue env a d = true ->
  exists due, dueDate d = Some due /\ openStatus d = true /\ status d = Some pending.
Proof.
  unfold marksOverdue. destruct (dueDate d) as [due|]; [|discriminate].
  intros H. apply andb_true_iff in H as [Ho H]. apply andb_true_iff in H as [_ Hp].
  exists due. split; [reflexivity|]. split; [exact Ho|].
  unfold statusIs in Hp. destruct (status d) as [[]|]; try discriminate. reflexivity.
Qed.

Lemma lookup_lt_length {A} (l : list A) i x : l !! i = Some x -> (i < length l)%nat.
Proof. apply lookup_lt_Some. Qed.

(** When the account is found and can be written, a run of [afterChange]
    leaves the account with the reconciled billing group, and writes the
    stored record [r] at most in its status and its Stripe invoice id. *)
Lemma afterChange_effect n env doc op prev w accId a i r :
  fails env AccountsFind = false -> fails env AccountsUpdate = false ->
  (marksOverdue env a doc = true -> fails env BillingUpdate = false) ->
  accountIdOf doc = Some accId -> accounts w !! accId = Some a ->
  docId doc = Some i -> billing w !! i = Some (Some r) ->
  sameRecord doc r -> (status r = status doc \/ status r = Some overdue) ->
  exists w' a' doc',
    afterChangeN (S (S n)) env doc op prev w = (Ret tt, w') /\
    accounts w' = <[accId := a']> (accounts w) /\
    sameProfile a a' /\
    billingInfo a' = Some (ud_billingInfo (reconcile env a doc op prev)) /\
    billing w' = <[i := Some doc']> (billing w) /\
    sameRecord doc doc' /\
    status doc' = (if marksOverdue env a doc then Some overdue else status r) /\
    (if notifies op doc
     then exists rest, calls w' = calls w ++ CallCreateStripeInvoice :: rest
     else calls w' = calls w) /\
    (forall x, In x (console w) -> In x (console w')) /\
    (notifies op doc = true ->
       (stripeFails env a doc = true ->
          In (ConsoleError "Error creating Stripe invoice or sending email:") (console w')) /\
       (mailFails env a = true ->
          In (ConsoleError "Error sending invoice email:") (console w')) /\
       (linkFails env a doc = true ->
          In (ConsoleError "Error retrieving invoice payment link:") (console w'))).
Proof.
  intros Hf Hu Hbu Hid Ha Hdoc Hr Hsame Hstat.
  set (ud := reconcile env a doc op prev).
  set (ub := updateBillingWith (afterChangeN (S n) env) env).
  assert (accountIdOf r = Some accId) as Hidr.
  { unfold accountIdOf. destruct Hsame as (_ & _ & -> & _). exact Hid. }
  (* the overdue check, with the nested update of the record *)
  assert (exists w1 a1 r1,
    (forall ud0, overdueCheck ub env doc a ud0 w = (Ret (lateSection env a doc ud0), w1)) /\
    accounts w1 = <[accId := a1]> (accounts w) /\ sameProfile a a1 /\
    (marksOverdue env a doc = false -> a1 = a) /\
    billing w1 = <[i := Some r1]> (billing w) /\ sameRecord doc r1 /\
    status r1 = (if marksOverdue env a doc then Some overdue else status r) /\
    calls w1 = calls w /\ console w1 = console w)
    as (w1 & a1 & r1 & Hoc & Hacc1 & Hprof1 & Ha1 & Hbil1 & Hrec1 & Hst1 & Hc1 & Hcon1).
  { destruct (marksOverdue env a doc) eqn:Hm.
    - set (patch := setStatus emptyDoc (Some overdue)).
      pose proof (updateBilling_plain n env i patch r w accId a (Hbu eq_refl) Hf Hu Hr
                    eq_refl eq_refl
                    ltac:(rewrite accountIdOf_mergeDoc; [exact Hidr|reflexivity])
                    Ha ltac:(apply marksOverdue_overdue; reflexivity)) as Hup.
      match type of Hup with _ = (_, ?x) => exists x end.
      exists (mergeAccount a (reconcile env a (mergeDoc patch r) update (Some r))),
        (mergeDoc patch r).
      split.
      { intros ud0. rewrite (overdueCheck_mark _ _ _ _ _ _ Hm). rewrite Hdoc.
        fold patch. fold ub in Hup. rewrite (bind_ret_eq _ _ _ _ _ Hup). reflexivity. }
      split; [reflexivity|]. split; [apply mergeAccount_profile|].
      split; [discriminate|]. split; [reflexivity|].
      split; [eapply sameRecord_trans; [exact Hsame|unfold sameRecord; repeat split]|].
      repeat split.
    - exists w, a, r.
      split; [intros ud0; apply overdueCheck_plain; exact Hm|].
      split; [symmetry; apply insert_id; exact Ha|].
      split; [unfold sameProfile; repeat split|]. split; [reflexivity|].
      split; [symmetry; apply list_insert_id; exact Hr|].
      split; [exact Hsame|]. repeat split. }
  (* the account is written *)
  assert (accounts w1 !! accId = Some a1) as Hla1 by (rewrite Hacc1; apply lookup_insert_eq).
  pose proof (updateAccount_run env accId ud w1 a1 Hu Hla1) as Hupd.
  set (a2 := mergeAccount a1 ud) in *.
  set (w2 := setAccounts w1 (<[accId := a2]> (accounts w1))) in *.
  assert (accounts w2 = <[accId := a2]> (accounts w)) as Hacc2
    by (subst w2; cbn; rewrite Hacc1; apply insert_insert_eq).
  assert (billingInfo a2 = Some (ud_billingInfo ud)) as Hbi2 by apply mergeAccount_billingInfo.
  assert (sameProfile a a2) as Hprof2
    by (eapply sameProfile_trans; [exact Hprof1|apply mergeAccount_profile]).
  assert (gracePeriodOf a2 = gracePeriodOf a) as Hgrace.
  { destruct (marksOverdue env a doc) eqn:Hm.
    - destruct (marksOverdue_open _ _ _ Hm) as (due & Hdue & Hopen & _).
      destruct (reconcile_paymentInfo_open env a doc op prev due Hdue Hopen) as (p & Hp).
      unfold gracePeriodOf. subst a2. rewrite mergeAccount_paymentInfo. fold ud in Hp.
      rewrite Hp. cbn. rewrite (reconcile_grace _ _ _ _ _ _ Hp). reflexivity.
    - subst a2. rewrite (Ha1 eq_refl). apply gracePeriodOf_reconcile. }
  assert (afterChangeN (S (S n)) env doc op prev w
          = tryCatch (if isCreate op && negb (statusIs (status doc) cancelled)
                      then notifyCreated ub env doc a else ret tt)
              (fun _ => consoleError "Error updating account from billing record:") w2) as Hrun.
  { cbn [afterChangeN]. unfold afterChangeBody. rewrite Hid. fold ub.
    rewrite (tryCatch_bind_ret _ _ _ _ _ _ (findAccountByID_run env accId w a Hf Ha)).
    cbv beta iota zeta.
    rewrite (tryCatch_bind_ret _ _ _ _ _ _ (Hoc _)).
    fold (reconcile env a doc op prev). fold ud.
    rewrite (tryCatch_bind_ret _ _ _ _ _ _ Hupd). reflexivity. }
  rewrite Hrun. fold (notifies op doc).
  destruct (notifies op doc) eqn:Hn.
  - (* the customer is notified *)
    assert (billing w2 !! i = Some (Some r1)) as Hlr1.
    { subst w2. cbn. rewrite Hbil1. apply list_lookup_insert_eq.
      apply (lookup_lt_length _ _ _ Hr). }
    assert (accountIdOf r1 = Some accId) as Hid1.
    { unfold accountIdOf. destruct Hrec1 as (_ & _ & -> & _). exact Hid. }
    assert (marksOverdue env a2 r1 = false) as Hm2.
    { destruct (marksOverdue env a doc) eqn:Hm.
      - apply marksOverdue_overdue. exact Hst1.
      - destruct Hstat as [Hs|Hs].
        + rewrite (marksOverdue_ext env a a2 doc r1); auto; [|congruence].
          destruct Hrec1 as (_ & _ & _ & _ & _ & -> & _). reflexivity.
        + apply marksOverdue_overdue. congruence. }
    destruct (notifyCreated_run n env doc a w2 accId a2 r1 i Hf Hu Hdoc Hlr1 Hid1
                ltac:(rewrite Hacc2; apply lookup_insert_eq) Hm2)
      as (w' & a' & r' & Hnot & Hacc' & Hprof' & Hbi' & Hbil' & Hrec' & Hst' & (rest & Hc')
          & Hcon' & Hlog1 & Hlog2 & Hlog3).
    exists w', a', r'.
    split; [apply tryCatch_ret_eq; exact Hnot|].
    split; [rewrite Hacc', Hacc2; apply insert_insert_eq|].
    split; [eapply sameProfile_trans; eassumption|].
    split.
    { destruct (reconcile_balance_some env a doc op prev) as (B & HB). fold ud in HB.
      apply (Hbi' _ B Hbi2 HB). }
    split; [rewrite Hbil'; subst w2; cbn; rewrite Hbil1; apply list_insert_insert_eq|].
    split; [eapply sameRecord_trans; eassumption|].
    split; [rewrite Hst'; exact Hst1|].
    split; [exists rest; rewrite Hc'; subst w2; cbn; rewrite Hc1; reflexivity|].
    split; [intros x Hx; apply Hcon'; subst w2; cbn; rewrite Hcon1; exact Hx|].
    intros _. exact (conj Hlog1 (conj Hlog2 Hlog3)).
  - exists w2, a2, r1.
    split; [reflexivity|]. split; [exact Hacc2|]. split; [exact Hprof2|].
    split; [exact Hbi2|]. split; [subst w2; cbn; exact Hbil1|].
    split; [exact Hrec1|]. split; [exact Hst1|].
    split; [subst w2; cbn; exact Hc1|].
    split; [intros x Hx; subst w2; cbn; rewrite Hcon1; exact Hx|discriminate].
Qed.

(** ** The data of [beforeChange] *)

Lemma beforeChange_run env data op w :
  beforeChange env data op w = (Ret (beforeChangeData env (billingCount w) data op), w).
Proof.
  unfold beforeChange, beforeChangeData, withOverdue, withDueDate, withBillingNumber.
  unfold bind at 1.
  destruct (isCreate op && negb (truthyS (billingNumber data))); reflexivity.
Qed.

(** [beforeChange] writes the billing number, the due date and the status
    only. *)
Lemma withBillingNumber_fields c d op :
  let d' := withBillingNumber c d op in
  docId d' = docId d /\ account d' = account d /\ amount d' = amount d /\
  billingDate d' = billingDate d /\ dueDate d' = dueDate d /\ status d' = status d /\
  paidDate d' = paidDate d /\ paidAmount d' = paidAmount d.
Proof.
  unfold withBillingNumber.
  destruct (isCreate op && negb (truthyS (billingNumber d))); cbn; repeat split.
Qed.

Lemma withDueDate_fields d :
  let d' := withDueDate d in
  docId d' = docId d /\ account d' = account d /\ amount d' = amount d /\
  billingDate d' = billingDate d /\ status d' = status d /\
  paidDate d' = paidDate d /\ paidAmount d' = paidAmount d.
Proof.
  unfold withDueDate.
  destruct (billingDate d) eqn:Hb, (dueDate d) eqn:Hd; cbn; rewrite ?Hb, ?Hd; repeat split.
Qed.

Lemma withOverdue_fields env d :
  let d' := withOverdue env d in
  docId d' = docId d /\ account d' = account d /\ amount d' = amount d /\
  billingDate d' = billingDate d /\ dueDate d' = dueDate d /\
  paidDate d' = paidDate d /\ paidAmount d' = paidAmount d /\
  statusIs (status d') paid = statusIs (status d) paid /\
  (is_Some (status d) -> is_Some (status d')).
Proof.
  unfold withOverdue.
  destruct (dueDate d) eqn:Hd; [|cbn; rewrite ?Hd; repeat split; auto].
  destruct (negb (statusIs (status d) paid) && negb (statusIs (status d) cancelled)) eqn:Ho;
    [|cbn; rewrite ?Hd; repeat split; auto].
  destruct ((setHours0 z <? setHours0 (now env))
            && (absent (status d) || statusIs (status d) pending));
    cbn; rewrite ?Hd; repeat split; auto.
  apply andb_true_iff in Ho as [Ho _]. apply negb_true_iff in Ho. rewrite Ho. reflexivity.
Qed.

Lemma beforeChangeData_fields env c d op :
  let d' := beforeChangeData env c d op in
  docId d' = docId d /\ account d' = account d /\ amount d' = amount d /\
  billingDate d' = billingDate d /\ paidDate d' = paidDate d /\
  paidAmount d' = paidAmount d /\
  statusIs (status d') paid = statusIs (status d) paid /\
  (is_Some (status d) -> is_Some (status d')).
Proof.
  unfold beforeChangeData. cbv zeta.
  destruct (withBillingNumber_fields c d op) as (A1 & A2 & A3 & A4 & A5 & A6 & A7 & A8).
  destruct (withDueDate_fields (withBillingNumber c d op)) as (B1 & B2 & B3 & B4 & B5 & B6 & B7).
  destruct (withOverdue_fields env (withDueDate (withBillingNumber c d op)))
    as (C1 & C2 & C3 & C4 & C5 & C6 & C7 & C8 & C9).
  repeat split; try congruence.
  intros H. apply C9. rewrite B5, A6. exact H.
Qed.

Lemma accountIdOf_beforeChangeData env c data op :
  accountIdOf (beforeChangeData env c data op) = accountIdOf data.
Proof.
  unfold accountIdOf.
  destruct (beforeChangeData_fields env c data op) as (_ & -> & _). reflexivity.
Qed.

Lemma accountIdOf_mergeDoc_some patch r accId :
  accountIdOf r = Some accId ->
  (account patch = None \/ account patch = Some (RefId accId)) ->
  accountIdOf (mergeDoc patch r) = Some accId.
Proof.
  intros Hr [Hp|Hp]; unfold accountIdOf, mergeDoc in *; cbn; rewrite Hp; cbn; [exact Hr|].
  unfold accountIdOf in Hr. destruct (account r) as [[s|s]|]; try discriminate.
  destruct (String.eqb_spec s ""); [discriminate|]. injection Hr as <-.
  destruct (String.eqb_spec s ""); [contradiction|reflexivity].
Qed.

Lemma account_beforeChangeData env c data op :
  account (beforeChangeData env c data op) = account data.
Proof. destruct (beforeChangeData_fields env c data op) as (_ & -> & _). reflexivity. Qed.

(** ** The effect of [afterDelete] *)

(** When the account is found and can be written, [afterDelete] takes the
    amount of the record off the balance, and does nothing else. *)
Lemma afterDelete_effect env doc w accId a :
  fails env AccountsFind = false -> fails env AccountsUpdate = false ->
  accountIdOf doc = Some accId -> accounts w !! accId = Some a ->
  afterDelete env doc w
  = (Ret tt,
     setAccounts w
       (<[accId := setBillingInfo a
            (Some (setAccountBalance (spreadBillingInfo (billingInfo a))
                     (Some (balanceOf a - num_or0 (amount doc)))))]> (accounts w))).
Proof.
  intros Hf Hu Hid Ha.
  unfold afterDelete. rewrite Hid.
  rewrite (tryCatch_bind_ret _ _ _ _ _ _ (findAccountByID_run env accId w a Hf Ha)).
  cbv beta iota zeta.
  rewrite (tryCatch_ret_eq _ _ _ _ _ (updateAccount_run env accId _ w a Hu Ha)).
  reflexivity.
Qed.

(** ** Balances *)

Lemma paymentStatusUpdate_balance env a doc op prev nb ud B :
  accountBalance (ud_billingInfo ud) = Some B ->
  exists B', accountBalance (ud_billingInfo (paymentStatusUpdate env a doc op prev nb ud))
             = Some B'.
Proof.
  intros H. apply paymentStatusUpdate_balance_some. rewrite H. eauto.
Qed.

Lemma reconcile_balance env a doc op prev :
  accountBalance (ud_billingInfo (reconcile env a doc op prev))
  = Some (reconciledBalance a doc op prev).
Proof.
  unfold reconcile, reconciledBalance. rewrite lateSection_billingInfo.
  unfold paymentStatusUpdate, balanceOf.
  destruct op; try reflexivity.
  destruct prev as [prev|]; try reflexivity.
  repeat match goal with
         | |- context [if ?b then _ else _] => destruct b
         end; reflexivity.
Qed.

Lemma balanceOf_billingInfo a bi B :
  billingInfo a = Some bi -> accountBalance bi = Some B -> balanceOf a = B.
Proof. intros H1 H2. unfold balanceOf. rewrite H1. cbn. rewrite H2. reflexivity. Qed.

Lemma balanceOf_reconciled env a a' doc op prev :
  billingInfo a' = Some (ud_billingInfo (reconcile env a doc op prev)) ->
  balanceOf a' = reconciledBalance a doc op prev.
Proof. intros H. eapply balanceOf_billingInfo; [exact H|apply reconcile_balance]. Qed.

Lemma accountIdOf_RefId doc accId :
  account doc = Some (RefId accId) -> accId <> "" -> accountIdOf doc = Some accId.
Proof.
  intros H Hne. unfold accountIdOf. rewrite H.
  destruct (String.eqb_spec accId ""); [contradiction|reflexivity].
Qed.

(** ** Deleting a billing record *)

(** C10. [afterDelete], called with a deleted record whose account
    reference is the id (a non-empty string) of an existing account, sets
    the balance of that account to its previous value minus the amount of
    the record, whatever the status of the record and without a lower bound
    at zero, and changes nothing else: no other field of the account, no
    other account, no billing record, and nothing is logged or sent (the
    reads and writes of the accounts succeeding). *)
Theorem C10_delete_subtracts_amount env doc w accId a :
  fails env AccountsFind = false -> fails env AccountsUpdate = false ->
  account doc = Some (RefId accId) -> accId <> "" ->
  accounts w !! accId = Some a ->
  exists w' a',
    afterDelete env doc w = (Ret tt, w') /\
    accounts w' !! accId = Some a' /\
    balanceOf a' = balanceOf a - num_or0 (amount doc) /\
    paymentInfo a' = paymentInfo a /\
    sameProfile a a' /\
    billingDay (spreadBillingInfo (billingInfo a')) = billingDay (spreadBillingInfo (billingInfo a)) /\
    billingCadence (spreadBillingInfo (billingInfo a'))
      = billingCadence (spreadBillingInfo (billingInfo a)) /\
    nextBillingDate (spreadBillingInfo (billingInfo a'))
      = nextBillingDate (spreadBillingInfo (billingInfo a)) /\
    (forall other, other <> accId -> accounts w' !! other = accounts w !! other) /\
    billing w' = billing w /\ console w' = console w /\ outbox w' = outbox w /\
    stripe w' = stripe w /\ calls w' = calls w.
Proof.
  intros Hf Hu Hacc Hne Ha.
  pose proof (afterDelete_effect env doc w accId a Hf Hu
                (accountIdOf_RefId _ _ Hacc Hne) Ha) as Hrun.
  eexists. eexists. split; [exact Hrun|].
  cbn. split; [apply lookup_insert_eq|].
  repeat split.
  intros other Hother. apply lookup_insert_ne. congruence.
Qed.

Lemma C10_delete_subtracts_amount_witness :
  let doc := sampleRecord 0 75 paid (Some 75) in
  let w := sampleWorld 25 [None] in
  let a := sampleAccount
             (Some {| billingDay := Some 1; billingCadence := Some monthly;
                      nextBillingDate := None; accountBalance := Some 25 |}) None in
  exists w' a',
    afterDelete (envAt (dateString 2024 5 1)) doc w = (Ret tt, w') /\
    accounts w' !! "acc" = Some a' /\
    balanceOf a' = balanceOf a - num_or0 (amount doc) /\
    paymentInfo a' = paymentInfo a /\
    sameProfile a a' /\
    billingDay (spreadBillingInfo (billingInfo a')) = billingDay (spreadBillingInfo (billingInfo a)) /\
    billingCadence (spreadBillingInfo (billingInfo a'))
      = billingCadence (spreadBillingInfo (billingInfo a)) /\
    nextBillingDate (spreadBillingInfo (billingInfo a'))
      = nextBillingDate (spreadBillingInfo (billingInfo a)) /\
    (forall other, other <> "acc" -> accounts w' !! other = accounts w !! other) /\
    billing w' = billing w /\ console w' = console w /\ outbox w' = outbox w /\
    stripe w' = stripe w /\ calls w' = calls w.
Proof.
  apply (C10_delete_subtracts_amount (envAt (dateString 2024 5 1))
           (sampleRecord 0 75 paid (Some 75)) (sampleWorld 25 [None]) "acc"
           (sampleAccount
              (Some {| billingDay := Some 1; billingCadence := Some monthly;
                       nextBillingDate := None; accountBalance := Some 25 |}) None));
    [reflexivity | reflexivity | reflexivity | discriminate | reflexivity].
Defined.

(** The deletion of a paid record of 75, on an account that owes 25, leaves
    a balance of -50. *)
Example delete_paid_goes_negative :
  balanceAt (worldAfter (afterDelete (envAt (dateString 2024 5 1))
                           (sampleRecord 0 75 paid (Some 75)) (sampleWorld 25 [None]))) "acc"
  = -50.
Proof. vm_compute. reflexivity. Qed.

(** ** Creating a billing record *)








(** ** Updating a paid record *)

Lemma marksOverdue_closed env a d : openStatus d = false -> marksOverdue env a d = false.
Proof. intros H. unfold marksOverdue. rewrite H. destruct (dueDate d); reflexivity. Qed.

Lemma marksOverdue_paid env a d : statusIs (status d) paid = true -> marksOverdue env a d = false.
Proof. intros H. apply marksOverdue_closed. unfold openStatus. rewrite H. reflexivity. Qed.

(** A paid record of 75, of which 50 were paid, on an account that owes 10:
    when the paid amount is corrected to 75, [afterChange] leaves a balance
    of 0, not of 10 + (50 - 75). *)
Lemma C6_counterexample :
  let env := envAt (dateString 2024 3 20) in
  let previousDoc := sampleRecord 0 75 paid (Some 50) in
  let doc := sampleRecord 0 75 paid (Some 75) in
  let w := sampleWorld 10 [Some doc] in
  let w' := worldAfter (afterChange env doc update (Some previousDoc) w) in
  balanceAt w' "acc" = 0 /\
  balanceAt w' "acc" <> balanceAt w "acc" + (50 - 75).
Proof. vm_compute. split; [reflexivity|discriminate]. Qed.

(** C6 (amended). [afterChange], called for an update with a document and
    a previous document that are both paid, sets the balance to the
    previous balance plus the change of the amount when the paid amount is
    unchanged, and otherwise to that sum plus the old paid amount minus the
    new one, but not below 0.  So the balance moves by the amount delta plus
    old minus new paid amount whenever that leaves it at 0 or above;
    lowering the paid amount from 75 to 50 with the amount unchanged raises
    a balance of at least -25 by exactly 25.  Nothing else is written. *)
Theorem C6_paid_to_paid env doc previousDoc w accId a :
  fails env AccountsFind = false -> fails env AccountsUpdate = false ->
  accountIdOf doc = Some accId -> accounts w !! accId = Some a ->
  statusIs (status previousDoc) paid = true ->
  statusIs (status doc) paid = true ->
  let delta := num_or0 (amount doc) - num_or0 (amount previousDoc) in
  let old := num_or0 (paidAmount previousDoc) in
  let new := num_or0 (paidAmount doc) in
  exists w' a',
    afterChange env doc update (Some previousDoc) w = (Ret tt, w') /\
    accounts w' !! accId = Some a' /\
    balanceOf a' = (if new =? old then balanceOf a + delta
                    else Z.max 0 (balanceOf a + delta + (old - new))) /\
    (0 <= balanceOf a + delta + (old - new) ->
     balanceOf a' = balanceOf a + delta + (old - new)) /\
    (delta = 0 -> old = 75 -> new = 50 -> -25 <= balanceOf a ->
     balanceOf a' = balanceOf a + 25) /\
    (forall other, other <> accId -> accounts w' !! other = accounts w !! other) /\
    billing w' = billing w /\ console w' = console w /\ outbox w' = outbox w /\
    stripe w' = stripe w /\ calls w' = calls w.
Proof.
  intros Hf Hu Hid Ha Hpr Hpd delta old new.
  pose proof (afterChange_plain 1 env doc update (Some previousDoc) w accId a Hf Hu Hid Ha
                (marksOverdue_paid env a doc Hpd) eq_refl) as Hrun.
  set (a' := mergeAccount a (reconcile env a doc update (Some previousDoc))) in *.
  assert (balanceOf a' = (if new =? old then balanceOf a + delta
                          else Z.max 0 (balanceOf a + delta + (old - new)))) as Hbal.
  { subst a'. rewrite (balanceOf_reconciled env a _ doc update (Some previousDoc))
      by apply mergeAccount_billingInfo.
    unfold reconciledBalance, balanceChangeOf. rewrite Hpd, Hpr.
    cbn [andb negb]. fold delta old new.
    destruct (Z.eqb_spec new old) as [Heq|Hneq].
    - rewrite Heq, Z.sub_diag. reflexivity.
    - destruct (Z.eqb_spec (new - old) 0); [lia|]. cbn [negb]. f_equal. lia. }
  eexists. exists a'. split; [exact Hrun|].
  split; [cbn; apply lookup_insert_eq|].
  split; [exact Hbal|].
  split; [intros Hnn; rewrite Hbal; destruct (Z.eqb_spec new old); lia|].
  split; [intros Hd Ho Hn Hge; rewrite Hbal, Hd, Ho, Hn; cbn; lia|].
  split; [intros other Hne; cbn; apply lookup_insert_ne; congruence|].
  repeat split.
Qed.

Lemma C6_paid_to_paid_witness :
  let env := envAt (dateString 2024 3 20) in
  let previousDoc := sampleRecord 0 75 paid (Some 75) in
  let doc := sampleRecord 0 75 paid (Some 50) in
  let w := sampleWorld 75 [Some doc] in
  let a := sampleAccount
             (Some {| billingDay := Some 1; billingCadence := Some monthly;
                      nextBillingDate := None; accountBalance := Some 75 |}) None in
  let delta := num_or0 (amount doc) - num_or0 (amount previousDoc) in
  let old := num_or0 (paidAmount previousDoc) in
  let new := num_or0 (paidAmount doc) in
  exists w' a',
    afterChange env doc update (Some previousDoc) w = (Ret tt, w') /\
    accounts w' !! "acc" = Some a' /\
    balanceOf a' = (if new =? old then balanceOf a + delta
                    else Z.max 0 (balanceOf a + delta + (old - new))) /\
    (0 <= balanceOf a + delta + (old - new) ->
     balanceOf a' = balanceOf a + delta + (old - new)) /\
    (delta = 0 -> old = 75 -> new = 50 -> -25 <= balanceOf a ->
     balanceOf a' = balanceOf a + 25) /\
    (forall other, other <> "acc" -> accounts w' !! other = accounts w !! other) /\
    billing w' = billing w /\ console w' = console w /\ outbox w' = outbox w /\
    stripe w' = stripe w /\ calls w' = calls w.
Proof.
  apply (C6_paid_to_paid (envAt (dateString 2024 3 20))
           (sampleRecord 0 75 paid (Some 50)) (sampleRecord 0 75 paid (Some 75))
           (sampleWorld 75 [Some (sampleRecord 0 75 paid (Some 50))]) "acc"
           (sampleAccount
              (Some {| billingDay := Some 1; billingCadence := Some monthly;
                       nextBillingDate := None; accountBalance := Some 75 |}) None));
    reflexivity.
Defined.

(** Scenario E: the paid amount of a paid record goes from 75 to 50, and a
    balance of 0 becomes 25. *)
Example scenario_E :
  let doc := sampleRecord 0 75 paid (Some 50) in
  balanceAt (worldAfter (afterChange (envAt (dateString 2024 3 20)) doc update
                           (Some (sampleRecord 0 75 paid (Some 75)))
                           (sampleWorld 0 [Some doc]))) "acc"
  = 25.
Proof. vm_compute. reflexivity. Qed.

(** ** Running a reconciliation again *)

(** The reconciliation of a created record of 75 leaves a balance of 75;
    delivered a second time, it leaves 150. *)
Lemma C4_counterexample :
  let env := envAt (dateString 2024 3 15) in
  let doc := sampleRecord 0 75 pending None in
  let w := sampleWorld 0 [Some doc] in
  let w1 := worldAfter (afterChange env doc create None w) in
  let w2 := worldAfter (afterChange env doc create None w1) in
  balanceAt w1 "acc" = 75 /\ balanceAt w2 "acc" = 150 /\
  balanceAt w2 "acc" <> balanceAt w1 "acc".
Proof. vm_compute. repeat split; discriminate. Qed.

Lemma reconciledBalance_unsettled a doc op prev :
  isCreate op = true \/
  (statusIs (status doc) paid = false /\
   forall p, prev = Some p -> statusIs (status p) paid = false) ->
  reconciledBalance a doc op prev = balanceOf a + balanceChangeOf doc op prev.
Proof.
  intros H. unfold reconciledBalance.
  destruct op; try reflexivity. destruct prev as [p|]; try reflexivity.
  destruct H as [H|[Hd Hp]]; [discriminate|].
  rewrite Hd, (Hp p eq_refl). reflexivity.
Qed.

Lemma balanceAt_lookup w accId a : accounts w !! accId = Some a -> balanceAt w accId = balanceOf a.
Proof. intros H. unfold balanceAt. rewrite H. reflexivity. Qed.

(** C4 (amended). The hook keeps no record of the mutations it has applied:
    when the reconciliation of a create, or of an update in which the record
    is paid neither before nor after, runs a second time, the balance delta
    is applied a second time. *)
Theorem C4_replay_applies_again env doc op prev w accId a i :
  fails env AccountsFind = false -> fails env AccountsUpdate = false ->
  fails env BillingUpdate = false ->
  accountIdOf doc = Some accId -> accounts w !! accId = Some a ->
  docId doc = Some i -> billing w !! i = Some (Some doc) ->
  isCreate op = true \/
  (statusIs (status doc) paid = false /\
   forall p, prev = Some p -> statusIs (status p) paid = false) ->
  exists w1 w2,
    afterChange env doc op prev w = (Ret tt, w1) /\
    afterChange env doc op prev w1 = (Ret tt, w2) /\
    balanceAt w1 accId = balanceAt w accId + balanceChangeOf doc op prev /\
    balanceAt w2 accId = balanceAt w1 accId + balanceChangeOf doc op prev.
Proof.
  intros Hf Hu Hb Hid Ha Hdoc Hr Hun.
  destruct (afterChange_effect 0 env doc op prev w accId a i doc Hf Hu (fun _ => Hb)
              Hid Ha Hdoc Hr (sameRecord_refl doc) (or_introl eq_refl))
    as (w1 & a1 & doc1 & Hrun1 & Hacc1 & _ & Hbi1 & Hbil1 & Hrec1 & Hst1 & _).
  assert (accounts w1 !! accId = Some a1) as Ha1 by (rewrite Hacc1; apply lookup_insert_eq).
  assert (billing w1 !! i = Some (Some doc1)) as Hr1.
  { rewrite Hbil1. apply list_lookup_insert_eq. apply (lookup_lt_Some _ _ _ Hr). }
  destruct (afterChange_effect 0 env doc op prev w1 accId a1 i doc1 Hf Hu (fun _ => Hb)
              Hid Ha1 Hdoc Hr1 Hrec1
              ltac:(rewrite Hst1; destruct (marksOverdue env a doc); auto))
    as (w2 & a2 & doc2 & Hrun2 & Hacc2 & _ & Hbi2 & _).
  exists w1, w2. split; [exact Hrun1|]. split; [exact Hrun2|].
  rewrite (balanceAt_lookup w accId a Ha), (balanceAt_lookup w1 accId a1 Ha1).
  rewrite (balanceAt_lookup w2 accId a2) by (rewrite Hacc2; apply lookup_insert_eq).
  rewrite (balanceOf_reconciled _ _ _ _ _ _ Hbi1), (balanceOf_reconciled _ _ _ _ _ _ Hbi2).
  rewrite !reconciledBalance_unsettled by exact Hun.
  rewrite (balanceOf_reconciled _ _ _ _ _ _ Hbi1).
  rewrite reconciledBalance_unsettled by exact Hun. split; reflexivity.
Qed.

Lemma C4_replay_applies_again_witness :
  let env := envAt (dateString 2024 3 15) in
  let doc := sampleRecord 0 75 pending None in
  let w := sampleWorld 0 [Some doc] in
  exists w1 w2,
    afterChange env doc create None w = (Ret tt, w1) /\
    afterChange env doc create None w1 = (Ret tt, w2) /\
    balanceAt w1 "acc" = balanceAt w "acc" + balanceChangeOf doc create None /\
    balanceAt w2 "acc" = balanceAt w1 "acc" + balanceChangeOf doc create None.
Proof.
  apply (C4_replay_applies_again (envAt (dateString 2024 3 15))
           (sampleRecord 0 75 pending None) create None
           (sampleWorld 0 [Some (sampleRecord 0 75 pending None)]) "acc"
           (sampleAccount
              (Some {| billingDay := Some 1; billingCadence := Some monthly;
                       nextBillingDate := None; accountBalance := Some 0 |}) None) 0%nat);
    try reflexivity. left. reflexivity.
Defined.

(** ** When the account cannot be written *)

Lemma updateAccount_fail env id ud w :
  fails env AccountsUpdate = true -> updateAccount env id ud w = (Throw PersistenceError, w).
Proof. intros H. unfold updateAccount. rewrite H. reflexivity. Qed.

(** A run of the hook that has nothing to mark: the failed write is caught
    and logged. *)
Lemma afterChange_plain_fail n env doc op prev w accId a :
  fails env AccountsFind = false -> fails env AccountsUpdate = true ->
  accountIdOf doc = Some accId -> accounts w !! accId = Some a ->
  marksOverdue env a doc = false ->
  afterChangeN (S n) env doc op prev w
  = (Ret tt, setConsole w (console w ++ [updateErrorEntry])).
Proof.
  intros Hf Hu Hid Ha Hm.
  cbn [afterChangeN]. unfold afterChangeBody. rewrite Hid.
  rewrite (tryCatch_bind_ret _ _ _ _ _ _ (findAccountByID_run env accId w a Hf Ha)).
  cbv beta iota zeta.
  rewrite (tryCatch_bind_ret _ _ _ _ _ _ (overdueCheck_plain _ env doc a _ w Hm)).
  rewrite (tryCatch_throw_eq _ _ _ _ _
             (bind_throw_eq _ _ _ _ _ (updateAccount_fail env accId _ w Hu))).
  reflexivity.
Qed.

Lemma afterChange_write_fails n env doc op prev w accId a i r :
  fails env AccountsFind = false -> fails env AccountsUpdate = true ->
  accountIdOf doc = Some accId -> accounts w !! accId = Some a ->
  docId doc = Some i -> billing w !! i = Some (Some r) -> sameRecord doc r ->
  exists w' r',
    afterChangeN (S (S n)) env doc op prev w = (Ret tt, w') /\
    accounts w' = accounts w /\
    billing w' = <[i := Some r']> (billing w) /\ sameRecord doc r' /\
    calls w' = calls w /\ outbox w' = outbox w /\
    In updateErrorEntry (console w').
Proof.
  intros Hf Hu Hid Ha Hdoc Hr Hsame.
  assert (accountIdOf r = Some accId) as Hidr.
  { unfold accountIdOf. destruct Hsame as (_ & _ & -> & _). exact Hid. }
  set (ub := updateBillingWith (afterChangeN (S n) env) env).
  assert (forall w1 (k : UpdateData -> M unit) ud,
            (forall u, k u w1 = (Throw PersistenceError, w1)) ->
            tryCatch (bind (ret ud) k)
              (fun _ => consoleError "Error updating account from billing record:") w1
            = (Ret tt, setConsole w1 (console w1 ++ [updateErrorEntry]))) as Hcatch.
  { intros w1 k ud Hk. unfold tryCatch, bind, ret. rewrite Hk. reflexivity. }
  cbn [afterChangeN]. unfold afterChangeBody. rewrite Hid. fold ub.
  rewrite (tryCatch_bind_ret _ _ _ _ _ _ (findAccountByID_run env accId w a Hf Ha)).
  cbv beta iota zeta.
  destruct (marksOverdue env a doc) eqn:Hm.
  - (* the record is to be marked overdue first *)
    destruct (fails env BillingUpdate) eqn:Hb.
    + assert (forall ud0, overdueCheck ub env doc a ud0 w = (Throw PersistenceError, w)) as Hoc.
      { intros ud0. rewrite (overdueCheck_mark _ _ _ _ _ _ Hm).
        apply bind_throw_eq. subst ub. unfold updateBillingWith. rewrite Hb. reflexivity. }
      rewrite (tryCatch_throw_eq _ _ _ _ _ (bind_throw_eq _ _ _ _ _ (Hoc _))).
      exists (setConsole w (console w ++ [updateErrorEntry])), r.
      split; [reflexivity|]. split; [reflexivity|].
      split; [symmetry; apply list_insert_id; exact Hr|].
      split; [exact Hsame|]. split; [reflexivity|]. split; [reflexivity|].
      cbn. rewrite in_app_iff. right. left. reflexivity.
    + set (patch := setStatus emptyDoc (Some overdue)).
      set (w0 := setBilling w (<[i := Some (mergeDoc patch r)]> (billing w))).
      assert (ub (docId doc) patch w
              = (Ret tt, setConsole w0 (console w0 ++ [updateErrorEntry]))) as Hup.
      { subst ub. unfold updateBillingWith. rewrite Hb, Hdoc.
        unfold bind at 1. unfold get. rewrite Hr.
        rewrite (bind_ret_eq _ _ _ _ _ (beforeChange_patch env patch w eq_refl eq_refl)).
        unfold bind at 1. unfold modify. fold w0.
        apply (afterChange_plain_fail n env (mergeDoc patch r) update (Some r) w0 accId a
                 Hf Hu).
        - unfold patch. rewrite accountIdOf_mergeDoc; [exact Hidr|reflexivity].
        - exact Ha.
        - apply marksOverdue_overdue. reflexivity. }
      assert (forall ud0, overdueCheck ub env doc a ud0 w
                = (Ret (lateSection env a doc ud0),
                   setConsole w0 (console w0 ++ [updateErrorEntry]))) as Hoc.
      { intros ud0. rewrite (overdueCheck_mark _ _ _ _ _ _ Hm). fold patch.
        rewrite (bind_ret_eq _ _ _ _ _ Hup). reflexivity. }
      rewrite (tryCatch_bind_ret _ _ _ _ _ _ (Hoc _)).
      rewrite (tryCatch_throw_eq _ _ _ _ _
                 (bind_throw_eq _ _ _ _ _ (updateAccount_fail env accId _ _ Hu))).
      eexists. exists (mergeDoc patch r).
      split; [reflexivity|]. cbn. split; [reflexivity|]. split; [reflexivity|].
      split; [eapply sameRecord_trans; [exact Hsame|unfold sameRecord; repeat split]|].
      split; [reflexivity|]. split; [reflexivity|].
      rewrite !in_app_iff. right. left. reflexivity.
  - rewrite (tryCatch_bind_ret _ _ _ _ _ _ (overdueCheck_plain _ env doc a _ w Hm)).
    rewrite (tryCatch_throw_eq _ _ _ _ _
               (bind_throw_eq _ _ _ _ _ (updateAccount_fail env accId _ w Hu))).
    exists (setConsole w (console w ++ [updateErrorEntry])), r.
    split; [reflexivity|]. split; [reflexivity|].
    split; [symmetry; apply list_insert_id; exact Hr|].
    split; [exact Hsame|]. split; [reflexivity|]. split; [reflexivity|].
    cbn. rewrite in_app_iff. right. left. reflexivity.
Qed.

(** On a server that cannot write the accounts, [afterChange] for a created
    record of 75 returns normally, so that the create is reported as
    successful: the record is still in the collection, and the balance of
    the account is still 0. *)
Lemma C2_counterexample :
  let env := envAccountsReadOnly (dateString 2024 3 15) in
  let doc := sampleRecord 0 75 pending None in
  let w := sampleWorld 0 [Some doc] in
  let r := afterChange env doc create None w in
  r.1 = Ret tt /\
  billing (worldAfter r) !! 0%nat = Some (Some doc) /\
  balanceAt (worldAfter r) "acc" = 0 /\
  accounts (worldAfter r) = accounts w.
Proof. vm_compute. repeat split. Qed.

(** C2 (amended). If persisting the account update fails, the hook catches
    and logs the failure and returns normally: the billing record stays
    saved (at most marked overdue), no account is changed, no notification
    is attempted, and nothing is reported to the caller. *)
Theorem C2_account_write_failure_is_swallowed env doc op prev w accId a i :
  fails env AccountsFind = false -> fails env AccountsUpdate = true ->
  accountIdOf doc = Some accId -> accounts w !! accId = Some a ->
  docId doc = Some i -> billing w !! i = Some (Some doc) ->
  exists w' stored,
    afterChange env doc op prev w = (Ret tt, w') /\
    accounts w' = accounts w /\
    billing w' !! i = Some (Some stored) /\ sameRecord doc stored /\
    calls w' = calls w /\ outbox w' = outbox w /\
    In updateErrorEntry (console w').
Proof.
  intros Hf Hu Hid Ha Hdoc Hr.
  destruct (afterChange_write_fails 0 env doc op prev w accId a i doc Hf Hu Hid Ha Hdoc Hr
              (sameRecord_refl doc))
    as (w' & r' & Hrun & Hacc & Hbil & Hrec & Hcalls & Hout & Hlog).
  exists w', r'. split; [exact Hrun|]. split; [exact Hacc|].
  split; [rewrite Hbil; apply list_lookup_insert_eq; apply (lookup_lt_Some _ _ _ Hr)|].
  auto.
Qed.

Lemma C2_account_write_failure_is_swallowed_witness :
  let env := envAccountsReadOnly (dateString 2024 3 15) in
  let doc := sampleRecord 0 75 pending None in
  let w := sampleWorld 0 [Some doc] in
  exists w' stored,
    afterChange env doc create None w = (Ret tt, w') /\
    accounts w' = accounts w /\
    billing w' !! 0%nat = Some (Some stored) /\ sameRecord doc stored /\
    calls w' = calls w /\ outbox w' = outbox w /\
    In updateErrorEntry (console w').
Proof.
  apply (C2_account_write_failure_is_swallowed (envAccountsReadOnly (dateString 2024 3 15))
           (sampleRecord 0 75 pending None) create None
           (sampleWorld 0 [Some (sampleRecord 0 75 pending None)]) "acc"
           (sampleAccount
              (Some {| billingDay := Some 1; billingCadence := Some monthly;
                       nextBillingDate := None; accountBalance := Some 0 |}) None) 0%nat);
    reflexivity.
Defined.

(** ** The notification of the customer *)

Lemma notifies_iff op doc :
  notifies op doc = true <-> op = create /\ status doc <> Some cancelled.
Proof.
  unfold notifies, isCreate, statusIs. split.
  - intros H. apply andb_true_iff in H as [H1 H2].
    destruct op; try discriminate. split; [reflexivity|].
    intros Hs. rewrite Hs in H2. discriminate.
  - intros [-> Hs]. destruct (status doc) as [[]|]; cbn; try reflexivity. congruence.
Qed.

Lemma app_cons_not_self {A} (l rest : list A) x : l <> l ++ x :: rest.
Proof.
  intros H. apply (f_equal (@length A)) in H. rewrite length_app in H. cbn in H. lia.
Qed.

(** C8. When the reconciliation of a billing-record mutation has succeeded,
    the invoice-and-email notification is attempted exactly when the
    mutation is a create whose record is not cancelled.  Whatever fails in
    it (the creation of the Stripe invoice, the storing of its id, the
    retrieval of the payment link, the sending of the email) is caught and
    logged: the hook returns normally and the account keeps the reconciled
    balance. *)
Theorem C8_notification_is_isolated env doc op prev w accId a i :
  fails env AccountsFind = false -> fails env AccountsUpdate = false ->
  (marksOverdue env a doc = true -> fails env BillingUpdate = false) ->
  accountIdOf doc = Some accId -> accounts w !! accId = Some a ->
  docId doc = Some i -> billing w !! i = Some (Some doc) ->
  exists w' a',
    afterChange env doc op prev w = (Ret tt, w') /\
    ((exists rest, calls w' = calls w ++ CallCreateStripeInvoice :: rest)
     <-> op = create /\ status doc <> Some cancelled) /\
    accounts w' !! accId = Some a' /\
    balanceOf a' = reconciledBalance a doc op prev /\
    (op = create /\ status doc <> Some cancelled ->
       (stripeFails env a doc = true ->
          In (ConsoleError "Error creating Stripe invoice or sending email:") (console w')) /\
       (mailFails env a = true ->
          In (ConsoleError "Error sending invoice email:") (console w')) /\
       (linkFails env a doc = true ->
          In (ConsoleError "Error retrieving invoice payment link:") (console w'))).
Proof.
  intros Hf Hu Hbu Hid Ha Hdoc Hr.
  destruct (afterChange_effect 0 env doc op prev w accId a i doc Hf Hu Hbu Hid Ha Hdoc Hr
              (sameRecord_refl doc) (or_introl eq_refl))
    as (w' & a' & doc' & Hrun & Hacc & _ & Hbi & _ & _ & _ & Hcalls & _ & Hlog).
  exists w', a'. split; [exact Hrun|].
  split.
  { rewrite <- notifies_iff. destruct (notifies op doc).
    - split; auto.
    - split; [|discriminate]. intros (rest & Hrest). rewrite Hcalls in Hrest.
      exfalso. exact (app_cons_not_self _ _ _ Hrest). }
  split; [rewrite Hacc; apply lookup_insert_eq|].
  split; [apply (balanceOf_reconciled _ _ _ _ _ _ Hbi)|].
  intros Hn. apply Hlog. apply notifies_iff. exact Hn.
Qed.

Lemma C8_notification_is_isolated_witness :
  let env := envNotifierDown (dateString 2024 3 15) in
  let doc := sampleRecord 0 75 pending None in
  let w := sampleWorld 0 [Some doc] in
  let a := sampleAccount
             (Some {| billingDay := Some 1; billingCadence := Some monthly;
                      nextBillingDate := None; accountBalance := Some 0 |}) None in
  exists w' a',
    afterChange env doc create None w = (Ret tt, w') /\
    ((exists rest, calls w' = calls w ++ CallCreateStripeInvoice :: rest)
     <-> create = create /\ status doc <> Some cancelled) /\
    accounts w' !! "acc" = Some a' /\
    balanceOf a' = reconciledBalance a doc create None /\
    (create = create /\ status doc <> Some cancelled ->
       (stripeFails env a doc = true ->
          In (ConsoleError "Error creating Stripe invoice or sending email:") (console w')) /\
       (mailFails env a = true ->
          In (ConsoleError "Error sending invoice email:") (console w')) /\
       (linkFails env a doc = true ->
          In (ConsoleError "Error retrieving invoice payment link:") (console w'))).
Proof.
  apply (C8_notification_is_isolated (envNotifierDown (dateString 2024 3 15))
           (sampleRecord 0 75 pending None) create None
           (sampleWorld 0 [Some (sampleRecord 0 75 pending None)]) "acc"
           (sampleAccount
              (Some {| billingDay := Some 1; billingCadence := Some monthly;
                       nextBillingDate := None; accountBalance := Some 0 |}) None) 0%nat);
    reflexivity.
Defined.

(** With Stripe and the mail transport down, the reconciliation of a
    created record of 75 still leaves the balance at 75, and both failures
    are on the console. *)
Example notifier_down :
  let doc := sampleRecord 0 75 pending None in
  let w' := worldAfter (afterChange (envNotifierDown (dateString 2024 3 15)) doc create None
                          (sampleWorld 0 [Some doc])) in
  balanceAt w' "acc" = 75 /\
  console w' = [ConsoleError "Error creating Stripe invoice:";
                ConsoleError "Error creating Stripe invoice or sending email:";
                ConsoleError "Error sending invoice email:"] /\
  outbox w' = [].
Proof. vm_compute. repeat split. Qed.

(** ** Sequential identifiers *)

(** *** The padded decimal form of a number *)

Lemma zeros_parse k s d :
  NilEmpty.uint_of_string s = Some d ->
  exists d', NilEmpty.uint_of_string (String.append (repeatString k "0") s) = Some d' /\
             Nat.of_uint d' = Nat.of_uint d.
Proof.
  intros H. induction k as [|k (d' & IH & Hn)].
  - exists d. split; [exact H|reflexivity].
  - exists (Decimal.D0 d'). split.
    + change (String.append (repeatString (S k) "0") s)
        with (String "0" (String.append (repeatString k "0") s)).
      cbn [NilEmpty.uint_of_string]. rewrite IH. reflexivity.
    + rewrite <- Hn. reflexivity.
Qed.

Lemma zeroPad_parse n w :
  option_map Nat.of_uint (NilEmpty.uint_of_string (zeroPad n w)) = Some n.
Proof.
  unfold zeroPad, padStart0, String_of_nat.
  destruct (zeros_parse (w - String.length (NilEmpty.string_of_uint (Nat.to_uint n)))
              _ _ (NilEmpty.usu (Nat.to_uint n))) as (d' & -> & Hn).
  cbn [option_map]. rewrite Hn, DecimalNat.Unsigned.of_to. reflexivity.
Qed.

Lemma length_append_string a b : String.length (String.append a b) = (String.length a + String.length b)%nat.
Proof.
  induction a as [|c a IH]; [reflexivity|].
  change (S (String.length (String.append a b)) = S (String.length a + String.length b)).
  f_equal. exact IH.
Qed.

Lemma length_repeatString k : String.length (repeatString k "0") = k.
Proof.
  induction k as [|k IH]; [reflexivity|].
  change (S (String.length (repeatString k "0")) = S k). f_equal. exact IH.
Qed.

Lemma zeroPad_inj n m w : zeroPad n w = zeroPad m w -> n = m.
Proof.
  intros H. pose proof (zeroPad_parse n w) as Hn. rewrite H, zeroPad_parse in Hn. congruence.
Qed.

Lemma append_cancel_l p s t : String.append p s = String.append p t -> s = t.
Proof.
  induction p as [|c p IH]; intros H; [exact H|].
  change (String c (String.append p s) = String c (String.append p t)) in H.
  injection H as H. exact (IH H).
Qed.

(** *** Invoice numbers *)

Example zeroPad_1 : zeroPad 1 6 = "000001"%string.
Proof. reflexivity. Qed.

Example zeroPad_1234567 : zeroPad (Z.to_nat 1234567) 6 = "1234567"%string.
Proof. vm_compute. reflexivity. Qed.

Lemma prefix_app_l a b s : String.prefix (String.append a b) s = true -> String.prefix a s = true.
Proof.
  revert s. induction a as [|c a IH]; intros s H.
  - destruct s; reflexivity.
  - destruct s as [|c' s]; [discriminate H|].
    change (String.prefix (String c (String.append a b)) (String c' s) = true) in H.
    cbn [String.prefix] in *.
    destruct (ascii_dec c c'); [apply IH; exact H|discriminate H].
Qed.

Lemma prefix_lowerCase a s :
  String.prefix a s = true -> String.prefix (lowerCase a) (lowerCase s) = true.
Proof.
  revert s. induction a as [|c a IH]; intros s H.
  - destruct s; reflexivity.
  - destruct s as [|c' s]; [discriminate H|].
    cbn [String.prefix lowerCase] in *.
    destruct (ascii_dec c c') as [->|]; [|discriminate H].
    destruct (ascii_dec (lowerChar c') (lowerChar c')); [apply IH; exact H|contradiction].
Qed.

Lemma includes_prefix s sub : String.prefix sub s = true -> includes s sub = true.
Proof.
  intros H. destruct s; [destruct sub; [reflexivity|discriminate H]|].
  cbn [includes]. rewrite H. reflexivity.
Qed.

(** A number that starts with the code and a dash contains the code, and
    is not empty. *)
Lemma startsWith_contains inv code :
  numberStartsWith inv (String.append code "-") = true ->
  containsOp (invoiceNumber inv) code = true /\ truthyS (invoiceNumber inv) = true.
Proof.
  unfold numberStartsWith, startsWith, containsOp, truthyS.
  destruct (invoiceNumber inv) as [n|]; [|discriminate].
  intros H. split.
  - apply includes_prefix, prefix_lowerCase. exact (prefix_app_l _ _ _ H).
  - destruct n; [|reflexivity]. destruct code; discriminate H.
Qed.

Lemma filter_filter_startsWith code l :
  List.filter (fun inv => truthyS (invoiceNumber inv)
                          && numberStartsWith inv (String.append code "-"))
    (List.filter (fun inv => containsOp (invoiceNumber inv) code) l)
  = List.filter (fun inv => numberStartsWith inv (String.append code "-")) l.
Proof.
  induction l as [|inv l IH]; [reflexivity|].
  cbn [List.filter].
  destruct (numberStartsWith inv (String.append code "-")) eqn:Hs.
  - destruct (startsWith_contains inv code Hs) as [Hc Ht].
    rewrite Hc. cbn [List.filter]. rewrite Ht, Hs. cbn. f_equal. exact IH.
  - destruct (containsOp (invoiceNumber inv) code); [|exact IH].
    cbn [List.filter]. rewrite Hs, andb_false_r. exact IH.
Qed.

Lemma filter_startsWith_truthy code l :
  List.filter (fun inv => truthyS (invoiceNumber inv)
                          && numberStartsWith inv (String.append code "-")) l
  = List.filter (fun inv => numberStartsWith inv (String.append code "-")) l.
Proof.
  induction l as [|inv l IH]; [reflexivity|].
  cbn [List.filter].
  destruct (numberStartsWith inv (String.append code "-")) eqn:Hs.
  - destruct (startsWith_contains inv code Hs) as [_ Ht]. rewrite Ht. cbn. f_equal. exact IH.
  - rewrite andb_false_r. exact IH.
Qed.

(** The number that the hook computes counts the invoices of that page. *)
Lemma nextInvoiceNumber_page env code w :
  fails env InvoicesFind = false ->
  nextInvoiceNumber env code w
  = (Ret (String.append code
            (String.append "-"
               (zeroPad (countWithPrefix (String.append code "-") (invoicePage code w) + 1) 6))),
     w).
Proof.
  intros Hf. unfold nextInvoiceNumber, findInvoicesContaining.
  unfold bind. rewrite Hf. unfold ret.
  rewrite filter_startsWith_truthy. reflexivity.
Qed.

Lemma invoicePage_all code w :
  (countContaining code (invoices w) <= 1000)%nat ->
  countWithPrefix (String.append code "-") (invoicePage code w)
  = countWithPrefix (String.append code "-") (invoices w).
Proof.
  intros Hc. unfold invoicePage, countWithPrefix.
  rewrite take_ge by exact Hc.
  rewrite <- (filter_filter_startsWith code (invoices w)).
  rewrite filter_startsWith_truthy. reflexivity.
Qed.

Lemma nextInvoiceNumber_run env code w :
  fails env InvoicesFind = false ->
  (countContaining code (invoices w) <= 1000)%nat ->
  nextInvoiceNumber env code w
  = (Ret (String.append code
            (String.append "-"
               (zeroPad (countWithPrefix (String.append code "-") (invoices w) + 1) 6))), w).
Proof.
  intros Hf Hc. rewrite (nextInvoiceNumber_page env code w Hf), (invoicePage_all code w Hc).
  reflexivity.
Qed.

Lemma filter_length_le {A} (f : A -> bool) l : (length (List.filter f l) <= length l)%nat.
Proof. induction l as [|x l IH]; cbn; [lia|]. destruct (f x); cbn; lia. Qed.

Lemma invoicePage_count code w :
  (countWithPrefix (String.append code "-") (invoicePage code w) <= 1000)%nat.
Proof.
  unfold countWithPrefix, invoicePage.
  etransitivity; [apply filter_length_le|]. rewrite length_take. lia.
Qed.

(** The invoice number of an invoice that has none, when the lookups of
    the customer, of the borough and of the invoices succeed. *)
Lemma Invoices_beforeChange_number env data originalDoc w customerId a boroughId b code :
  fails env AccountsFind = false -> fails env BoroughsFind = false ->
  fails env InvoicesFind = false ->
  refId (customer data) = Some customerId ->
  truthyS (invoiceNumber data) = false ->
  accounts w !! customerId = Some a ->
  refId (borough a) = Some boroughId ->
  boroughs w !! boroughId = Some b ->
  boroughCode b = Some code -> code <> ""%string ->
  Invoices_beforeChange env data originalDoc w
  = (Ret (setInvoiceNumber data
            (Some (String.append code
                     (String.append "-"
                        (zeroPad (countWithPrefix (String.append code "-")
                                    (invoicePage code w) + 1) 6))))), w).
Proof.
  intros Hfa Hfb Hfi Hcust Hnum Ha Hbor Hb Hcode Hne.
  unfold Invoices_beforeChange. rewrite Hcust, Hnum. cbn [negb orb].
  apply tryCatch_ret_eq.
  rewrite (bind_ret_eq _ _ _ _ _ (findAccountByID_run env customerId w a Hfa Ha)).
  cbv beta iota. rewrite Hbor.
  assert (findBoroughByID env boroughId w = (Ret (Some b), w)) as Hfind
    by (unfold findBoroughByID; rewrite Hfb, Hb; reflexivity).
  rewrite (bind_ret_eq _ _ _ _ _ Hfind). cbv beta iota.
  rewrite Hcode.
  assert (truthyS (Some code) = true) as ->
    by (cbn; destruct (String.eqb_spec code ""); [contradiction|reflexivity]).
  rewrite (bind_ret_eq _ _ _ _ _ (nextInvoiceNumber_page env code w Hfi)).
  reflexivity.
Qed.

(** Within the limit of the query.  A billing record created without a billing
    number gets BILL- and the number of billing records plus one, padded
    with zeros to 6 digits.  An invoice without a number, for a customer
    whose borough has the code C, gets C, a dash and the number of invoices
    whose number starts with C and a dash, plus one, padded to 6 digits, as
    long as at most 1000 invoice numbers contain C. *)
Lemma sequential_identifiers_within_limit :
  (forall env data w,
     truthyS (billingNumber data) = false ->
     exists doc,
       beforeChange env data create w = (Ret doc, w) /\
       billingNumber doc
       = Some (String.append "BILL-" (zeroPad (billingCount w + 1) 6))) /\
  (forall env data originalDoc w customerId a boroughId b code,
     fails env AccountsFind = false -> fails env BoroughsFind = false ->
     fails env InvoicesFind = false ->
     refId (customer data) = Some customerId ->
     truthyS (invoiceNumber data) = false ->
     accounts w !! customerId = Some a ->
     refId (borough a) = Some boroughId ->
     boroughs w !! boroughId = Some b ->
     boroughCode b = Some code -> code <> ""%string ->
     (countContaining code (invoices w) <= 1000)%nat ->
     exists doc,
       Invoices_beforeChange env data originalDoc w = (Ret doc, w) /\
       invoiceNumber doc
       = Some (String.append code
                 (String.append "-"
                    (zeroPad (countWithPrefix (String.append code "-") (invoices w) + 1) 6)))).
Proof.
  split.
  - intros env data w Ht. eexists. split; [apply beforeChange_run|].
    unfold beforeChangeData.
    assert (billingNumber (withBillingNumber (billingCount w) data create)
            = Some (String.append "BILL-" (zeroPad (billingCount w + 1) 6))) as Hn
      by (unfold withBillingNumber; cbn [isCreate andb]; rewrite Ht; reflexivity).
    set (d1 := withBillingNumber (billingCount w) data create) in *.
    unfold withDueDate, withOverdue.
    repeat match goal with
           | |- context [match ?x with _ => _ end] => destruct x; cbn
           end; exact Hn.
  - intros env data originalDoc w customerId a boroughId b code
      Hfa Hfb Hfi Hcust Hnum Ha Hbor Hb Hcode Hne Hcount.
    eexists. split.
    + apply (Invoices_beforeChange_number env data originalDoc w customerId a boroughId b code);
        assumption.
    + cbn [invoiceNumber setInvoiceNumber]. rewrite (invoicePage_all code w Hcount). reflexivity.
Qed.

Example sequential_identifiers :
  (exists doc,
     beforeChange (envAt 0) (sampleData 75) create (sampleWorld 0 []) = (Ret doc, sampleWorld 0 []) /\
     billingNumber doc = Some "BILL-000001"%string) /\
  (exists doc,
     Invoices_beforeChange (envAt 0) newInvoice None (invoiceWorld 41)
       = (Ret doc, invoiceWorld 41) /\
     invoiceNumber doc = Some "NY-000042"%string).
Proof.
  destruct sequential_identifiers_within_limit as [Hbill Hinv]. split.
  - apply (Hbill (envAt 0) (sampleData 75) (sampleWorld 0 [])). reflexivity.
  - apply (Hinv (envAt 0) newInvoice None (invoiceWorld 41) "acc"
             (sampleAccount None None) "b1" boroughNY "NY"%string);
      try reflexivity; [discriminate | vm_compute; lia].
Qed.

(** C9 (the code diverges).  The invoice hook counts the invoices under
    the code C in the page of at most 1000 invoices that its query returns.
    Once more than 1000 invoice numbers start with C and a dash, the number
    that it assigns is at most C-001001 and is not C, a dash and the count
    of those invoices plus one. *)
Theorem C9_invoice_number_stops_at_limit env data originalDoc w customerId a boroughId b code :
  fails env AccountsFind = false -> fails env BoroughsFind = false ->
  fails env InvoicesFind = false ->
  refId (customer data) = Some customerId ->
  truthyS (invoiceNumber data) = false ->
  accounts w !! customerId = Some a ->
  refId (borough a) = Some boroughId ->
  boroughs w !! boroughId = Some b ->
  boroughCode b = Some code -> code <> ""%string ->
  (1000 < countWithPrefix (String.append code "-") (invoices w))%nat ->
  exists doc n,
    Invoices_beforeChange env data originalDoc w = (Ret doc, w) /\
    invoiceNumber doc = Some (String.append code (String.append "-" (zeroPad n 6))) /\
    (n <= 1001)%nat /\
    invoiceNumber doc
    <> Some (String.append code
               (String.append "-"
                  (zeroPad (countWithPrefix (String.append code "-") (invoices w) + 1) 6))).
Proof.
  intros Hfa Hfb Hfi Hcust Hnum Ha Hbor Hb Hcode Hne Hcount.
  pose proof (invoicePage_count code w) as Hpage.
  eexists. exists (countWithPrefix (String.append code "-") (invoicePage code w) + 1)%nat.
  split.
  { apply (Invoices_beforeChange_number env data originalDoc w customerId a boroughId b code);
      assumption. }
  cbn [invoiceNumber setInvoiceNumber].
  split; [reflexivity|]. split; [lia|].
  intros H. injection H as H.
  apply append_cancel_l in H. apply (append_cancel_l "-") in H.
  apply zeroPad_inj in H. lia.
Qed.

Lemma C9_invoice_number_stops_at_limit_witness :
  let w := invoiceWorld 1001 in
  exists doc n,
    Invoices_beforeChange (envAt 0) newInvoice None w = (Ret doc, w) /\
    invoiceNumber doc = Some (String.append "NY" (String.append "-" (zeroPad n 6))) /\
    (n <= 1001)%nat /\
    invoiceNumber doc
    <> Some (String.append "NY"
               (String.append "-"
                  (zeroPad (countWithPrefix (String.append "NY" "-") (invoices w) + 1) 6))).
Proof.
  apply (C9_invoice_number_stops_at_limit (envAt 0) newInvoice None (invoiceWorld 1001) "acc"
           (sampleAccount None None) "b1" boroughNY "NY"%string);
    try reflexivity; [discriminate | vm_compute; lia].
Defined.

(** With 1001 invoices NY-000001 to NY-001001, the next invoice of a
    customer of that borough is numbered NY-001001, the number of the last
    of them, and not NY-001002. *)
Example invoice_number_repeats :
  let w := invoiceWorld 1001 in
  countWithPrefix "NY-" (invoices w) = 1001%nat /\
  (Invoices_beforeChange (envAt 0) newInvoice None w).1
    = Ret (setInvoiceNumber newInvoice (Some "NY-001001"%string)) /\
  List.last (map invoiceNumber (invoices w)) None = Some "NY-001001"%string /\
  "NY-001001"%string <> String.append "NY-" (zeroPad (1001 + 1) 6).
Proof. vm_compute. repeat split. discriminate. Qed.

(** ** The balance and the ledger *)











Lemma balanceOf_setBalance a B :
  balanceOf (setBillingInfo a
               (Some (setAccountBalance (spreadBillingInfo (billingInfo a)) (Some B)))) = B.
Proof. reflexivity. Qed.









(** The balances along that log: 50, 0 once paid in full, 75, 125 once the
    payment is undone, 50. *)
Example ledger_run :
  let env := envAt (dateString 2024 3 20) in
  let second := setBillingNumber (sampleRecord 1 75 pending None) (Some "BILL-000002"%string) in
  let log := [(env, EvCreate (sampleRecord 0 50 pending None));
              (env, EvUpdate (sampleRecord 0 50 paid (Some 50)) (sampleRecord 0 50 pending None));
              (env, EvCreate second);
              (env, EvUpdate (sampleRecord 0 50 pending None) (sampleRecord 0 50 paid (Some 50)));
              (env, EvDelete second)] in
  map (fun n => balanceAt (runLog (take n log) (sampleWorld 0 [])) "acc") [1; 2; 3; 4; 5]%nat
  = [50; 0; 75; 125; 50].
Proof. vm_compute. reflexivity. Qed.

(** The conditions on the log are needed.  A record of 50 that is created
    paid in full adds 50 to the balance, and the ledger has 0 for it. *)
Example ledger_needs_unpaid_create :
  let env := envAt (dateString 2024 3 20) in
  let log := [(env, EvCreate (sampleRecord 0 50 paid (Some 50)))] in
  balanceAt (runLog log (sampleWorld 0 [])) "acc" = 50 /\
  ledgerBalance (map snd log) = 0.
Proof. vm_compute. split; reflexivity. Qed.

(** A record of 50 that is marked paid without a paid amount is settled in
    full, and the ledger still has 50 for it. *)
Example ledger_needs_paid_amount :
  let env := envAt (dateString 2024 3 20) in
  let log := [(env, EvCreate (sampleRecord 0 50 pending None));
              (env, EvUpdate (sampleRecord 0 50 paid None) (sampleRecord 0 50 pending None))] in
  balanceAt (runLog log (sampleWorld 0 [])) "acc" = 0 /\
  ledgerBalance (map snd log) = 50.
Proof. vm_compute. split; reflexivity. Qed.

(** * Further properties of the code *)

(** ** Days until a due date *)

Lemma setHours0_Day t : Day (setHours0 t) = Day t.
Proof. unfold setHours0. apply Day_MakeDate. unfold msPerDay. lia. Qed.

Lemma setHours0_ltb a b : (setHours0 a <? setHours0 b) = (Day a <? Day b).
Proof.
  unfold setHours0, MakeDate, msPerDay.
  destruct (Z.ltb_spec (Day a) (Day b)); [apply Z.ltb_lt|apply Z.ltb_ge]; lia.
Qed.

(** The number of days that the Stripe invoice is given is the number of
    calendar days from today to the due date, whatever the times of day, and
    0 for a due date that has passed; an absent due date raises. *)
Theorem calculateDaysUntilDue_calendar_days env w :
  (forall due,
     calculateDaysUntilDue env (Some due) w
     = (Ret (Z.max 0 (Day due - Day (now env))), w)) /\
  calculateDaysUntilDue env None w = (Throw TypeError, w).
Proof.
  split; [|reflexivity].
  intros due. unfold calculateDaysUntilDue, ret. do 2 f_equal. f_equal.
  unfold setHours0, MakeDate.
  replace (- (Day due * msPerDay + 0 - (Day (now env) * msPerDay + 0)))
    with ((Day (now env) - Day due) * msPerDay) by lia.
  rewrite Z.div_mul by (unfold msPerDay; lia). lia.
Qed.

(** ** The next billing date of a weekly or bi-weekly account *)

Lemma Day_add_days t n : Day (t + n * msPerDay) = Day t + n.
Proof. unfold Day. rewrite Z.div_add by (unfold msPerDay; lia). reflexivity. Qed.

Lemma computeNextBillingDate_week today d cadence start :
  weekBased cadence = true ->
  let base := match start with Some s => s | None => today end in
  computeNextBillingDate today d cadence start
  = MakeDate (Day base
              + ((today - base) / (periodDays cadence * msPerDay) + 1) * periodDays cadence) 0.
Proof.
  intros Hc base. unfold computeNextBillingDate.
  destruct cadence; try discriminate Hc; fold base;
    rewrite format_date, setDate_getDate_add, Day_add_days; f_equal; cbn [periodDays];
    unfold msPerDay; zdiv_lia.
Qed.

Lemma week_bounds today base P :
  0 < P ->
  let r := Day base + ((today - base) / (P * msPerDay) + 1) * P in
  Day today <= r <= Day today + P.
Proof.
  intros HP r. subst r. unfold Day, msPerDay. zdiv_lia.
Qed.

Lemma hook_nextBillingDate env data bi d cadence :
  billingInfo data = Some bi -> billingDay bi = Some d -> d <> 0 ->
  billingCadence bi = Some cadence ->
  billingInfo (CommercialAccounts_beforeChange env data)
  = Some (setNextBillingDate bi
            (Some (computeNextBillingDate (now env) d cadence (serviceStartDate data)))).
Proof.
  intros Hbi Hd Hnz Hc. unfold CommercialAccounts_beforeChange.
  rewrite latenessStep_billingInfo. unfold nextBillingDateStep.
  change (billingInfo (deletePasswords data)) with (billingInfo data).
  rewrite Hbi, Hd, Hc.
  destruct (Z.eqb_spec d 0); [contradiction|reflexivity].
Qed.

(** For the cadences weekly and bi-weekly, the next billing date that the
    hook stores is a date without time of day, today or later and at most
    one period (7 or 14 days) after today, and a whole number of periods
    away from the day on which service started; without a start of service
    it is exactly one period after today. *)
Theorem next_billing_week_based env data bi d cadence :
  billingInfo data = Some bi -> billingDay bi = Some d -> d <> 0 ->
  billingCadence bi = Some cadence -> weekBased cadence = true ->
  exists bi' r,
    billingInfo (CommercialAccounts_beforeChange env data) = Some bi' /\
    nextBillingDate bi' = Some r /\
    TimeWithinDay r = 0 /\
    Day (now env) <= Day r <= Day (now env) + periodDays cadence /\
    (match serviceStartDate data with
     | Some start => (Day r - Day start) mod periodDays cadence = 0
     | None => Day r = Day (now env) + periodDays cadence
     end).
Proof.
  intros Hbi Hd Hnz Hc Hw.
  eexists. eexists. split; [apply (hook_nextBillingDate env data bi d cadence); assumption|].
  split; [reflexivity|].
  rewrite (computeNextBillingDate_week _ _ _ _ Hw).
  assert (0 < periodDays cadence) as HP by (destruct cadence; try discriminate Hw; cbn; lia).
  rewrite TimeWithinDay_MakeDate, Day_MakeDate by (unfold msPerDay; lia).
  split; [reflexivity|].
  split; [apply week_bounds; exact HP|].
  destruct (serviceStartDate data) as [start|].
  - replace (Day start + ((now env - start) / (periodDays cadence * msPerDay) + 1)
                         * periodDays cadence - Day start)
      with (((now env - start) / (periodDays cadence * msPerDay) + 1) * periodDays cadence)
      by lia.
    apply Z.mod_mul. lia.
  - rewrite Z.sub_diag, Z.div_0_l by (unfold msPerDay; lia). lia.
Qed.

Lemma next_billing_week_based_witness :
  exists bi' r,
    billingInfo (CommercialAccounts_beforeChange (envAt (dateString 2024 3 20 + 3600000))
                   (sampleAccount (Some (sampleBillingInfo 1 biweekly 0)) None)) = Some bi' /\
    nextBillingDate bi' = Some r /\
    TimeWithinDay r = 0 /\
    Day (dateString 2024 3 20 + 3600000) <= Day r
      <= Day (dateString 2024 3 20 + 3600000) + periodDays biweekly /\
    Day r = Day (dateString 2024 3 20 + 3600000) + periodDays biweekly.
Proof.
  apply (next_billing_week_based (envAt (dateString 2024 3 20 + 3600000))
           (sampleAccount (Some (sampleBillingInfo 1 biweekly 0)) None)
           (sampleBillingInfo 1 biweekly 0) 1 biweekly);
    [reflexivity | reflexivity | lia | reflexivity | reflexivity].
Defined.

(** ** The lateness of a commercial account that has a billing day *)

Lemma computeNextBillingDate_not_past today d cadence start :
  1 <= d ->
  exists D, computeNextBillingDate today d cadence start = MakeDate D 0 /\ Day today <= D.
Proof.
  intros Hd. destruct (weekBased cadence) eqn:Hw.
  - eexists. split; [apply computeNextBillingDate_week; exact Hw|].
    apply week_bounds. destruct cadence; try discriminate Hw; cbn; lia.
  - assert (monthBased cadence = true) as Hm by (destruct cadence; try discriminate Hw; reflexivity).
    eexists. split; [apply computeNextBillingDate_spec; exact Hm|].
    apply spec_nextBillingDay_not_past; assumption.
Qed.

Lemma num_or_pos o dflt : 0 < dflt -> (forall g, o = Some g -> 0 <= g) -> 1 <= num_or o dflt.
Proof.
  intros Hd H. unfold num_or. destruct o as [g|]; [|lia].
  specialize (H g eq_refl). destruct (Z.eqb_spec g 0); lia.
Qed.

(** When the account has a billing day and a cadence, the hook first sets
    the next billing date, which is never before today, and then derives
    the lateness from it: with a grace period that is not negative, the
    account is stored as current, whatever its balance and its payments. *)
Theorem commercial_account_with_billing_day_is_current env data bi pi d cadence :
  billingInfo data = Some bi -> paymentInfo data = Some pi ->
  billingDay bi = Some d -> 1 <= d -> billingCadence bi = Some cadence ->
  (forall g, gracePeriodDays pi = Some g -> 0 <= g) ->
  paymentInfo (CommercialAccounts_beforeChange env data)
  = Some (setIsLate pi (Some current)).
Proof.
  intros Hbi Hpi Hd Hd1 Hc Hg.
  unfold CommercialAccounts_beforeChange, nextBillingDateStep.
  change (billingInfo (deletePasswords data)) with (billingInfo data).
  rewrite Hbi, Hd, Hc.
  destruct (Z.eqb_spec d 0) as [->|_]; [lia|].
  destruct (computeNextBillingDate_not_past (now env) d cadence
              (serviceStartDate (deletePasswords data)) Hd1) as (D & -> & HD).
  unfold latenessStep.
  cbn [billingInfo paymentInfo setBillingInfo setNextBillingDate nextBillingDate
       accountBalance deletePasswords].
  rewrite Hpi.
  pose proof (num_or_pos (gracePeriodDays pi) 5 ltac:(lia) Hg) as Hgp.
  destruct (Z.ltb_spec 0 (num_or0 (accountBalance bi))) as [Hpos|Hnp].
  - rewrite setDate_getDate_add.
    assert ((MakeDate D 0 + num_or (gracePeriodDays pi) 5 * msPerDay <? now env) = false) as ->.
    { apply Z.ltb_ge. unfold MakeDate.
      pose proof (MakeDate_Day (now env)) as Hn. pose proof (TimeWithinDay_bounds (now env)).
      unfold MakeDate in Hn. unfold msPerDay in *. nia. }
    reflexivity.
  - destruct (Z.leb_spec (num_or0 (accountBalance bi)) 0); [reflexivity|lia].
Qed.

Lemma commercial_account_with_billing_day_is_current_witness :
  paymentInfo (CommercialAccounts_beforeChange (envAt (dateString 2024 4 20))
                 (sampleAccount (Some (sampleBillingInfo 1 monthly 500))
                    (Some graceZeroPayment)))
  = Some (setIsLate graceZeroPayment (Some current)).
Proof.
  apply (commercial_account_with_billing_day_is_current (envAt (dateString 2024 4 20))
           (sampleAccount (Some (sampleBillingInfo 1 monthly 500)) (Some graceZeroPayment))
           (sampleBillingInfo 1 monthly 500) graceZeroPayment 1 monthly);
    [reflexivity | reflexivity | reflexivity | lia | reflexivity |].
  intros g Hg. injection Hg as <-. lia.
Defined.

(** ** The hook of the commercial accounts, run twice *)

Lemma latenessStep_idem env a : latenessStep env (latenessStep env a) = latenessStep env a.
Proof.
  destruct a as [e n an sc bo ss pw cpw [bi|] [pi|]]; try reflexivity.
  destruct bi as [bd bc [nbd|] bal]; destruct pi; unfold latenessStep; proj_cbn.
  - destruct (0 <? num_or0 bal) eqn:Hpos; proj_cbn; rewrite ?Hpos; proj_cbn.
    + reflexivity.
    + destruct (num_or0 bal <=? 0) eqn:Hle; proj_cbn; rewrite ?Hpos, ?Hle; reflexivity.
  - destruct (num_or0 bal <=? 0) eqn:Hle; proj_cbn; rewrite ?Hle; reflexivity.
Qed.

Lemma latenessStep_frame env a :
  sameProfile a (latenessStep env a) /\ billingInfo (latenessStep env a) = billingInfo a.
Proof.
  unfold latenessStep, sameProfile. split; [|apply latenessStep_billingInfo].
  unfold latenessStep, sameProfile. cbv zeta. case_matches; proj_cbn; repeat split.
Qed.

Lemma setBillingInfo_same a b : billingInfo a = b -> setBillingInfo a b = a.
Proof. intros <-. destruct a; reflexivity. Qed.

Lemma nextBillingDateStep_fix env x z :
  billingInfo z = billingInfo (nextBillingDateStep env x) ->
  serviceStartDate z = serviceStartDate x ->
  nextBillingDateStep env z = z.
Proof.
  intros Hbi Hss. unfold nextBillingDateStep at 1. rewrite Hbi, Hss.
  unfold nextBillingDateStep.
  destruct (billingInfo x) as [bi|] eqn:Hx; [|rewrite Hx; reflexivity].
  destruct (billingDay bi) as [d|] eqn:Hd; [|rewrite Hx, Hd; reflexivity].
  destruct (billingCadence bi) as [c|] eqn:Hc; [|rewrite Hx, Hd, Hc; reflexivity].
  destruct (d =? 0) eqn:Hz; [rewrite Hx, Hd, Hc, Hz; reflexivity|].
  proj_cbn. rewrite Hd, Hc, Hz.
  apply setBillingInfo_same. rewrite Hbi. unfold nextBillingDateStep.
  rewrite Hx, Hd, Hc, Hz. reflexivity.
Qed.

Lemma nextBillingDateStep_profile env x : sameProfile x (nextBillingDateStep env x).
Proof. unfold nextBillingDateStep, sameProfile. case_matches; proj_cbn; repeat split. Qed.

Lemma nextBillingDateStep_settled env x :
  nextBillingDateStep env (latenessStep env (nextBillingDateStep env x))
  = latenessStep env (nextBillingDateStep env x).
Proof.
  apply (nextBillingDateStep_fix env x).
  - apply latenessStep_billingInfo.
  - destruct (latenessStep_frame env (nextBillingDateStep env x)) as ((_ & _ & _ & _ & _ & -> & _) & _).
    destruct (nextBillingDateStep_profile env x) as (_ & _ & _ & _ & _ & -> & _). reflexivity.
Qed.

Lemma deletePasswords_latenessStep env x :
  deletePasswords (latenessStep env x) = latenessStep env (deletePasswords x).
Proof.
  destruct x as [e n an sc bo ss pw cpw [bi|] [pi|]]; try reflexivity.
  unfold latenessStep; proj_cbn. case_matches; reflexivity.
Qed.

Lemma deletePasswords_nextBillingDateStep env x :
  deletePasswords (nextBillingDateStep env x) = nextBillingDateStep env (deletePasswords x).
Proof.
  destruct x as [e n an sc bo ss pw cpw [bi|] pi]; try reflexivity.
  unfold nextBillingDateStep; proj_cbn. case_matches; reflexivity.
Qed.

(** Running the hook again at the same time on the data that it returned
    changes nothing: the next billing date and the lateness that it derived
    are the ones that it derives again. *)
Theorem commercial_hook_idempotent env a :
  CommercialAccounts_beforeChange env (CommercialAccounts_beforeChange env a)
  = CommercialAccounts_beforeChange env a.
Proof.
  unfold CommercialAccounts_beforeChange.
  rewrite deletePasswords_latenessStep, deletePasswords_nextBillingDateStep.
  change (deletePasswords (deletePasswords a)) with (deletePasswords a).
  rewrite nextBillingDateStep_settled. apply latenessStep_idem.
Qed.

Lemma latenessStep_paymentInfo env x :
  option_map (fun p => setIsLate p None) (paymentInfo (latenessStep env x))
  = option_map (fun p => setIsLate p None) (paymentInfo x).
Proof.
  destruct x as [e n an sc bo ss pw cpw [bi|] [pi|]]; try reflexivity.
  unfold latenessStep; cbv zeta; proj_cbn. case_matches; reflexivity.
Qed.

Lemma nextBillingDateStep_frame env x :
  paymentInfo (nextBillingDateStep env x) = paymentInfo x /\
  option_map (fun b => setNextBillingDate b None) (billingInfo (nextBillingDateStep env x))
  = option_map (fun b => setNextBillingDate b None) (billingInfo x).
Proof.
  destruct x as [e n an sc bo ss pw cpw [bi|] pi]; [|split; reflexivity].
  unfold nextBillingDateStep; proj_cbn. case_matches; split; reflexivity.
Qed.

(** The hook writes the next billing date, the lateness and the two password
    fields, which it removes, and nothing else of the account: the contact
    data, the billing day, the cadence, the balance and the other payment
    fields are returned as they came. *)
Theorem commercial_hook_frame env a :
  let a' := CommercialAccounts_beforeChange env a in
  email a' = email a /\ name a' = name a /\ accountNumber a' = accountNumber a /\
  stripeCustomerId a' = stripeCustomerId a /\ borough a' = borough a /\
  serviceStartDate a' = serviceStartDate a /\
  password a' = None /\ confirmPassword a' = None /\
  option_map (fun b => setNextBillingDate b None) (billingInfo a')
  = option_map (fun b => setNextBillingDate b None) (billingInfo a) /\
  option_map (fun p => setIsLate p None) (paymentInfo a')
  = option_map (fun p => setIsLate p None) (paymentInfo a).
Proof.
  unfold CommercialAccounts_beforeChange. cbv zeta.
  set (x := nextBillingDateStep env (deletePasswords a)).
  destruct (latenessStep_frame env x) as ((L1 & L2 & L3 & L4 & L5 & L6 & L7 & L8) & Lbi).
  destruct (nextBillingDateStep_profile env (deletePasswords a))
    as (G1 & G2 & G3 & G4 & G5 & G6 & G7 & G8).
  destruct (nextBillingDateStep_frame env (deletePasswords a)) as (Gp & Gb).
  fold x in G1, G2, G3, G4, G5, G6, G7, G8, Gp, Gb.
  rewrite L1, L2, L3, L4, L5, L6, L7, L8, Lbi, latenessStep_paymentInfo.
  rewrite G1, G2, G3, G4, G5, G6, G7, G8, Gp, Gb.
  repeat split.
Qed.

(** ** The lateness of a commercial account without a billing day *)

(** Without a billing day or a cadence the hook keeps the next billing date
    of the data and derives the lateness from it: the account is late
    exactly when its balance is above zero, the next billing date and the
    grace period are behind, and the last payment is absent or before the
    next billing date; otherwise it is current.  The grace period is 5 days
    when the data give none or give 0.  Without a next billing date the
    account is current when its balance is zero or less, and its lateness
    stays otherwise. *)
Theorem commercial_lateness_rule env data bi pi :
  billingInfo data = Some bi -> paymentInfo data = Some pi ->
  billingDay bi = None \/ billingCadence bi = None ->
  let B := num_or0 (accountBalance bi) in
  let grace := num_or (gracePeriodDays pi) 5 in
  paymentInfo (CommercialAccounts_beforeChange env data)
  = Some (match nextBillingDate bi with
          | Some due =>
              setIsLate pi
                (Some (if (0 <? B) && (due + grace * msPerDay <? now env)
                          && match lastPaymentDate pi with
                             | None => true
                             | Some l => l <? due
                             end
                       then late else current))
          | None => if B <=? 0 then setIsLate pi (Some current) else pi
          end).
Proof.
  intros Hbi Hpi Hnone B grace.
  unfold CommercialAccounts_beforeChange.
  assert (nextBillingDateStep env (deletePasswords data) = deletePasswords data) as ->.
  { unfold nextBillingDateStep.
    change (billingInfo (deletePasswords data)) with (billingInfo data). rewrite Hbi.
    destruct Hnone as [-> | ->]; [reflexivity|]. destruct (billingDay bi); reflexivity. }
  unfold latenessStep.
  change (billingInfo (deletePasswords data)) with (billingInfo data).
  change (paymentInfo (deletePasswords data)) with (paymentInfo data).
  rewrite Hbi, Hpi. fold B grace.
  destruct (nextBillingDate bi) as [due|].
  - rewrite setDate_getDate_add.
    destruct (Z.ltb_spec 0 B) as [Hpos|Hnp].
    + cbn [setPaymentInfo paymentInfo]. do 3 f_equal.
      rewrite andb_true_r. reflexivity.
    + destruct (Z.leb_spec B 0); [reflexivity|lia].
  - destruct (B <=? 0); [reflexivity|exact Hpi].
Qed.

Lemma commercial_lateness_rule_witness :
  let env := envAt (dateString 2024 4 8) in
  let bi := {| billingDay := None; billingCadence := None;
               nextBillingDate := Some (dateString 2024 4 1);
               accountBalance := Some 100 |} in
  let B := num_or0 (accountBalance bi) in
  let grace := num_or (gracePeriodDays graceZeroPayment) 5 in
  paymentInfo (CommercialAccounts_beforeChange env graceZeroAccount)
  = Some (match nextBillingDate bi with
          | Some due =>
              setIsLate graceZeroPayment
                (Some (if (0 <? B) && (due + grace * msPerDay <? now env)
                          && match lastPaymentDate graceZeroPayment with
                             | None => true
                             | Some l => l <? due
                             end
                       then late else current))
          | None => if B <=? 0 then setIsLate graceZeroPayment (Some current)
                    else graceZeroPayment
          end).
Proof.
  apply (commercial_lateness_rule (envAt (dateString 2024 4 8)) graceZeroAccount
           {| billingDay := None; billingCadence := None;
              nextBillingDate := Some (dateString 2024 4 1);
              accountBalance := Some 100 |} graceZeroPayment);
    [reflexivity | reflexivity | left; reflexivity].
Defined.

(** With a grace period of 0 days and a next billing date of 1 April, the
    account of the example is still current at midnight of 6 April and is
    late on 7 April: the grace period counts as 5 days. *)
Example grace_zero_is_five_days :
  option_map isLate (paymentInfo (CommercialAccounts_beforeChange
                                    (envAt (dateString 2024 4 6)) graceZeroAccount))
  = Some (Some current) /\
  option_map isLate (paymentInfo (CommercialAccounts_beforeChange
                                    (envAt (dateString 2024 4 7)) graceZeroAccount))
  = Some (Some late).
Proof. vm_compute. split; reflexivity. Qed.

(** ** What [beforeChange] does to the data of a billing record *)

Lemma toISODate_add_days t n : toISODate (t + n * msPerDay) = MakeDate (Day t + n) 0.
Proof. rewrite toISODate_day, Day_add_days. reflexivity. Qed.

(** A due date that the data carry is kept.  Without one, the due date is
    the date, without time of day, of the day 30 days after the day of the
    billing date, for every billing date; without a billing date there is
    no due date.  The world is not touched. *)
Theorem beforeChange_due_date env data op w :
  exists d',
    beforeChange env data op w = (Ret d', w) /\
    dueDate d' = match dueDate data, billingDate data with
                 | Some due, _ => Some due
                 | None, Some bd => Some (MakeDate (Day bd + 30) 0)
                 | None, None => None
                 end.
Proof.
  eexists. split; [apply beforeChange_run|].
  unfold beforeChangeData.
  destruct (withOverdue_fields env (withDueDate (withBillingNumber (billingCount w) data op)))
    as (_ & _ & _ & _ & -> & _).
  destruct (withBillingNumber_fields (billingCount w) data op) as (_ & _ & _ & Hb & Hd & _).
  unfold withDueDate. rewrite Hb, Hd.
  destruct (billingDate data) as [bd|], (dueDate data) as [due|];
    cbn [dueDate setDueDate]; rewrite ?Hd; try reflexivity.
  rewrite setDate_getDate_add, toISODate_add_days. reflexivity.
Qed.

(** The status that [beforeChange] returns is overdue exactly when the
    record has a due date (given or derived) whose day is before today and
    the data carry no status or the status pending; every other status is
    returned as it came: a paid, cancelled or overdue record is never
    changed, and a record due today is not yet overdue. *)
Theorem beforeChange_overdue_rule env data op w :
  exists d',
    beforeChange env data op w = (Ret d', w) /\
    status d' = match dueDate d' with
                | Some due =>
                    if (absent (status data) || statusIs (status data) pending)
                       && (Day due <? Day (now env))
                    then Some overdue else status data
                | None => status data
                end.
Proof.
  eexists. split; [apply beforeChange_run|].
  unfold beforeChangeData.
  set (d1 := withDueDate (withBillingNumber (billingCount w) data op)).
  assert (status d1 = status data) as Hs.
  { subst d1. destruct (withDueDate_fields (withBillingNumber (billingCount w) data op))
      as (_ & _ & _ & _ & -> & _).
    destruct (withBillingNumber_fields (billingCount w) data op) as (_ & _ & _ & _ & _ & -> & _).
    reflexivity. }
  destruct (withOverdue_fields env d1) as (_ & _ & _ & _ & -> & _).
  unfold withOverdue. rewrite Hs.
  destruct (dueDate d1) as [due|]; [|exact Hs].
  rewrite setHours0_ltb.
  destruct (status data) as [[]|]; cbn [statusIs status_eqb negb andb orb absent];
    try exact Hs; destruct (Day due <? Day (now env)); cbn [status setStatus]; try exact Hs; reflexivity.
Qed.

(** [beforeChange] writes nothing to the database and returns the data with
    the record's id, account, amount, billing date, payment, description and
    Stripe invoice id as they came; the billing number is only ever set on
    a create that carries none. *)
Theorem beforeChange_frame env data op w :
  exists d',
    beforeChange env data op w = (Ret d', w) /\
    docId d' = docId data /\ account d' = account data /\ amount d' = amount data /\
    billingDate d' = billingDate data /\ paidDate d' = paidDate data /\
    paidAmount d' = paidAmount data /\ description d' = description data /\
    stripeInvoiceId d' = stripeInvoiceId data /\
    (billingNumber d' = billingNumber data \/
     op = create /\ truthyS (billingNumber data) = false).
Proof.
  eexists. split; [apply beforeChange_run|].
  destruct data as [di bn ac am bd dd st pd pa de si].
  unfold beforeChangeData, withOverdue, withDueDate, withBillingNumber.
  destruct op; cbn [isCreate andb billingNumber];
    [destruct (truthyS bn) eqn:Ht; cbn [negb]| |];
    destruct bd, dd; cbn; case_matches; cbn; repeat split; auto.
Qed.


(** ** Sequential identifiers *)

(** The padded decimal form, which numbers the billing records and the
    invoices, never truncates: different numbers get different strings, of
    at least the width, also past the largest number that fits the width. *)
Theorem zeroPad_distinct n m w :
  n <> m -> zeroPad n w <> zeroPad m w /\ (w <= String.length (zeroPad n w))%nat.
Proof.
  intros Hne. split.
  - intros H. apply Hne. exact (zeroPad_inj n m w H).
  - unfold zeroPad, padStart0. rewrite length_append_string, length_repeatString. lia.
Qed.
Lemma billingNumber_beforeChangeData env c data op :
  billingNumber (beforeChangeData env c data op) = billingNumber (withBillingNumber c data op).
Proof.
  unfold beforeChangeData, withOverdue, withDueDate.
  case_matches; reflexivity.
Qed.

(** The number that [beforeChange] gives a create that carries none. *)
Lemma beforeChange_number env data w :
  truthyS (billingNumber data) = false ->
  exists d,
    beforeChange env data create w = (Ret d, w) /\
    billingNumber d = Some (String.append "BILL-" (zeroPad (billingCount w + 1) 6)).
Proof.
  intros H. eexists. split; [apply beforeChange_run|].
  rewrite billingNumber_beforeChangeData. unfold withBillingNumber. cbn [isCreate andb].
  rewrite H. reflexivity.
Qed.

Lemma billingCount_app w l x :
  billing w = l ++ [Some x] ->
  billingCount w = S (length (List.filter (fun d => negb (absent d)) l)).
Proof.
  intros H. unfold billingCount. rewrite H, List.filter_app, length_app. cbn. lia.
Qed.

Lemma filter_length_delete (l : list (option BillingDoc)) i r :
  l !! i = Some (Some r) ->
  S (length (List.filter (fun d => negb (absent d)) (<[i := None]> l)))
  = length (List.filter (fun d => negb (absent d)) l).
Proof.
  revert i. induction l as [|x l IH]; intros i H; [discriminate H|].
  destruct i as [|i].
  - cbn in H. injection H as ->. reflexivity.
  - change (<[S i := None]> (x :: l)) with (x :: <[i := None]> l).
    change ((x :: l) !! S i) with (l !! i) in H.
    cbn [List.filter]. destruct (negb (absent x)); cbn [length]; rewrite <- (IH i H); reflexivity.
Qed.

Lemma billingCount_snoc w w' x :
  billing w' = billing w ++ [Some x] -> billingCount w' = S (billingCount w).
Proof. intros H. apply (billingCount_app w' _ x H). Qed.

(** Two creates without a billing number, the record of the first being
    in the collection when [beforeChange] runs for the second: the numbers
    are those of the count of records plus one and plus two, and differ. *)
Theorem successive_creates_get_distinct_numbers env1 env2 data1 data2 w1 w2 stored :
  truthyS (billingNumber data1) = false -> truthyS (billingNumber data2) = false ->
  billing w2 = billing w1 ++ [Some stored] ->
  exists d1 d2,
    beforeChange env1 data1 create w1 = (Ret d1, w1) /\
    beforeChange env2 data2 create w2 = (Ret d2, w2) /\
    billingNumber d1 = Some (String.append "BILL-" (zeroPad (billingCount w1 + 1) 6)) /\
    billingNumber d2 = Some (String.append "BILL-" (zeroPad (billingCount w1 + 2) 6)) /\
    billingNumber d1 <> billingNumber d2.
Proof.
  intros Hn1 Hn2 Hb.
  destruct (beforeChange_number env1 data1 w1 Hn1) as (d1 & Hr1 & Hd1).
  destruct (beforeChange_number env2 data2 w2 Hn2) as (d2 & Hr2 & Hd2).
  rewrite (billingCount_snoc w1 w2 stored Hb) in Hd2.
  replace (S (billingCount w1) + 1)%nat with (billingCount w1 + 2)%nat in Hd2 by lia.
  exists d1, d2. split; [exact Hr1|]. split; [exact Hr2|].
  split; [exact Hd1|]. split; [exact Hd2|].
  rewrite Hd1, Hd2. intros H. injection H as H.
  apply append_cancel_l in H. apply zeroPad_inj in H. lia.
Qed.

Lemma billingCount_delete w w' i r :
  billing w !! i = Some (Some r) -> billing w' = <[i := None]> (billing w) ->
  S (billingCount w') = billingCount w.
Proof. intros H H'. unfold billingCount. rewrite H'. apply (filter_length_delete _ _ _ H). Qed.

(** The billing number is drawn from the count of the records that exist.
    When the record of a create is in the collection and an older record
    has been deleted, [beforeChange] gives the next create the number that
    it gave that create; if the record was stored with it, the number is
    that of a record of the collection. *)
Theorem number_reused_after_delete env1 env2 data1 data2 w1 w2 i r stored :
  truthyS (billingNumber data1) = false -> truthyS (billingNumber data2) = false ->
  billing w1 !! i = Some (Some r) ->
  billing w2 = <[i := None]> (billing w1 ++ [Some stored]) ->
  exists d1 d2,
    beforeChange env1 data1 create w1 = (Ret d1, w1) /\
    beforeChange env2 data2 create w2 = (Ret d2, w2) /\
    is_Some (billingNumber d1) /\
    billingNumber d2 = billingNumber d1 /\
    (billingNumber stored = billingNumber d1 ->
     exists j rec, billing w2 !! j = Some (Some rec) /\ billingNumber rec = billingNumber d2).
Proof.
  intros Hn1 Hn2 Hr Hb.
  destruct (beforeChange_number env1 data1 w1 Hn1) as (d1 & Hr1 & Hd1).
  destruct (beforeChange_number env2 data2 w2 Hn2) as (d2 & Hr2 & Hd2).
  set (wm := setBilling w1 (billing w1 ++ [Some stored])).
  assert (billing wm !! i = Some (Some r)) as Hr'
    by (subst wm; cbn; apply lookup_app_l_Some; exact Hr).
  pose proof (billingCount_snoc w1 wm stored eq_refl) as Hc1.
  pose proof (billingCount_delete wm w2 i r Hr' Hb) as Hc2.
  assert (billingCount w2 = billingCount w1) as Hc by lia.
  rewrite Hc in Hd2.
  exists d1, d2. split; [exact Hr1|]. split; [exact Hr2|].
  split; [rewrite Hd1; eauto|]. split; [congruence|].
  intros Hs. exists (length (billing w1)), stored. split; [|congruence].
  rewrite Hb. pose proof (lookup_lt_Some _ _ _ Hr) as Hlt.
  rewrite list_lookup_insert_ne by lia.
  apply list_lookup_middle. reflexivity.
Qed.

Lemma zeroPad_distinct_witness :
  zeroPad 7 6 <> zeroPad 12 6 /\ (6 <= String.length (zeroPad 7 6))%nat.
Proof. apply (zeroPad_distinct 7 12 6). lia. Defined.

Lemma successive_creates_get_distinct_numbers_witness :
  let env := envAt (dateString 2024 3 20) in
  let w1 := sampleWorld 0 [] in
  let stored := sampleRecord 0 50 pending None in
  let w2 := sampleWorld 50 [Some stored] in
  exists d1 d2,
    beforeChange env (sampleData 50) create w1 = (Ret d1, w1) /\
    beforeChange env (sampleData 75) create w2 = (Ret d2, w2) /\
    billingNumber d1 = Some (String.append "BILL-" (zeroPad (billingCount w1 + 1) 6)) /\
    billingNumber d2 = Some (String.append "BILL-" (zeroPad (billingCount w1 + 2) 6)) /\
    billingNumber d1 <> billingNumber d2.
Proof.
  apply (successive_creates_get_distinct_numbers (envAt (dateString 2024 3 20))
           (envAt (dateString 2024 3 20)) (sampleData 50) (sampleData 75)
           (sampleWorld 0 []) (sampleWorld 50 [Some (sampleRecord 0 50 pending None)])
           (sampleRecord 0 50 pending None));
    reflexivity.
Defined.

Lemma number_reused_after_delete_witness :
  let env := envAt (dateString 2024 3 20) in
  let r := sampleRecord 0 40 pending None in
  let stored := setBillingNumber (sampleRecord 1 50 pending None) (Some "BILL-000002"%string) in
  let w1 := sampleWorld 40 [Some r] in
  let w2 := sampleWorld 50 [None; Some stored] in
  exists d1 d2,
    beforeChange env (sampleData 50) create w1 = (Ret d1, w1) /\
    beforeChange env (sampleData 75) create w2 = (Ret d2, w2) /\
    is_Some (billingNumber d1) /\
    billingNumber d2 = billingNumber d1 /\
    (billingNumber stored = billingNumber d1 ->
     exists j rec, billing w2 !! j = Some (Some rec) /\ billingNumber rec = billingNumber d2).
Proof.
  apply (number_reused_after_delete (envAt (dateString 2024 3 20))
           (envAt (dateString 2024 3 20)) (sampleData 50) (sampleData 75)
           (sampleWorld 40 [Some (sampleRecord 0 40 pending None)])
           (sampleWorld 50
              [None; Some (setBillingNumber (sampleRecord 1 50 pending None)
                             (Some "BILL-000002"%string))])
           0%nat (sampleRecord 0 40 pending None)
           (setBillingNumber (sampleRecord 1 50 pending None) (Some "BILL-000002"%string)));
    reflexivity.
Defined.

(** With one record in the collection, a create is numbered 000002; once
    its record is stored and the older record deleted, the next create is
    numbered 000002 again, the number of the stored record. *)
Example number_reused :
  let env := envAt (dateString 2024 3 20) in
  let stored := setBillingNumber (sampleRecord 1 50 pending None) (Some "BILL-000002"%string) in
  let r1 := beforeChange env (sampleData 50) create
              (sampleWorld 40 [Some (sampleRecord 0 40 pending None)]) in
  let r2 := beforeChange env (sampleData 75) create (sampleWorld 50 [None; Some stored]) in
  (exists d, r1.1 = Ret d /\ billingNumber d = Some "BILL-000002"%string) /\
  (exists d, r2.1 = Ret d /\ billingNumber d = Some "BILL-000002"%string).
Proof. vm_compute. split; eexists; split; reflexivity. Qed.

(** ** Invoice numbers *)

Lemma refId_changed o old cid :
  refId (customer o) = Some old -> old <> cid ->
  match customer o with
  | Some (RefId s) => negb (String.eqb s "") && negb (String.eqb s cid)
  | Some (RefDoc s) => negb (String.eqb s cid)
  | None => false
  end = true.
Proof.
  unfold refId. intros H Hne.
  destruct (customer o) as [[s|s]|]; [| |discriminate];
    destruct (String.eqb_spec s ""); try discriminate; injection H as ->;
    destruct (String.eqb_spec old cid); try contradiction; reflexivity.
Qed.

(** When a lookup behind the invoice number raises (the customer account or
    its borough is missing or unreadable, or the invoices cannot be queried),
    the hook logs the error.  An invoice that has a number keeps it.  An
    invoice without a number gets INV- and the number of all invoices plus
    one, padded to 6 digits, when the invoices can be counted; when they
    cannot, the hook raises in its turn, the count being outside any
    [try]. *)
Theorem invoice_number_fallback env data originalDoc w customerId :
  refId (customer data) = Some customerId ->
  (truthyS (invoiceNumber data) = false \/
   exists o old, originalDoc = Some o /\ refId (customer o) = Some old /\ old <> customerId) ->
  numberLookupFails env w customerId = true ->
  Invoices_beforeChange env data originalDoc w
  = (if truthyS (invoiceNumber data) then Ret data
     else if fails env InvoicesCount then Throw PersistenceError
     else Ret (setInvoiceNumber data
                 (Some (String.append "INV-" (zeroPad (length (invoices w) + 1) 6)))),
     setConsole w (console w ++ [invoiceErrorEntry])).
Proof.
  intros Hc Hgen Hf. unfold Invoices_beforeChange. rewrite Hc.
  match goal with |- (if ?c then _ else _) _ = _ => assert (c = true) as -> end.
  { destruct Hgen as [->|(o & old & -> & Ho & Hne)]; [reflexivity|].
    rewrite (refId_changed o old customerId Ho Hne). apply orb_true_r. }
  assert (forall w0,
    (consoleError "Error generating invoice number:" ;;;
     if negb (truthyS (invoiceNumber data)) then
       count <- countInvoices env ;;
       ret (setInvoiceNumber data (Some (String.append "INV-" (zeroPad (count + 1) 6))))
     else ret data) w0
    = (if truthyS (invoiceNumber data) then Ret data
       else if fails env InvoicesCount then Throw PersistenceError
       else Ret (setInvoiceNumber data
                   (Some (String.append "INV-" (zeroPad (length (invoices w0) + 1) 6)))),
       setConsole w0 (console w0 ++ [invoiceErrorEntry]))) as Hcatch.
  { intros w0. unfold bind, consoleError, modify, countInvoices, ret.
    destruct (truthyS (invoiceNumber data)); cbn [negb]; [reflexivity|].
    destruct (fails env InvoicesCount); reflexivity. }
  unfold numberLookupFails in Hf.
  unfold tryCatch, bind at 1, findAccountByID.
  destruct (fails env AccountsFind); [apply Hcatch|].
  cbn [orb] in Hf.
  destruct (accounts w !! customerId) as [a|]; [|apply Hcatch].
  destruct (refId (borough a)) as [bid|]; [|discriminate Hf].
  unfold bind at 1, findBoroughByID.
  destruct (fails env BoroughsFind); [apply Hcatch|].
  cbn [orb] in Hf.
  destruct (boroughs w !! bid) as [b|]; [|apply Hcatch].
  apply andb_true_iff in Hf as [Ht Hfi]. rewrite Ht.
  unfold bind at 1, nextInvoiceNumber, bind at 1, findInvoicesContaining. rewrite Hfi.
  apply Hcatch.
Qed.

(** When the customer of an invoice changes, the hook numbers the invoice
    again under the borough code of the new customer, although the invoice
    already has a number. *)
Theorem invoice_number_follows_customer env data o w old customerId a boroughId b code :
  fails env AccountsFind = false -> fails env BoroughsFind = false ->
  fails env InvoicesFind = false ->
  refId (customer data) = Some customerId ->
  refId (customer o) = Some old -> old <> customerId ->
  accounts w !! customerId = Some a ->
  refId (borough a) = Some boroughId ->
  boroughs w !! boroughId = Some b ->
  boroughCode b = Some code -> code <> ""%string ->
  (countContaining code (invoices w) <= 1000)%nat ->
  Invoices_beforeChange env data (Some o) w
  = (Ret (setInvoiceNumber data
            (Some (String.append code
                     (String.append "-"
                        (zeroPad (countWithPrefix (String.append code "-") (invoices w) + 1)
                           6))))), w).
Proof.
  intros Hfa Hfb Hfi Hcust Ho Hne Ha Hbor Hb Hcode Hnd Hcount.
  unfold Invoices_beforeChange. rewrite Hcust.
  rewrite (refId_changed o old customerId Ho Hne), orb_true_r.
  apply tryCatch_ret_eq.
  rewrite (bind_ret_eq _ _ _ _ _ (findAccountByID_run env customerId w a Hfa Ha)).
  cbv beta iota. rewrite Hbor.
  assert (findBoroughByID env boroughId w = (Ret (Some b), w)) as Hfind
    by (unfold findBoroughByID; rewrite Hfb, Hb; reflexivity).
  rewrite (bind_ret_eq _ _ _ _ _ Hfind). cbv beta iota.
  rewrite Hcode.
  assert (truthyS (Some code) = true) as ->
    by (cbn; destruct (String.eqb_spec code ""); [contradiction|reflexivity]).
  rewrite (bind_ret_eq _ _ _ _ _ (nextInvoiceNumber_run env code w Hfi Hcount)).
  reflexivity.
Qed.

(** An invoice that has a number and whose customer is the one it had (or
    that is new) is returned by the hook of the collection as it came.  The
    hook of the field [customer], run on the same data, numbers the invoice
    all the same, from the count of the invoices under the borough code of
    the customer: the number that the invoice has plays no part. *)
Theorem customer_field_hook_renumbers env data originalDoc w customerId a boroughId b code :
  fails env AccountsFind = false -> fails env BoroughsFind = false ->
  fails env InvoicesFind = false ->
  refId (customer data) = Some customerId ->
  truthyS (invoiceNumber data) = true ->
  (forall o, originalDoc = Some o ->
     customer o = None \/ refId (customer o) = refId (customer data)) ->
  accounts w !! customerId = Some a ->
  refId (borough a) = Some boroughId ->
  boroughs w !! boroughId = Some b ->
  boroughCode b = Some code -> code <> ""%string ->
  (countContaining code (invoices w) <= 1000)%nat ->
  Invoices_beforeChange env data originalDoc w = (Ret data, w) /\
  customer_beforeChange env (customer data) data w
  = (Ret (setInvoiceNumber data
            (Some (String.append code
                     (String.append "-"
                        (zeroPad (countWithPrefix (String.append code "-") (invoices w) + 1)
                           6))))), w).
Proof.
  intros Hfa Hfb Hfi Hc Hn Ho Ha Hbor Hb Hcode Hnd Hcount. split.
  - unfold Invoices_beforeChange. rewrite Hc, Hn. cbn [negb orb].
    destruct originalDoc as [o|]; [|reflexivity].
    destruct (Ho o eq_refl) as [H|H].
    + rewrite H. reflexivity.
    + rewrite Hc in H. unfold refId in H. destruct (customer o) as [[s|s]|]; [| |reflexivity].
      * destruct (String.eqb_spec s ""); [reflexivity|]. injection H as ->.
        rewrite String.eqb_refl. reflexivity.
      * destruct (String.eqb_spec s ""); [discriminate|]. injection H as ->.
        rewrite String.eqb_refl. reflexivity.
  - unfold customer_beforeChange. rewrite Hc.
    apply tryCatch_ret_eq.
    rewrite (bind_ret_eq _ _ _ _ _ (findAccountByID_run env customerId w a Hfa Ha)).
    cbv beta iota. rewrite Hbor.
    assert (findBoroughByID env boroughId w = (Ret (Some b), w)) as Hfind
      by (unfold findBoroughByID; rewrite Hfb, Hb; reflexivity).
    rewrite (bind_ret_eq _ _ _ _ _ Hfind). cbv beta iota.
    rewrite Hcode.
    assert (truthyS (Some code) = true) as ->
      by (cbn; destruct (String.eqb_spec code ""); [contradiction|reflexivity]).
    rewrite (bind_ret_eq _ _ _ _ _ (nextInvoiceNumber_run env code w Hfi Hcount)).
    reflexivity.
Qed.

(** An invoice without a number is saved without one, and nothing is
    logged, when the account of the customer names no borough or the borough
    has no code. *)
Theorem invoice_number_needs_borough_code env data originalDoc w customerId a :
  fails env AccountsFind = false ->
  refId (customer data) = Some customerId ->
  accounts w !! customerId = Some a ->
  (refId (borough a) = None \/
   exists boroughId b, refId (borough a) = Some boroughId /\
     fails env BoroughsFind = false /\ boroughs w !! boroughId = Some b /\
     truthyS (boroughCode b) = false) ->
  exists doc,
    Invoices_beforeChange env data originalDoc w = (Ret doc, w) /\
    doc = data.
Proof.
  intros Hfa Hc Ha Hb. exists data. split; [|reflexivity].
  unfold Invoices_beforeChange. rewrite Hc.
  match goal with |- (if ?c then _ else _) _ = _ => destruct c end; [|reflexivity].
  apply tryCatch_ret_eq.
  rewrite (bind_ret_eq _ _ _ _ _ (findAccountByID_run env customerId w a Hfa Ha)).
  cbv beta iota.
  destruct Hb as [->|(bid & b & -> & Hfb & Hb & Ht)]; [reflexivity|].
  assert (findBoroughByID env bid w = (Ret (Some b), w)) as Hfind
    by (unfold findBoroughByID; rewrite Hfb, Hb; reflexivity).
  rewrite (bind_ret_eq _ _ _ _ _ Hfind). cbv beta iota. rewrite Ht. reflexivity.
Qed.

Lemma invoice_number_fallback_witness :
  Invoices_beforeChange (envAt 0) newInvoice None (sampleWorld 0 [])
  = (if truthyS (invoiceNumber newInvoice) then Ret newInvoice
     else if fails (envAt 0) InvoicesCount then Throw PersistenceError
     else Ret (setInvoiceNumber newInvoice
                 (Some (String.append "INV-"
                          (zeroPad (length (invoices (sampleWorld 0 [])) + 1) 6)))),
     setConsole (sampleWorld 0 []) (console (sampleWorld 0 []) ++ [invoiceErrorEntry])).
Proof.
  apply (invoice_number_fallback (envAt 0) newInvoice None (sampleWorld 0 []) "acc");
    [reflexivity | left; reflexivity | reflexivity].
Defined.

(** With no borough on file the invoice is numbered INV-000001; on a
    server that cannot read the database at all, the hook raises. *)
Example invoice_number_fallback_outcomes :
  (Invoices_beforeChange (envAt 0) newInvoice None (sampleWorld 0 [])).1
  = Ret (setInvoiceNumber newInvoice (Some "INV-000001"%string)) /\
  (Invoices_beforeChange envDatabaseDown newInvoice None (sampleWorld 0 [])).1
  = Throw PersistenceError.
Proof. vm_compute. split; reflexivity. Qed.

Lemma invoice_number_follows_customer_witness :
  Invoices_beforeChange (envAt 0) (numberedInvoice "acc" "BK-000007")
    (Some (numberedInvoice "other" "BK-000007")) (invoiceWorld 3)
  = (Ret (numberedInvoice "acc" "NY-000004"), invoiceWorld 3).
Proof.
  apply (invoice_number_follows_customer (envAt 0) (numberedInvoice "acc" "BK-000007")
           (numberedInvoice "other" "BK-000007") (invoiceWorld 3) "other" "acc"
           (sampleAccount None None) "b1" boroughNY "NY"%string);
    try reflexivity; [discriminate | discriminate | vm_compute; lia].
Defined.

Lemma customer_field_hook_renumbers_witness :
  let data := numberedInvoice "acc" "NY-000002" in
  Invoices_beforeChange (envAt 0) data (Some data) (invoiceWorld 3) = (Ret data, invoiceWorld 3) /\
  customer_beforeChange (envAt 0) (customer data) data (invoiceWorld 3)
  = (Ret (setInvoiceNumber data
            (Some (String.append "NY"
                     (String.append "-"
                        (zeroPad (countWithPrefix (String.append "NY" "-")
                                    (invoices (invoiceWorld 3)) + 1) 6))))),
     invoiceWorld 3).
Proof.
  apply (customer_field_hook_renumbers (envAt 0) (numberedInvoice "acc" "NY-000002")
           (Some (numberedInvoice "acc" "NY-000002")) (invoiceWorld 3) "acc"
           (sampleAccount None None) "b1" boroughNY "NY"%string);
    try reflexivity; [|discriminate | vm_compute; lia].
  intros o Ho. injection Ho as <-. right. reflexivity.
Defined.

(** The invoice NY-000002, one of three invoices of the borough, saved with
    its customer: the field hook numbers it NY-000004. *)
Example saved_invoice_is_renumbered :
  let data := numberedInvoice "acc" "NY-000002" in
  (customer_beforeChange (envAt 0) (customer data) data (invoiceWorld 3)).1
  = Ret (numberedInvoice "acc" "NY-000004").
Proof. vm_compute. reflexivity. Qed.

Lemma invoice_number_needs_borough_code_witness :
  exists doc,
    Invoices_beforeChange (envAt 0) newInvoice None
      {| accounts := {[ "acc" := sampleAccount None None ]}; billing := [];
         boroughs := {[ "b1" := {| boroughCode := None |} ]}; invoices := [];
         console := []; outbox := []; stripe := []; calls := [] |}
    = (Ret doc,
       {| accounts := {[ "acc" := sampleAccount None None ]}; billing := [];
          boroughs := {[ "b1" := {| boroughCode := None |} ]}; invoices := [];
          console := []; outbox := []; stripe := []; calls := [] |}) /\
    doc = newInvoice.
Proof.
  apply (invoice_number_needs_borough_code (envAt 0) newInvoice None _ "acc"
           (sampleAccount None None)); try reflexivity.
  right. exists "b1"%string, {| boroughCode := None |}. repeat split.
Defined.

(** ** The account that a reconciliation leaves *)

Lemma paymentStatusUpdate_neutral env a d r nb ud :
  status d = status r -> num_or0 (paidAmount d) = num_or0 (paidAmount r) ->
  paymentStatusUpdate env a d update (Some r) nb ud = ud.
Proof.
  intros Hs Hp. unfold paymentStatusUpdate. rewrite Hs, Hp, Z.sub_diag.
  destruct (statusIs (status r) paid); reflexivity.
Qed.

Lemma isOverdueFor_ext env a a' d d' :
  gracePeriodOf a' = gracePeriodOf a -> dueDate d' = dueDate d ->
  isOverdueFor env a' d' = isOverdueFor env a d.
Proof. intros Hg Hd. unfold isOverdueFor. rewrite Hg, Hd. reflexivity. Qed.

Lemma account_ext a b :
  sameProfile a b -> billingInfo b = billingInfo a -> paymentInfo b = paymentInfo a -> b = a.
Proof.
  destruct a, b. unfold sameProfile. cbn.
  intros (-> & -> & -> & -> & -> & -> & -> & ->) -> ->. reflexivity.
Qed.

(** The late status that was derived is derived again from the account that
    carries it. *)
Lemma lateStatusUpdate_settled a a2 due ov bi bi2 B :
  accountBalance bi = Some B -> accountBalance bi2 = Some B ->
  paymentInfo a2
  = ud_paymentInfo (lateStatusUpdate a due ov {| ud_billingInfo := bi; ud_paymentInfo := None |}) ->
  ud_paymentInfo (lateStatusUpdate a2 due ov {| ud_billingInfo := bi2; ud_paymentInfo := None |})
  = paymentInfo a2.
Proof.
  intros HB HB2 Ha2. rewrite Ha2. revert Ha2.
  unfold lateStatusUpdate. cbn [ud_billingInfo ud_paymentInfo]. rewrite HB, HB2.
  cbn [num_or0].
  set (P := spreadPaymentInfo (paymentInfo a)).
  destruct (ov && (0 <? B)) eqn:Hc1; [|destruct (B <=? 0) eqn:Hc2];
    cbn [ud_paymentInfo setUdPaymentInfo]; intros ->; cbn [spreadPaymentInfo];
    proj_cbn; destruct (lastPaymentDate P); reflexivity.
Qed.

Lemma reconcile_create env a doc prev :
  reconcile env a doc create prev
  = lateSection env a doc
      {| ud_billingInfo :=
           setAccountBalance (spreadBillingInfo (billingInfo a))
             (Some (balanceOf a + num_or0 (amount doc)));
         ud_paymentInfo := None |}.
Proof. reflexivity. Qed.

Lemma notify_reconcile_settled env a doc prev r1 d' :
  amount d' = amount r1 -> paidAmount d' = paidAmount r1 -> status d' = status r1 ->
  dueDate d' = dueDate doc -> openStatus d' = openStatus doc ->
  mergeAccount (mergeAccount a (reconcile env a doc create prev))
    (reconcile env (mergeAccount a (reconcile env a doc create prev)) d' update (Some r1))
  = mergeAccount a (reconcile env a doc create prev).
Proof.
  intros Ham Hpa Hst Hdue Hopen.
  pose proof (isOverdueFor_ext env a (mergeAccount a (reconcile env a doc create prev)) doc d'
                (gracePeriodOf_reconcile env a doc create prev) Hdue) as Hov.
  pose proof (mergeAccount_billingInfo a (reconcile env a doc create prev)) as Hbi2.
  pose proof (mergeAccount_paymentInfo a (reconcile env a doc create prev)) as Hpi2.
  pose proof (reconcile_balance env a doc create prev) as HB.
  set (ud := reconcile env a doc create prev) in *.
  set (a2 := mergeAccount a ud) in *.
  apply account_ext.
  - apply mergeAccount_profile.
  - rewrite mergeAccount_billingInfo.
    rewrite reconcile_neutral
      by (rewrite ?Ham, ?Hpa, ?Hst; reflexivity).
    rewrite Hbi2. f_equal. cbn [spreadBillingInfo].
    apply setAccountBalance_same. rewrite HB. f_equal.
    unfold balanceOf. rewrite Hbi2. cbn [spreadBillingInfo]. rewrite HB. reflexivity.
  - rewrite mergeAccount_paymentInfo.
    unfold reconcile.
    rewrite paymentStatusUpdate_neutral by (try exact Hst; rewrite Hpa; reflexivity).
    unfold lateSection. rewrite Hdue, Hopen, Hov.
    destruct (dueDate doc) as [due|] eqn:Hd; [|reflexivity].
    destruct (openStatus doc) eqn:Ho; [|reflexivity].
    assert (paymentInfo a2
            = ud_paymentInfo (lateStatusUpdate a due (isOverdueFor env a doc)
                {| ud_billingInfo :=
                     setAccountBalance (spreadBillingInfo (billingInfo a))
                       (Some (balanceOf a + num_or0 (amount doc)));
                   ud_paymentInfo := None |})) as Hp.
    { rewrite Hpi2. subst ud. rewrite reconcile_create. unfold lateSection. rewrite Hd, Ho.
      destruct (lateStatusUpdate_grace a due (isOverdueFor env a doc)
                  {| ud_billingInfo :=
                       setAccountBalance (spreadBillingInfo (billingInfo a))
                         (Some (balanceOf a + num_or0 (amount doc)));
                     ud_paymentInfo := None |}) as (p & -> & _); [discriminate|reflexivity]. }
    rewrite (lateStatusUpdate_settled a a2 due _
               (setAccountBalance (spreadBillingInfo (billingInfo a))
                  (Some (balanceOf a + num_or0 (amount doc))))
               _ (balanceOf a + num_or0 (amount doc)) eq_refl) by
      (try exact Hp; cbn [accountBalance setAccountBalance]; f_equal;
       unfold balanceChangeOf; rewrite Ham, Z.sub_diag, Z.add_0_r, Hbi2;
       cbn [spreadBillingInfo]; rewrite HB; reflexivity).
    destruct (paymentInfo a2); reflexivity.
Qed.

Lemma notifyCreated_accounts n env doc account w accId a r i :
  fails env AccountsFind = false -> fails env AccountsUpdate = false ->
  docId doc = Some i -> billing w !! i = Some (Some r) ->
  accountIdOf r = Some accId -> accounts w !! accId = Some a ->
  marksOverdue env a r = false ->
  exists w',
    notifyCreated (updateBillingWith (afterChangeN (S n) env) env) env doc account w
      = (Ret tt, w') /\
    (accounts w' = accounts w \/
     accounts w'
     = <[accId := mergeAccount a
                    (reconcile env a
                       (mergeDoc (setStripeInvoiceId emptyDoc (Some (stripeAssignedId env))) r)
                       update (Some r))]> (accounts w)).
Proof.
  intros Hf Hu Hdoc Hr Hid Ha Hm.
  unfold notifyCreated.
  destruct (createStripeInvoice_run env doc account w)
    as (o & w1 & Hrun & Hnd & Hst1 & Hc1 & Hret & Hthrow & Hthrown & Hgood).
  destruct o as [invoiceId|e|]; [| |congruence].
  2: { rewrite (tryCatch_throw_eq _ _ _ _ _ (bind_throw_eq _ _ _ _ _ Hrun)).
    destruct (notify_fallback env account doc w1
                (fun _ => consoleError "Error sending invoice email:"))
      as (w' & Hfb & Hst2 & _).
    exists w'. split; [exact Hfb|]. left.
    destruct (sameStores_trans _ _ _ Hst1 Hst2) as (H & _). exact H. }
  destruct (Hret _ eq_refl) as [Hnf Hid1].
  rewrite (tryCatch_bind_ret _ _ _ _ _ _ Hrun).
  destruct (truthyS invoiceId) eqn:Htruthy.
  2: { destruct (sendInvoiceEmail_run env account doc None None w1)
      as (w' & Hsend & Hst2 & _).
    exists w'. split; [apply tryCatch_ret_eq; exact Hsend|]. left.
    destruct (sameStores_trans _ _ _ Hst1 Hst2) as (H & _). exact H. }
  destruct (Hid1 eq_refl) as (-> & Hkey & Hcust & Hdue & Hsi).
  destruct Hst1 as (Hacc1 & Hbil1 & Hcon1).
  destruct (fails env BillingUpdate) eqn:Hb.
  { assert (updateBillingWith (afterChangeN (S n) env) env (docId doc)
              (setStripeInvoiceId emptyDoc (Some (stripeAssignedId env))) w1
            = (Throw PersistenceError, w1)) as Hup
      by (unfold updateBillingWith; rewrite Hb; reflexivity).
    rewrite (tryCatch_throw_eq _ _ _ _ _ (bind_throw_eq _ _ _ _ _ Hup)).
    destruct (notify_fallback env account doc w1
                (fun _ => consoleError "Error sending invoice email:"))
      as (w' & Hfb & (Hacc2 & _) & _).
    exists w'. split; [exact Hfb|]. left. congruence. }
  set (patch := setStripeInvoiceId emptyDoc (Some (stripeAssignedId env))).
  assert (marksOverdue env a (mergeDoc patch r) = false) as Hm'
    by (rewrite (marksOverdue_ext env a a r (mergeDoc patch r)); auto).
  pose proof (updateBilling_plain n env i patch r w1 accId a Hb Hf Hu
                ltac:(rewrite Hbil1; exact Hr) eq_refl eq_refl
                ltac:(rewrite accountIdOf_mergeDoc; [exact Hid|reflexivity])
                ltac:(rewrite Hacc1; exact Ha) Hm') as Hup.
  rewrite Hdoc.
  rewrite (tryCatch_bind_ret _ _ _ _ _ _ Hup).
  match type of Hup with _ = (_, ?x) => set (w2 := x) in * end.
  destruct (getInvoicePaymentLink_run env (stripeAssignedId env) w2)
    as (l & w3 & Hlink & (Hacc3 & Hbil3 & Hcon3) & Hc3 & Hlinklog).
  cbv iota beta.
  rewrite (tryCatch_bind_ret _ _ _ _ _ _ Hlink).
  destruct (sendInvoiceEmail_run env account doc (Some (stripeAssignedId env)) l w3)
    as (w4 & Hsend & (Hacc4 & Hbil4 & Hcon4) & Hc4 & Hmail).
  exists w4. split; [apply tryCatch_ret_eq; exact Hsend|].
  right. rewrite Hacc4, Hacc3. subst w2. cbn. rewrite Hacc1. reflexivity.
Qed.

Lemma mergeAccount_over a a1 ud p :
  sameProfile a a1 -> ud_paymentInfo ud = Some p -> mergeAccount a1 ud = mergeAccount a ud.
Proof.
  intros Hp Hud. apply account_ext.
  - eapply sameProfile_trans; [|apply mergeAccount_profile].
    destruct (mergeAccount_profile a ud) as (H1 & H2 & H3 & H4 & H5 & H6 & H7 & H8).
    destruct Hp as (P1 & P2 & P3 & P4 & P5 & P6 & P7 & P8).
    unfold sameProfile. rewrite P1, P2, P3, P4, P5, P6, P7, P8, H1, H2, H3, H4, H5, H6, H7, H8.
    repeat split.
  - rewrite !mergeAccount_billingInfo. reflexivity.
  - rewrite !mergeAccount_paymentInfo, Hud. reflexivity.
Qed.

(** The account after [afterChange]: the nested runs of the hook, which its
    own writes to the billing record start, leave the account as the outer
    run writes it. *)
Lemma afterChange_account n env doc op prev w accId a i :
  fails env AccountsFind = false -> fails env AccountsUpdate = false ->
  (marksOverdue env a doc = true -> fails env BillingUpdate = false) ->
  accountIdOf doc = Some accId -> accounts w !! accId = Some a ->
  docId doc = Some i -> billing w !! i = Some (Some doc) ->
  exists w',
    afterChangeN (S (S n)) env doc op prev w = (Ret tt, w') /\
    accounts w' = <[accId := mergeAccount a (reconcile env a doc op prev)]> (accounts w).
Proof.
  intros Hf Hu Hbu Hid Ha Hdoc Hr.
  set (ud := reconcile env a doc op prev).
  set (ub := updateBillingWith (afterChangeN (S n) env) env).
  assert (exists w1 a1 r1,
    (forall ud0, overdueCheck ub env doc a ud0 w = (Ret (lateSection env a doc ud0), w1)) /\
    accounts w1 = <[accId := a1]> (accounts w) /\
    mergeAccount a1 ud = mergeAccount a ud /\
    billing w1 !! i = Some (Some r1) /\
    amount r1 = amount doc /\ paidAmount r1 = paidAmount doc /\ dueDate r1 = dueDate doc /\
    account r1 = account doc /\
    openStatus r1 = openStatus doc /\
    status r1 = (if marksOverdue env a doc then Some overdue else status doc))
    as (w1 & a1 & r1 & Hoc & Hacc1 & Ha1 & Hbil1 & Hamt & Hpaid & Hdue & Hacct & Hopen & Hst1).
  { destruct (marksOverdue env a doc) eqn:Hm.
    - set (patch := setStatus emptyDoc (Some overdue)).
      pose proof (updateBilling_plain n env i patch doc w accId a (Hbu eq_refl) Hf Hu Hr
                    eq_refl eq_refl
                    ltac:(rewrite accountIdOf_mergeDoc; [exact Hid|reflexivity])
                    Ha ltac:(apply marksOverdue_overdue; reflexivity)) as Hup.
      match type of Hup with _ = (_, ?x) => exists x end.
      exists (mergeAccount a (reconcile env a (mergeDoc patch doc) update (Some doc))),
        (mergeDoc patch doc).
      destruct (marksOverdue_open _ _ _ Hm) as (due & Hd & Hopen & Hpend).
      split.
      { intros ud0. rewrite (overdueCheck_mark _ _ _ _ _ _ Hm). rewrite Hdoc.
        fold patch. fold ub in Hup. rewrite (bind_ret_eq _ _ _ _ _ Hup). reflexivity. }
      split; [reflexivity|].
      split.
      { destruct (reconcile_paymentInfo_open env a doc op prev due Hd Hopen) as (p & Hp).
        apply (mergeAccount_over a _ ud p); [apply mergeAccount_profile|exact Hp]. }
      split; [cbn; apply list_lookup_insert_eq; apply (lookup_lt_length _ _ _ Hr)|].
      repeat split. rewrite Hopen. reflexivity.
    - exists w, a, doc.
      split; [intros ud0; apply overdueCheck_plain; exact Hm|].
      split; [symmetry; apply insert_id; exact Ha|].
      repeat split; auto. }
  assert (accounts w1 !! accId = Some a1) as Hla1 by (rewrite Hacc1; apply lookup_insert_eq).
  pose proof (updateAccount_run env accId ud w1 a1 Hu Hla1) as Hupd.
  rewrite Ha1 in Hupd.
  set (a2 := mergeAccount a ud) in *.
  set (w2 := setAccounts w1 (<[accId := a2]> (accounts w1))) in *.
  assert (accounts w2 = <[accId := a2]> (accounts w)) as Hacc2
    by (subst w2; cbn; rewrite Hacc1; apply insert_insert_eq).
  assert (afterChangeN (S (S n)) env doc op prev w
          = tryCatch (if isCreate op && negb (statusIs (status doc) cancelled)
                      then notifyCreated ub env doc a else ret tt)
              (fun _ => consoleError "Error updating account from billing record:") w2) as Hrun.
  { cbn [afterChangeN]. unfold afterChangeBody. rewrite Hid. fold ub.
    rewrite (tryCatch_bind_ret _ _ _ _ _ _ (findAccountByID_run env accId w a Hf Ha)).
    cbv beta iota zeta.
    rewrite (tryCatch_bind_ret _ _ _ _ _ _ (Hoc _)).
    fold (reconcile env a doc op prev). fold ud.
    rewrite (tryCatch_bind_ret _ _ _ _ _ _ Hupd). reflexivity. }
  rewrite Hrun. fold (notifies op doc).
  destruct (notifies op doc) eqn:Hn; [|exists w2; split; [reflexivity|exact Hacc2]].
  assert (op = create) as Hop
    by (unfold notifies in Hn; destruct op; try discriminate Hn; reflexivity).
  assert (billing w2 !! i = Some (Some r1)) as Hlr1 by (subst w2; cbn; exact Hbil1).
  assert (accountIdOf r1 = Some accId) as Hid1
    by (unfold accountIdOf in *; rewrite Hacct; exact Hid).
  assert (gracePeriodOf a2 = gracePeriodOf a) as Hgrace by apply gracePeriodOf_reconcile.
  assert (marksOverdue env a2 r1 = false) as Hm2.
  { destruct (marksOverdue env a doc) eqn:Hm.
    - apply marksOverdue_overdue. exact Hst1.
    - rewrite (marksOverdue_ext env a a2 doc r1); auto. }
  destruct (notifyCreated_accounts n env doc a w2 accId a2 r1 i Hf Hu Hdoc Hlr1 Hid1
              ltac:(rewrite Hacc2; apply lookup_insert_eq) Hm2)
    as (w' & Hnot & Hacc').
  exists w'. split; [apply tryCatch_ret_eq; exact Hnot|].
  destruct Hacc' as [->| ->]; [exact Hacc2|].
  rewrite Hacc2, insert_insert_eq. f_equal.
  subst a2 ud. rewrite Hop.
  apply notify_reconcile_settled; cbn; try assumption; reflexivity.
Qed.

(** The hook writes to the account exactly the data that it derived from
    the account as it read it.  Its own writes to the billing record (the
    mark overdue, the Stripe invoice id) run the hook again, nested, and
    those runs leave that account as it is; no other account is written. *)
Theorem afterChange_writes_reconciled_account env doc op prev w accId a i :
  fails env AccountsFind = false -> fails env AccountsUpdate = false ->
  fails env BillingUpdate = false ->
  accountIdOf doc = Some accId -> accounts w !! accId = Some a ->
  docId doc = Some i -> billing w !! i = Some (Some doc) ->
  exists w',
    afterChange env doc op prev w = (Ret tt, w') /\
    accounts w' !! accId = Some (mergeAccount a (reconcile env a doc op prev)) /\
    (forall other, other <> accId -> accounts w' !! other = accounts w !! other).
Proof.
  intros Hf Hu Hb Hid Ha Hdoc Hr.
  destruct (afterChange_account 0 env doc op prev w accId a i Hf Hu (fun _ => Hb) Hid Ha Hdoc Hr)
    as (w' & Hrun & Hacc).
  exists w'. split; [exact Hrun|]. rewrite Hacc.
  split; [apply lookup_insert_eq|].
  intros other Hne. apply lookup_insert_ne. congruence.
Qed.

Lemma paymentStatusUpdate_open env a doc op prev nb ud :
  statusIs (status doc) paid = false ->
  ud_paymentInfo (paymentStatusUpdate env a doc op prev nb ud) = ud_paymentInfo ud.
Proof.
  intros Hp. unfold paymentStatusUpdate. destruct op; try reflexivity.
  destruct prev as [p|]; [|reflexivity]. rewrite Hp. cbn [andb negb].
  rewrite andb_true_r.
  destruct (statusIs (status p) paid); [|reflexivity].
  destruct (0 <? num_or0 (paidAmount p)); reflexivity.
Qed.

Lemma openStatus_not_paid doc : openStatus doc = true -> statusIs (status doc) paid = false.
Proof.
  unfold openStatus. intros H. apply andb_true_iff in H as [H _].
  apply negb_true_iff in H. exact H.
Qed.

(** The payment data that the reconciliation of an open record with a due
    date sends to the account. *)
Lemma reconcile_lateness env a doc op prev due :
  dueDate doc = Some due -> openStatus doc = true ->
  let P := spreadPaymentInfo (paymentInfo a) in
  let B := reconciledBalance a doc op prev in
  ud_paymentInfo (reconcile env a doc op prev)
  = Some (if (due + gracePeriodOf a * msPerDay <? now env) && (0 <? B)
          then setIsLate P (Some (match lastPaymentDate P with
                                  | None => late
                                  | Some l => if l <? due then late else current
                                  end))
          else if B <=? 0 then setIsLate P (Some current) else P).
Proof.
  intros Hd Ho P B.
  pose proof (reconcile_balance env a doc op prev) as HB. fold B in HB.
  revert HB. unfold reconcile, lateSection. rewrite Hd, Ho.
  rewrite lateStatusUpdate_billingInfo.
  set (ud1 := paymentStatusUpdate _ _ _ _ _ _ _).
  assert (ud_paymentInfo ud1 = None) as Hp1
    by (subst ud1; rewrite paymentStatusUpdate_open by (apply openStatus_not_paid; exact Ho);
        reflexivity).
  intros HB. unfold lateStatusUpdate. rewrite Hp1, HB. cbn [num_or0]. fold P.
  unfold isOverdueFor. rewrite Hd, setDate_getDate_add.
  destruct ((due + gracePeriodOf a * msPerDay <? now env) && (0 <? B)).
  - cbn [ud_paymentInfo setUdPaymentInfo]. do 2 f_equal.
    destruct (lastPaymentDate P) as [l|]; cbn [orElse]; [|reflexivity].
    destruct (l <? due); reflexivity.
  - destruct (B <=? 0); reflexivity.
Qed.

(** The lateness of a residential account after the reconciliation of an
    open record (neither paid nor cancelled) that has a due date: with the
    due date and the grace period of the account behind and a balance above
    zero, the account is late if its last payment is absent or before the
    due date and current otherwise; with a balance of zero or less it is
    current; otherwise its lateness stays.  The grace period is 5 days when
    the account has none or has 0. *)
Theorem residential_lateness_rule env doc op prev w accId a i due :
  fails env AccountsFind = false -> fails env AccountsUpdate = false ->
  fails env BillingUpdate = false ->
  accountIdOf doc = Some accId -> accounts w !! accId = Some a ->
  docId doc = Some i -> billing w !! i = Some (Some doc) ->
  dueDate doc = Some due -> openStatus doc = true ->
  let P := spreadPaymentInfo (paymentInfo a) in
  exists w' a',
    afterChange env doc op prev w = (Ret tt, w') /\
    accounts w' !! accId = Some a' /\
    balanceOf a' = reconciledBalance a doc op prev /\
    paymentInfo a'
    = Some (if (due + gracePeriodOf a * msPerDay <? now env) && (0 <? balanceOf a')
            then setIsLate P (Some (match lastPaymentDate P with
                                    | None => late
                                    | Some l => if l <? due then late else current
                                    end))
            else if balanceOf a' <=? 0 then setIsLate P (Some current) else P).
Proof.
  intros Hf Hu Hb Hid Ha Hdoc Hr Hd Ho P.
  destruct (afterChange_account 0 env doc op prev w accId a i Hf Hu (fun _ => Hb) Hid Ha Hdoc Hr)
    as (w' & Hrun & Hacc).
  exists w', (mergeAccount a (reconcile env a doc op prev)).
  split; [exact Hrun|]. split; [rewrite Hacc; apply lookup_insert_eq|].
  assert (balanceOf (mergeAccount a (reconcile env a doc op prev))
          = reconciledBalance a doc op prev) as HB
    by (apply (balanceOf_reconciled env); apply mergeAccount_billingInfo).
  split; [exact HB|].
  rewrite mergeAccount_paymentInfo, HB.
  rewrite (reconcile_lateness env a doc op prev due Hd Ho). reflexivity.
Qed.

(** ** Payments, cancellations and round trips *)

Lemma lateSection_closed env a doc ud : openStatus doc = false -> lateSection env a doc ud = ud.
Proof. intros H. unfold lateSection. rewrite H. destruct (dueDate doc); reflexivity. Qed.

(** Cancelling a billing record does not take its amount off the balance.
    [afterChange], called for an update with a cancelled document, moves
    the balance by the change of the amount, and adds the paid amount of
    the previous document when that one was paid; the payment data of the
    account, its lateness included, stay, and nothing else is written. *)
Theorem cancelling_keeps_the_balance env doc previousDoc w accId a :
  fails env AccountsFind = false -> fails env AccountsUpdate = false ->
  accountIdOf doc = Some accId -> accounts w !! accId = Some a ->
  status doc = Some cancelled ->
  exists w' a',
    afterChange env doc update (Some previousDoc) w = (Ret tt, w') /\
    accounts w' !! accId = Some a' /\
    balanceOf a'
    = balanceOf a + (num_or0 (amount doc) - num_or0 (amount previousDoc))
      + (if statusIs (status previousDoc) paid && (0 <? num_or0 (paidAmount previousDoc))
         then num_or0 (paidAmount previousDoc) else 0) /\
    paymentInfo a' = paymentInfo a /\
    billing w' = billing w /\ console w' = console w /\ outbox w' = outbox w /\
    stripe w' = stripe w /\ calls w' = calls w.
Proof.
  intros Hf Hu Hid Ha Hst.
  assert (openStatus doc = false) as Ho by (unfold openStatus; rewrite Hst; reflexivity).
  assert (statusIs (status doc) paid = false) as Hnp by (rewrite Hst; reflexivity).
  pose proof (afterChange_plain 1 env doc update (Some previousDoc) w accId a Hf Hu Hid Ha
                (marksOverdue_closed env a doc Ho) eq_refl) as Hrun.
  eexists. exists (mergeAccount a (reconcile env a doc update (Some previousDoc))).
  split; [exact Hrun|].
  split; [cbn; apply lookup_insert_eq|].
  split.
  - rewrite (balanceOf_reconciled env a _ doc update (Some previousDoc))
      by apply mergeAccount_billingInfo.
    unfold reconciledBalance, balanceChangeOf. rewrite Hnp. cbn [andb negb].
    rewrite andb_true_r.
    destruct (statusIs (status previousDoc) paid); cbn [andb]; [|lia].
    destruct (0 <? num_or0 (paidAmount previousDoc)); lia.
  - split; [|repeat split].
    rewrite mergeAccount_paymentInfo.
    unfold reconcile. rewrite (lateSection_closed _ _ _ _ Ho).
    rewrite paymentStatusUpdate_open by exact Hnp. reflexivity.
Qed.

(** A payment.  [afterChange], called for an update that makes a record
    paid, takes the settled amount off the balance, down to zero at most;
    the settled amount is the paid amount of the record, and its whole
    amount when the paid amount is 0 or absent.  The payment is recorded on
    the account with its date (today when the record has none); the other
    payment data of the account, its lateness included, stay, and nothing
    else is written. *)
Theorem payment_settles_balance env doc previousDoc w accId a :
  fails env AccountsFind = false -> fails env AccountsUpdate = false ->
  accountIdOf doc = Some accId -> accounts w !! accId = Some a ->
  statusIs (status doc) paid = true ->
  statusIs (status previousDoc) paid = false ->
  let newBalance := balanceOf a + (num_or0 (amount doc) - num_or0 (amount previousDoc)) in
  let settled := if num_or0 (paidAmount doc) =? 0 then num_or0 (amount doc)
                 else num_or0 (paidAmount doc) in
  let date := match paidDate doc with Some d => d | None => toISODate (now env) end in
  exists w' a',
    afterChange env doc update (Some previousDoc) w = (Ret tt, w') /\
    accounts w' !! accId = Some a' /\
    balanceOf a' = (if 0 <? settled then Z.max 0 (newBalance - settled) else newBalance) /\
    paymentInfo a'
    = Some (setLastPayment (spreadPaymentInfo (paymentInfo a)) (Some date) (Some settled)) /\
    billing w' = billing w /\ console w' = console w /\ outbox w' = outbox w /\
    stripe w' = stripe w /\ calls w' = calls w.
Proof.
  intros Hf Hu Hid Ha Hpd Hnp newBalance settled date.
  assert (openStatus doc = false) as Ho by (unfold openStatus; rewrite Hpd; reflexivity).
  pose proof (afterChange_plain 1 env doc update (Some previousDoc) w accId a Hf Hu Hid Ha
                (marksOverdue_closed env a doc Ho) eq_refl) as Hrun.
  eexists. exists (mergeAccount a (reconcile env a doc update (Some previousDoc))).
  split; [exact Hrun|].
  split; [cbn; apply lookup_insert_eq|].
  split.
  - rewrite (balanceOf_reconciled env a _ doc update (Some previousDoc))
      by apply mergeAccount_billingInfo.
    unfold reconciledBalance, balanceChangeOf. rewrite Hpd, Hnp.
    cbn [andb negb]. fold newBalance settled. reflexivity.
  - split; [|repeat split].
    rewrite mergeAccount_paymentInfo.
    unfold reconcile. rewrite (lateSection_closed _ _ _ _ Ho).
    unfold paymentStatusUpdate. rewrite Hpd, Hnp. cbn [andb negb]. fold settled.
    assert (orElse (paidDate doc) (Some (toISODate (now env))) = Some date) as ->
      by (subst date; destruct (paidDate doc); reflexivity).
    destruct (0 <? settled); reflexivity.
Qed.

Lemma applyEvent_update env doc previousDoc w i :
  docId doc = Some i ->
  applyEvent env (EvUpdate doc previousDoc) w
  = afterChange env doc update (Some previousDoc)
      (setBilling w (<[i := Some doc]> (billing w))).
Proof. intros H. unfold applyEvent, bind, modify, written. rewrite H. reflexivity. Qed.

(** A payment that is taken back.  A record is made paid with a positive
    paid amount and then pending again, its amount unchanged, and the hook
    runs for both updates: the payment is taken off the balance down to
    zero at most and is added back in full, so the balance ends at the
    larger of the balance before and the paid amount, not always at the
    balance before. *)
Theorem pay_then_reopen env1 env2 r settled reopened w accId a i :
  fails env1 AccountsFind = false -> fails env1 AccountsUpdate = false ->
  fails env2 AccountsFind = false -> fails env2 AccountsUpdate = false ->
  fails env2 BillingUpdate = false ->
  docId settled = Some i -> docId reopened = Some i -> (i < length (billing w))%nat ->
  accountIdOf settled = Some accId -> accountIdOf reopened = Some accId ->
  accounts w !! accId = Some a ->
  statusIs (status r) paid = false ->
  statusIs (status settled) paid = true ->
  statusIs (status reopened) paid = false ->
  num_or0 (amount settled) = num_or0 (amount r) ->
  num_or0 (amount reopened) = num_or0 (amount r) ->
  0 < num_or0 (paidAmount settled) ->
  exists w1 w2,
    applyEvent env1 (EvUpdate settled r) w = (Ret tt, w1) /\
    balanceAt w1 accId = Z.max 0 (balanceOf a - num_or0 (paidAmount settled)) /\
    applyEvent env2 (EvUpdate reopened settled) w1 = (Ret tt, w2) /\
    balanceAt w2 accId = Z.max (balanceOf a) (num_or0 (paidAmount settled)).
Proof.
  intros Hf1 Hu1 Hf2 Hu2 Hb2 Hd1 Hd2 Hlt Hid1 Hid2 Ha Hnp Hpd Hnp2 Ham1 Ham2 Hp.
  set (p := num_or0 (paidAmount settled)) in *.
  set (w0 := setBilling w (<[i := Some settled]> (billing w))).
  assert (openStatus settled = false) as Ho by (unfold openStatus; rewrite Hpd; reflexivity).
  pose proof (afterChange_plain 1 env1 settled update (Some r) w0 accId a Hf1 Hu1 Hid1 Ha
                (marksOverdue_closed env1 a settled Ho) eq_refl) as Hrun1.
  set (a1 := mergeAccount a (reconcile env1 a settled update (Some r))) in *.
  set (w1 := setAccounts w0 (<[accId := a1]> (accounts w0))) in *.
  assert (balanceOf a1 = Z.max 0 (balanceOf a - p)) as Hbal1.
  { subst a1. rewrite (balanceOf_reconciled env1 a _ settled update (Some r))
      by apply mergeAccount_billingInfo.
    unfold reconciledBalance, balanceChangeOf. rewrite Hpd, Hnp, Ham1, Z.sub_diag, Z.add_0_r.
    cbn [andb negb]. fold p.
    destruct (Z.eqb_spec p 0); [lia|]. destruct (Z.ltb_spec 0 p); [reflexivity|lia]. }
  assert (accounts w1 !! accId = Some a1) as Ha1 by (subst w1; cbn; apply lookup_insert_eq).
  set (w1' := setBilling w1 (<[i := Some reopened]> (billing w1))).
  assert (billing w1' !! i = Some (Some reopened)) as Hl.
  { subst w1' w1 w0. cbn. apply list_lookup_insert_eq. rewrite length_insert. exact Hlt. }
  destruct (afterChange_account 0 env2 reopened update (Some settled) w1' accId a1 i
              Hf2 Hu2 (fun _ => Hb2) Hid2 Ha1 Hd2 Hl) as (w2 & Hrun2 & Hacc2).
  exists w1, w2.
  split; [rewrite (applyEvent_update _ _ _ _ i Hd1); exact Hrun1|].
  split; [rewrite (balanceAt_lookup _ _ _ Ha1); exact Hbal1|].
  split; [rewrite (applyEvent_update _ _ _ _ i Hd2); exact Hrun2|].
  unfold balanceAt. rewrite Hacc2, lookup_insert_eq.
  rewrite (balanceOf_reconciled env2 a1 _ reopened update (Some settled))
    by apply mergeAccount_billingInfo.
  unfold reconciledBalance, balanceChangeOf.
  rewrite Hnp2, Hpd, Ham1, Ham2, Z.sub_diag, Z.add_0_r. cbn [andb negb]. fold p.
  destruct (Z.ltb_spec 0 p); lia.
Qed.

(** A create that is taken back.  [afterChange] for a created record adds
    its amount to the balance, whatever the balance, and [afterDelete] for
    the deleted record takes the amount off again: after the two runs the
    balance is what it was (amounts being whole numbers, of which the sums
    are exact). *)
Theorem create_then_delete_restores_balance env1 env2 doc deleted w accId a i :
  fails env1 AccountsFind = false -> fails env1 AccountsUpdate = false ->
  fails env1 BillingUpdate = false ->
  fails env2 AccountsFind = false -> fails env2 AccountsUpdate = false ->
  accountIdOf doc = Some accId -> accountIdOf deleted = Some accId ->
  accounts w !! accId = Some a ->
  docId doc = Some i -> billing w !! i = Some (Some doc) ->
  num_or0 (amount deleted) = num_or0 (amount doc) ->
  exists w1 w2,
    afterChange env1 doc create None w = (Ret tt, w1) /\
    balanceAt w1 accId = balanceOf a + num_or0 (amount doc) /\
    afterDelete env2 deleted w1 = (Ret tt, w2) /\
    balanceAt w2 accId = balanceOf a.
Proof.
  intros Hf1 Hu1 Hb1 Hf2 Hu2 Hid Hid' Ha Hdoc Hr Hamt.
  destruct (afterChange_account 0 env1 doc create None w accId a i Hf1 Hu1 (fun _ => Hb1)
              Hid Ha Hdoc Hr) as (w1 & Hrun & Hacc).
  set (a1 := mergeAccount a (reconcile env1 a doc create None)) in *.
  assert (accounts w1 !! accId = Some a1) as Ha1 by (rewrite Hacc; apply lookup_insert_eq).
  assert (balanceOf a1 = balanceOf a + num_or0 (amount doc)) as Hbal1.
  { subst a1. rewrite (balanceOf_reconciled env1 a _ doc create None)
      by apply mergeAccount_billingInfo.
    reflexivity. }
  exists w1. eexists.
  split; [exact Hrun|].
  split; [rewrite (balanceAt_lookup _ _ _ Ha1); exact Hbal1|].
  split; [apply (afterDelete_effect env2 deleted w1 accId a1 Hf2 Hu2 Hid' Ha1)|].
  unfold balanceAt. cbn [accounts setAccounts]. rewrite lookup_insert_eq.
  rewrite balanceOf_setBalance, Hbal1, Hamt. lia.
Qed.

(** When the account of the record is missing or cannot be read, the hook
    logs the error and returns: nothing else changes, and the mutation of
    the billing record stands. *)
Theorem account_lookup_failure_is_swallowed env doc op prev w accId :
  accountIdOf doc = Some accId ->
  fails env AccountsFind = true \/ accounts w !! accId = None ->
  afterChange env doc op prev w
  = (Ret tt, setConsole w (console w ++ [updateErrorEntry])).
Proof.
  intros Hid Hfail. unfold afterChange. cbn [afterChangeN]. unfold afterChangeBody.
  rewrite Hid. unfold tryCatch, bind at 1, findAccountByID.
  destruct (fails env AccountsFind) eqn:Hf; [reflexivity|].
  destruct Hfail as [Hx| ->]; [discriminate|reflexivity].
Qed.

(** When the document that the hooks are called with does not carry its
    account as a non-empty id string (the account is absent, the id is
    empty, or the account is populated: the document of the account, not
    its id), [afterChange] and [afterDelete] return at once: no account is
    read or written, nothing is logged, no notification is attempted. *)
Theorem populated_account_skips_reconciliation env doc op prev w :
  (account doc = None \/ account doc = Some (RefId "") \/
   exists id, account doc = Some (RefDoc id)) ->
  afterChange env doc op prev w = (Ret tt, w) /\
  afterDelete env doc w = (Ret tt, w).
Proof.
  intros H.
  assert (accountIdOf doc = None) as Hid
    by (unfold accountIdOf; destruct H as [->|[->|(id & ->)]]; reflexivity).
  unfold afterChange, afterDelete. cbn [afterChangeN]. unfold afterChangeBody.
  rewrite Hid. split; reflexivity.
Qed.

(** When the account cannot be read or written while [afterDelete] runs
    for a deleted record, the hook logs the error and returns normally, so
    that the delete stands: every account and everything else is as it
    was. *)
Theorem delete_survives_account_failure env doc w accId :
  accountIdOf doc = Some accId ->
  fails env AccountsFind = true \/ accounts w !! accId = None \/ fails env AccountsUpdate = true ->
  afterDelete env doc w = (Ret tt, setConsole w (console w ++ [deleteErrorEntry])).
Proof.
  intros Hid Hfail. unfold afterDelete. rewrite Hid.
  unfold tryCatch, bind, findAccountByID.
  destruct (fails env AccountsFind) eqn:Hf; [reflexivity|].
  destruct (accounts w !! accId) as [a|] eqn:Ha; [|reflexivity].
  destruct Hfail as [Hx|[Hx|Hx]]; try discriminate.
  unfold updateAccount. rewrite Hx. reflexivity.
Qed.

Lemma sendInvoiceEmail_effect env a doc id link w :
  exists w',
    sendInvoiceEmail env a doc id link w = (Ret tt, w') /\
    accounts w' = accounts w /\ billing w' = billing w /\ stripe w' = stripe w /\
    outbox w' = outbox w ++ (if mailGoesOut env a then [invoiceMail a doc link] else []) /\
    (forall x, In x (console w) -> In x (console w')).
Proof.
  unfold sendInvoiceEmail, mailGoesOut, invoiceMail, truthyS.
  unfold bind, traceCall, modify, tryCatch, consoleWarn, consoleError, throw, modify.
  destruct (email a) as [addr|]; cbn [andb].
  - destruct (String.eqb addr ""); cbn [negb andb].
    + eexists. split; [reflexivity|]. cbn. rewrite app_nil_r.
      repeat split; auto. intros x Hx. apply in_or_app. left. exact Hx.
    + destruct (SMTP_HOST env); cbn [negb andb].
      * destruct (fails env SendMail); cbn [negb]; eexists; (split; [reflexivity|]); cbn;
          rewrite ?app_nil_r; repeat split; auto; intros x Hx; apply in_or_app; left; exact Hx.
      * eexists. split; [reflexivity|]. cbn. rewrite app_nil_r.
        repeat split; auto. intros x Hx; apply in_or_app; left; exact Hx.
  - eexists. split; [reflexivity|]. cbn. rewrite app_nil_r.
    repeat split; auto. intros x Hx; apply in_or_app; left; exact Hx.
Qed.

(** [sendInvoiceEmail] never raises and never touches the database or
    Stripe.  It hands exactly one mail to the transport, to the address of
    the account and with the payment link when there is one, if the account
    has an address, SMTP is configured and the transport works, and no mail
    otherwise. *)
Theorem sendInvoiceEmail_sends_at_most_one_mail env a doc id link w :
  exists w',
    sendInvoiceEmail env a doc id link w = (Ret tt, w') /\
    accounts w' = accounts w /\ billing w' = billing w /\ stripe w' = stripe w /\
    outbox w' = outbox w ++ (if mailGoesOut env a then [invoiceMail a doc link] else []).
Proof.
  destruct (sendInvoiceEmail_effect env a doc id link w) as (w' & H1 & H2 & H3 & H4 & H5 & _).
  exists w'. auto.
Qed.

(** When the Stripe invoice cannot be created (Stripe fails, or the record
    has no due date), the notification logs the error twice and still sends
    the invoice mail, without a payment link. *)
Theorem notification_falls_back_to_plain_email ub env doc a w :
  stripeFails env a doc = true ->
  exists w',
    notifyCreated ub env doc a w = (Ret tt, w') /\
    accounts w' = accounts w /\ billing w' = billing w /\ stripe w' = stripe w /\
    outbox w' = outbox w ++ (if mailGoesOut env a then [invoiceMail a doc None] else []) /\
    In (ConsoleError "Error creating Stripe invoice:") (console w') /\
    In (ConsoleError "Error creating Stripe invoice or sending email:") (console w').
Proof.
  intros Hs. unfold stripeFails in Hs.
  apply andb_true_iff in Hs as [Hs Hfail]. apply andb_true_iff in Hs as [Hkey Hcust].
  assert (exists e w1, createStripeInvoice env doc a w = (Throw e, w1) /\
            accounts w1 = accounts w /\ billing w1 = billing w /\ stripe w1 = stripe w /\
            outbox w1 = outbox w /\
            In (ConsoleError "Error creating Stripe invoice:") (console w1))
    as (e & w1 & Hrun & A1 & A2 & A3 & A4 & A5).
  { unfold createStripeInvoice. unfold bind at 1, traceCall, modify.
    rewrite Hkey. cbn [negb]. unfold truthyS in Hcust.
    destruct (stripeCustomerId a) as [cust|]; [|discriminate].
    apply negb_true_iff in Hcust. rewrite Hcust.
    unfold tryCatch, bind at 1, calculateDaysUntilDue.
    destruct (dueDate doc) as [due|].
    - cbn [absent orb] in Hfail. unfold ret. rewrite Hfail.
      eexists. eexists. split; [reflexivity|]. cbn.
      repeat split; auto. apply in_or_app. right. left. reflexivity.
    - eexists. eexists. split; [reflexivity|]. cbn.
      repeat split; auto. apply in_or_app. right. left. reflexivity. }
  unfold notifyCreated.
  rewrite (tryCatch_throw_eq _ _ _ _ _ (bind_throw_eq _ _ _ _ _ Hrun)).
  unfold bind, consoleError, modify.
  set (w2 := setConsole w1 _).
  destruct (sendInvoiceEmail_effect env a doc None None w2) as (w' & Hsend & B1 & B2 & B3 & B4 & B5).
  exists w'. split; [apply tryCatch_ret_eq; exact Hsend|].
  rewrite B1, B2, B3, B4. subst w2. cbn. rewrite A1, A2, A3, A4.
  repeat split.
  - apply B5. cbn. apply in_or_app. left. exact A5.
  - apply B5. cbn. apply in_or_app. right. left. reflexivity.
Qed.

(** *** The theorems above, at the sample data *)

Lemma afterChange_writes_reconciled_account_witness :
  let env := envAt (dateString 2024 3 20) in
  let doc := sampleRecord 0 75 pending None in
  let w := sampleWorld 0 [Some doc] in
  exists w',
    afterChange env doc create None w = (Ret tt, w') /\
    accounts w' !! "acc"
    = Some (mergeAccount (sampleAccountWith 0)
              (reconcile env (sampleAccountWith 0) doc create None)) /\
    (forall other, other <> "acc"%string -> accounts w' !! other = accounts w !! other).
Proof.
  apply (afterChange_writes_reconciled_account (envAt (dateString 2024 3 20))
           (sampleRecord 0 75 pending None) create None
           (sampleWorld 0 [Some (sampleRecord 0 75 pending None)]) "acc"
           (sampleAccountWith 0) 0%nat); reflexivity.
Defined.

Lemma residential_lateness_rule_witness :
  let env := envAt (dateString 2024 5 20) in
  let doc := sampleRecord 0 75 overdue None in
  let w := sampleWorld 0 [Some doc] in
  let a := sampleAccountWith 0 in
  let due := dateString 2024 4 14 in
  let P := spreadPaymentInfo (paymentInfo a) in
  exists w' a',
    afterChange env doc create None w = (Ret tt, w') /\
    accounts w' !! "acc" = Some a' /\
    balanceOf a' = reconciledBalance a doc create None /\
    paymentInfo a'
    = Some (if (due + gracePeriodOf a * msPerDay <? now env) && (0 <? balanceOf a')
            then setIsLate P (Some (match lastPaymentDate P with
                                    | None => late
                                    | Some l => if l <? due then late else current
                                    end))
            else if balanceOf a' <=? 0 then setIsLate P (Some current) else P).
Proof.
  apply (residential_lateness_rule (envAt (dateString 2024 5 20))
           (sampleRecord 0 75 overdue None) create None
           (sampleWorld 0 [Some (sampleRecord 0 75 overdue None)]) "acc"
           (sampleAccountWith 0) 0%nat (dateString 2024 4 14)); reflexivity.
Defined.

(** A record of 75 that is 36 days past its due date, on an account that
    never paid: the account is late. *)
Example overdue_record_makes_late :
  let env := envAt (dateString 2024 5 20) in
  let doc := sampleRecord 0 75 overdue None in
  let w' := worldAfter (afterChange env doc create None (sampleWorld 0 [Some doc])) in
  option_map (fun a => isLate (spreadPaymentInfo (paymentInfo a))) (accounts w' !! "acc")
  = Some (Some late).
Proof. vm_compute. reflexivity. Qed.

Lemma cancelling_keeps_the_balance_witness :
  let env := envAt (dateString 2024 3 20) in
  let previousDoc := sampleRecord 0 75 paid (Some 75) in
  let doc := sampleRecord 0 75 cancelled (Some 75) in
  let w := sampleWorld 0 [Some doc] in
  let a := sampleAccountWith 0 in
  exists w' a',
    afterChange env doc update (Some previousDoc) w = (Ret tt, w') /\
    accounts w' !! "acc" = Some a' /\
    balanceOf a'
    = balanceOf a + (num_or0 (amount doc) - num_or0 (amount previousDoc))
      + (if statusIs (status previousDoc) paid && (0 <? num_or0 (paidAmount previousDoc))
         then num_or0 (paidAmount previousDoc) else 0) /\
    paymentInfo a' = paymentInfo a /\
    billing w' = billing w /\ console w' = console w /\ outbox w' = outbox w /\
    stripe w' = stripe w /\ calls w' = calls w.
Proof.
  apply (cancelling_keeps_the_balance (envAt (dateString 2024 3 20))
           (sampleRecord 0 75 cancelled (Some 75)) (sampleRecord 0 75 paid (Some 75))
           (sampleWorld 0 [Some (sampleRecord 0 75 cancelled (Some 75))]) "acc"
           (sampleAccountWith 0)); reflexivity.
Defined.

(** A paid record of 75 on an account that owes nothing is cancelled: the
    account owes 75; a pending record of 75 on an account that owes 75 is
    cancelled: the account still owes 75. *)
Example cancelled_records :
  let env := envAt (dateString 2024 3 20) in
  let doc := sampleRecord 0 75 cancelled None in
  balanceAt (worldAfter (afterChange env (sampleRecord 0 75 cancelled (Some 75)) update
                           (Some (sampleRecord 0 75 paid (Some 75)))
                           (sampleWorld 0 [Some doc]))) "acc" = 75 /\
  balanceAt (worldAfter (afterChange env doc update (Some (sampleRecord 0 75 pending None))
                           (sampleWorld 75 [Some doc]))) "acc" = 75.
Proof. vm_compute. split; reflexivity. Qed.

Lemma payment_settles_balance_witness :
  let env := envAt (dateString 2024 3 20) in
  let previousDoc := sampleRecord 0 75 pending None in
  let doc := sampleRecord 0 75 paid (Some 0) in
  let w := sampleWorld 75 [Some doc] in
  let a := sampleAccountWith 75 in
  let newBalance := balanceOf a + (num_or0 (amount doc) - num_or0 (amount previousDoc)) in
  let settled := if num_or0 (paidAmount doc) =? 0 then num_or0 (amount doc)
                 else num_or0 (paidAmount doc) in
  let date := match paidDate doc with Some d => d | None => toISODate (now env) end in
  exists w' a',
    afterChange env doc update (Some previousDoc) w = (Ret tt, w') /\
    accounts w' !! "acc" = Some a' /\
    balanceOf a' = (if 0 <? settled then Z.max 0 (newBalance - settled) else newBalance) /\
    paymentInfo a'
    = Some (setLastPayment (spreadPaymentInfo (paymentInfo a)) (Some date) (Some settled)) /\
    billing w' = billing w /\ console w' = console w /\ outbox w' = outbox w /\
    stripe w' = stripe w /\ calls w' = calls w.
Proof.
  apply (payment_settles_balance (envAt (dateString 2024 3 20))
           (sampleRecord 0 75 paid (Some 0)) (sampleRecord 0 75 pending None)
           (sampleWorld 75 [Some (sampleRecord 0 75 paid (Some 0))]) "acc"
           (sampleAccountWith 75)); reflexivity.
Defined.

(** A record of 75 marked paid with a paid amount of 0 settles the whole
    75; marked paid with 100 on an account that owes 75, it leaves 0. *)
Example settled_records :
  let env := envAt (dateString 2024 3 20) in
  let previousDoc := sampleRecord 0 75 pending None in
  balanceAt (worldAfter (afterChange env (sampleRecord 0 75 paid (Some 0)) update
                           (Some previousDoc) (sampleWorld 75 []))) "acc" = 0 /\
  balanceAt (worldAfter (afterChange env (sampleRecord 0 75 paid (Some 100)) update
                           (Some previousDoc) (sampleWorld 75 []))) "acc" = 0.
Proof. vm_compute. split; reflexivity. Qed.

Lemma create_then_delete_restores_balance_witness :
  let env := envAt (dateString 2024 3 20) in
  let doc := sampleRecord 0 75 pending None in
  let w := sampleWorld 40 [Some doc] in
  exists w1 w2,
    afterChange env doc create None w = (Ret tt, w1) /\
    balanceAt w1 "acc" = balanceOf (sampleAccountWith 40) + num_or0 (amount doc) /\
    afterDelete env doc w1 = (Ret tt, w2) /\
    balanceAt w2 "acc" = balanceOf (sampleAccountWith 40).
Proof.
  apply (create_then_delete_restores_balance (envAt (dateString 2024 3 20))
           (envAt (dateString 2024 3 20)) (sampleRecord 0 75 pending None)
           (sampleRecord 0 75 pending None)
           (sampleWorld 40 [Some (sampleRecord 0 75 pending None)]) "acc"
           (sampleAccountWith 40) 0%nat); reflexivity.
Defined.

Lemma pay_then_reopen_witness :
  let env := envAt (dateString 2024 3 20) in
  let r := sampleRecord 0 75 pending None in
  let settled := sampleRecord 0 75 paid (Some 75) in
  let w := sampleWorld 50 [Some r] in
  exists w1 w2,
    applyEvent env (EvUpdate settled r) w = (Ret tt, w1) /\
    balanceAt w1 "acc"
    = Z.max 0 (balanceOf (sampleAccountWith 50) - num_or0 (paidAmount settled)) /\
    applyEvent env (EvUpdate r settled) w1 = (Ret tt, w2) /\
    balanceAt w2 "acc" = Z.max (balanceOf (sampleAccountWith 50)) (num_or0 (paidAmount settled)).
Proof.
  apply (pay_then_reopen (envAt (dateString 2024 3 20)) (envAt (dateString 2024 3 20))
           (sampleRecord 0 75 pending None) (sampleRecord 0 75 paid (Some 75))
           (sampleRecord 0 75 pending None)
           (sampleWorld 50 [Some (sampleRecord 0 75 pending None)]) "acc"
           (sampleAccountWith 50) 0%nat);
    try reflexivity; cbn; lia.
Defined.

(** An account that owes 50 pays a record of 75 and the payment is taken
    back: it owes 75. *)
Example reopened_payment :
  let env := envAt (dateString 2024 3 20) in
  let r := sampleRecord 0 75 pending None in
  let settled := sampleRecord 0 75 paid (Some 75) in
  let w := sampleWorld 50 [Some r] in
  let w1 := worldAfter (applyEvent env (EvUpdate settled r) w) in
  let w2 := worldAfter (applyEvent env (EvUpdate r settled) w1) in
  balanceAt w1 "acc" = 0 /\ balanceAt w2 "acc" = 75.
Proof. vm_compute. split; reflexivity. Qed.

Lemma account_lookup_failure_is_swallowed_witness :
  let env := envAccountsUnreadable (dateString 2024 3 20) in
  let doc := sampleRecord 0 75 pending None in
  let w := sampleWorld 0 [Some doc] in
  afterChange env doc create None w
  = (Ret tt, setConsole w (console w ++ [updateErrorEntry])).
Proof.
  apply (account_lookup_failure_is_swallowed (envAccountsUnreadable (dateString 2024 3 20))
           (sampleRecord 0 75 pending None) create None
           (sampleWorld 0 [Some (sampleRecord 0 75 pending None)]) "acc");
    [reflexivity | left; reflexivity].
Defined.

Lemma populated_account_skips_reconciliation_witness :
  let env := envAt (dateString 2024 3 20) in
  let doc := {| docId := Some 0%nat; billingNumber := Some "BILL-000001"%string;
                account := Some (RefDoc "acc");
                amount := Some 75; billingDate := Some (dateString 2024 3 15);
                dueDate := Some (dateString 2024 4 14); status := Some pending;
                paidDate := None; paidAmount := None;
                description := None; stripeInvoiceId := None |} in
  let w := sampleWorld 0 [Some (sampleRecord 0 75 pending None)] in
  afterChange env doc create None w = (Ret tt, w) /\
  afterDelete env doc w = (Ret tt, w).
Proof.
  apply (populated_account_skips_reconciliation (envAt (dateString 2024 3 20))
           {| docId := Some 0%nat; billingNumber := Some "BILL-000001"%string;
              account := Some (RefDoc "acc");
              amount := Some 75; billingDate := Some (dateString 2024 3 15);
              dueDate := Some (dateString 2024 4 14); status := Some pending;
              paidDate := None; paidAmount := None;
              description := None; stripeInvoiceId := None |}
           create None (sampleWorld 0 [Some (sampleRecord 0 75 pending None)])).
  right. right. exists "acc"%string. reflexivity.
Defined.

Lemma delete_survives_account_failure_witness :
  let env := envAccountsReadOnly (dateString 2024 3 20) in
  let doc := sampleRecord 0 75 pending None in
  let w := sampleWorld 75 [None] in
  afterDelete env doc w = (Ret tt, setConsole w (console w ++ [deleteErrorEntry])).
Proof.
  apply (delete_survives_account_failure (envAccountsReadOnly (dateString 2024 3 20))
           (sampleRecord 0 75 pending None) (sampleWorld 75 [None]) "acc");
    [reflexivity | right; right; reflexivity].
Defined.

Lemma notification_falls_back_to_plain_email_witness :
  let env := envNotifierDown (dateString 2024 3 20) in
  let doc := sampleRecord 0 75 pending None in
  let a := sampleAccountWith 0 in
  let w := sampleWorld 0 [Some doc] in
  exists w',
    notifyCreated (fun _ _ => ret tt) env doc a w = (Ret tt, w') /\
    accounts w' = accounts w /\ billing w' = billing w /\ stripe w' = stripe w /\
    outbox w' = outbox w ++ (if mailGoesOut env a then [invoiceMail a doc None] else []) /\
    In (ConsoleError "Error creating Stripe invoice:") (console w') /\
    In (ConsoleError "Error creating Stripe invoice or sending email:") (console w').
Proof.
  apply (notification_falls_back_to_plain_email (fun _ _ => ret tt)
           (envNotifierDown (dateString 2024 3 20)) (sampleRecord 0 75 pending None)
           (sampleAccountWith 0) (sampleWorld 0 [Some (sampleRecord 0 75 pending None)]));
    reflexivity.
Defined.

(** *** The mark overdue *)



(** ** The validation of a ZIP code *)

Lemma app_nil_inv {A} (s1 s2 : list A) : s1 ++ s2 = [] -> s1 = [] /\ s2 = [].
Proof. destruct s1; [intros H; split; [reflexivity|exact H]|discriminate]. Qed.

Lemma nullable_Lang r : nullable r = true <-> Lang r [].
Proof.
  split.
  - induction r; cbn; intros H; try discriminate.
    + constructor.
    + apply andb_true_iff in H as [H1 H2].
      change (@nil CodeUnit) with (@nil CodeUnit ++ @nil CodeUnit). constructor; auto.
    + apply orb_true_iff in H as [H|H]; [apply LAltL|apply LAltR]; auto.
  - remember (@nil CodeUnit) as s eqn:Hs. intros H. induction H; cbn; try discriminate; auto.
    + apply app_nil_inv in Hs as [-> ->]. rewrite IHLang1, IHLang2; auto.
    + rewrite IHLang; auto.
    + rewrite IHLang; auto. apply orb_true_r.
Qed.

Lemma deriv_Lang c r s : Lang (deriv c r) s <-> Lang r (c :: s).
Proof.
  split.
  - revert s. induction r; cbn; intros s H.
    + inversion H.
    + inversion H.
    + destruct (p c) eqn:Hp; inversion H; subst. constructor. exact Hp.
    + destruct (nullable r1) eqn:Hn.
      * inversion H; subst.
        -- inversion H3; subst.
           change (c :: (s1 ++ s2)) with ((c :: s1) ++ s2).
           constructor; auto.
        -- change (c :: s) with ([] ++ c :: s).
           constructor; [apply nullable_Lang; exact Hn|auto].
      * inversion H; subst.
        change (c :: (s1 ++ s2)) with ((c :: s1) ++ s2).
        constructor; auto.
    + inversion H; subst; [apply LAltL|apply LAltR]; auto.
  - remember (c :: s) as t eqn:Ht. intros H. revert s Ht.
    induction H; intros s0 Ht; cbn; try discriminate.
    + injection Ht as -> <-. rewrite H. constructor.
    + destruct s1 as [|c1 s1].
      * cbn in Ht. subst s2.
        assert (nullable r1 = true) as -> by (apply nullable_Lang; exact H).
        apply LAltR. apply IHLang2. reflexivity.
      * cbn in Ht. injection Ht as -> <-.
        destruct (nullable r1); [apply LAltL|]; constructor; auto.
    + apply LAltL. auto.
    + apply LAltR. auto.
Qed.

(** The matcher decides the language of the expression. *)
Lemma test_Lang r s : test r s = true <-> Lang r s.
Proof.
  revert r. induction s as [|c s IH]; intros r; cbn.
  - apply nullable_Lang.
  - rewrite IH. apply deriv_Lang.
Qed.

Lemma Lang_seq_inv r1 r2 s :
  Lang (RSeq r1 r2) s -> exists s1 s2, s = s1 ++ s2 /\ Lang r1 s1 /\ Lang r2 s2.
Proof. intros H. inversion H; subst. eauto. Qed.

Lemma Lang_alt_inv r1 r2 s : Lang (RAlt r1 r2) s -> Lang r1 s \/ Lang r2 s.
Proof. intros H. inversion H; subst; auto. Qed.

Lemma Lang_eps_inv s : Lang REps s -> s = [].
Proof. intros H. inversion H. reflexivity. Qed.

Lemma Lang_class_inv p s : Lang (RClass p) s -> exists c, s = [c] /\ p c = true.
Proof. intros H. inversion H; subst. eauto. Qed.

Lemma Lang_times p n : forall s,
  Lang (times n (RClass p)) s <-> length s = n /\ Forall (fun c => p c = true) s.
Proof.
  induction n as [|n IH]; intros s; cbn [times].
  - split.
    + intros H. apply Lang_eps_inv in H. subst. split; [reflexivity|constructor].
    + intros [Hl _]. destruct s; [constructor|discriminate].
  - split.
    + intros H. apply Lang_seq_inv in H as (s1 & s2 & -> & H1 & H2).
      apply Lang_class_inv in H1 as (c & -> & Hc).
      apply IH in H2 as [Hl Hf]. cbn. split; [f_equal; exact Hl|constructor; assumption].
    + intros [Hl Hf]. destruct s as [|c s]; [discriminate|].
      injection Hl as Hl. inversion Hf; subst.
      change (c :: s) with ([c] ++ s). constructor; [constructor; assumption|].
      apply IH. split; [reflexivity|assumption].
Qed.

(** *** The classes of code units *)

Lemma isSpace_spec c : isSpace c = true <-> In c spaceCodeUnits.
Proof.
  unfold isSpace, isWhiteSpace, isLineTerminator, spaceCodeUnits. cbn [In].
  rewrite !orb_true_iff, !andb_true_iff, !N.eqb_eq, !N.leb_le. lia.
Qed.

Lemma isDigit_spec c : isDigit c = true <-> In c digitCodeUnits.
Proof.
  unfold isDigit, digitCodeUnits. cbn [In].
  rewrite !andb_true_iff, !N.leb_le. lia.
Qed.

Lemma digit_not_space c : isDigit c = true -> isSpace c = false.
Proof.
  intros H. apply isDigit_spec in H. unfold digitCodeUnits in H. cbn [In] in H.
  repeat (destruct H as [<-|H]; [reflexivity|]). contradiction.
Qed.

Lemma allIn_space s : allIn spaceCodeUnits s <-> Forall (fun c => isSpace c = true) s.
Proof. unfold allIn. apply Forall_proper; [|reflexivity]. intros c. symmetry. apply isSpace_spec. Qed.

Lemma allIn_digit s : allIn digitCodeUnits s <-> Forall (fun c => isDigit c = true) s.
Proof. unfold allIn. apply Forall_proper; [|reflexivity]. intros c. symmetry. apply isDigit_spec. Qed.

(** *** What [trim] strips *)

Lemma trimStart_space l x :
  Forall (fun c => isSpace c = true) l -> trimStart (l ++ x) = trimStart x.
Proof. induction 1 as [|c l Hc _ IH]; [reflexivity|]. cbn. rewrite Hc. exact IH. Qed.

Lemma trimEnd_all_space r : Forall (fun c => isSpace c = true) r -> trimEnd r = [].
Proof. induction 1 as [|c r Hc _ IH]; [reflexivity|]. cbn. rewrite IH, Hc. reflexivity. Qed.

Lemma trimEnd_space x r :
  Forall (fun c => isSpace c = true) r -> trimEnd (x ++ r) = trimEnd x.
Proof.
  intros Hr. induction x as [|c x IH]; [apply trimEnd_all_space; exact Hr|].
  cbn. rewrite IH. reflexivity.
Qed.

Lemma trimEnd_last x c : isSpace c = false -> trimEnd (x ++ [c]) = x ++ [c].
Proof.
  intros Hc. induction x as [|a x IH]; [cbn; rewrite Hc; reflexivity|].
  cbn. rewrite IH. destruct (x ++ [c]) eqn:Hx; [|reflexivity].
  apply app_nil_inv in Hx as [_ Hx]. discriminate.
Qed.

Lemma trimStart_split s :
  exists l, s = l ++ trimStart s /\ Forall (fun c => isSpace c = true) l.
Proof.
  induction s as [|c s (l & Hl & Hf)]; [exists []; split; [reflexivity|constructor]|].
  cbn. destruct (isSpace c) eqn:Hc.
  - exists (c :: l). split; [cbn; f_equal; exact Hl|constructor; assumption].
  - exists []. split; [reflexivity|constructor].
Qed.

Lemma trimEnd_split s :
  exists r, s = trimEnd s ++ r /\ Forall (fun c => isSpace c = true) r.
Proof.
  induction s as [|c s (r & Hr & Hf)]; [exists []; split; [reflexivity|constructor]|].
  cbn. destruct (trimEnd s) as [|a t] eqn:Ht.
  - cbn in Hr. subst s. destruct (isSpace c) eqn:Hc.
    + exists (c :: r). split; [reflexivity|constructor; assumption].
    + exists r. split; [reflexivity|assumption].
  - exists r. split; [cbn; f_equal; exact Hr|assumption].
Qed.

(** A string that neither starts nor ends with a space, between spaces, is
    what [trim] leaves. *)
Lemma trim_core l x c y d r :
  Forall (fun c => isSpace c = true) l -> Forall (fun c => isSpace c = true) r ->
  isSpace c = false -> isSpace d = false ->
  c :: x = y ++ [d] ->
  trim (l ++ (c :: x) ++ r) = c :: x.
Proof.
  intros Hl Hr Hc Hd Hx. unfold trim.
  rewrite (trimStart_space l _ Hl).
  change ((c :: x) ++ r) with (c :: (x ++ r)). cbn [trimStart]. rewrite Hc.
  change (c :: (x ++ r)) with ((c :: x) ++ r).
  rewrite (trimEnd_space _ r Hr), Hx. apply trimEnd_last. exact Hd.
Qed.

Lemma trim_spaces l r :
  Forall (fun c => isSpace c = true) l -> Forall (fun c => isSpace c = true) r ->
  trim (l ++ r) = [].
Proof.
  intros Hl Hr. unfold trim. rewrite (trimStart_space l _ Hl).
  destruct (trimStart_split r) as (l' & Hs & Hl').
  destruct (trimEnd_split (trimStart r)) as (r' & Hs' & Hr').
  assert (Forall (fun c => isSpace c = true) (trimStart r)) as Hall
    by (rewrite Hs in Hr; apply Forall_app in Hr as [_ Hr]; exact Hr).
  apply trimEnd_all_space. exact Hall.
Qed.

(** *** The pattern *)

Lemma Lang_zip t :
  Lang zipPattern t
  <-> (length t = 5%nat /\ Forall (fun c => isDigit c = true) t) \/
      exists d e, t = d ++ [hyphen] ++ e /\ length d = 5%nat /\ length e = 4%nat /\
        Forall (fun c => isDigit c = true) d /\ Forall (fun c => isDigit c = true) e.
Proof.
  unfold zipPattern, optional. split.
  - intros H. apply Lang_seq_inv in H as (d & rest & -> & Hd & Hrest).
    apply (Lang_times isDigit 5) in Hd as [Hld Hfd].
    apply Lang_alt_inv in Hrest as [Hrest|Hrest].
    + apply Lang_seq_inv in Hrest as (h & e & -> & Hh & He).
      apply Lang_class_inv in Hh as (c & -> & Hc). apply N.eqb_eq in Hc. subst c.
      apply (Lang_times isDigit 4) in He as [Hle Hfe].
      right. exists d, e. auto.
    + apply Lang_eps_inv in Hrest. subst rest. rewrite app_nil_r. left. auto.
  - intros [[Hl Hf]|(d & e & -> & Hld & Hle & Hfd & Hfe)].
    + rewrite <- (app_nil_r t). constructor.
      * apply (Lang_times isDigit 5). auto.
      * apply LAltR. constructor.
    + constructor.
      * apply (Lang_times isDigit 5). auto.
      * apply LAltL. constructor.
        -- constructor. apply N.eqb_refl.
        -- apply (Lang_times isDigit 4). auto.
Qed.

(** The [validate] function of the ZIP field accepts a value exactly when
    the value consists of white space or line terminators (any number, also
    none) around a core that is empty, or five digits, or five digits, a
    hyphen and four digits.  The white space is that of ECMAScript, the
    code units of [spaceCodeUnits]; an absent value is accepted. *)
Theorem validateZip_accepts val :
  validateZip val = Valid <->
  exists l core r,
    match val with Some s => s | None => [] end = l ++ core ++ r /\
    allIn spaceCodeUnits l /\ allIn spaceCodeUnits r /\
    (core = [] \/
     (length core = 5%nat /\ allIn digitCodeUnits core) \/
     exists d e, core = d ++ [hyphen] ++ e /\ length d = 5%nat /\ length e = 4%nat /\
       allIn digitCodeUnits d /\ allIn digitCodeUnits e).
Proof.
  unfold validateZip.
  set (s := match val with Some s => s | None => [] end).
  split.
  - intros H.
    destruct (trimStart_split s) as (l & Hs & Hl).
    destruct (trimEnd_split (trimStart s)) as (r & Hs' & Hr).
    fold (trim s) in Hs'.
    exists l, (trim s), r.
    split; [rewrite <- Hs'; exact Hs|].
    split; [apply allIn_space; exact Hl|]. split; [apply allIn_space; exact Hr|].
    destruct (trim s) as [|c t] eqn:Ht; [left; reflexivity|right].
    cbn [orb] in H. destruct (test zipPattern (c :: t)) eqn:Htest; [|discriminate].
    apply test_Lang, Lang_zip in Htest.
    destruct Htest as [[Hlen Hf]|(d & e & He & Hld & Hle & Hfd & Hfe)].
    + left. split; [exact Hlen|apply allIn_digit; exact Hf].
    + right. exists d, e. rewrite !allIn_digit. auto.
  - intros (l & core & r & Hs & Hl & Hr & Hcore).
    apply allIn_space in Hl, Hr. rewrite Hs.
    destruct Hcore as [->|Hcore].
    + cbn [app]. rewrite (trim_spaces l r Hl Hr). reflexivity.
    + assert (trim (l ++ core ++ r) = core /\ Lang zipPattern core) as [-> HL].
      { destruct Hcore as [[Hlen Hf]|(d & e & -> & Hld & Hle & Hfd & Hfe)].
        - apply allIn_digit in Hf. split; [|apply Lang_zip; left; auto].
          destruct core as [|c1 [|c2 [|c3 [|c4 [|c5 [|]]]]]]; try discriminate.
          apply (trim_core l _ c1 [c1; c2; c3; c4] c5 r Hl Hr); [| |reflexivity];
            apply digit_not_space; repeat (inversion Hf as [|? ? ? Hf']; subst; try assumption;
                                          clear Hf; rename Hf' into Hf).
        - apply allIn_digit in Hfd, Hfe.
          split; [|apply Lang_zip; right; exists d, e; auto].
          destruct d as [|c1 [|c2 [|c3 [|c4 [|c5 [|]]]]]]; try discriminate.
          destruct e as [|e1 [|e2 [|e3 [|e4 [|]]]]]; try discriminate.
          apply (trim_core l _ c1 [c1; c2; c3; c4; c5; hyphen; e1; e2; e3] e4 r Hl Hr);
            [| |reflexivity]; apply digit_not_space.
          + inversion Hfd; assumption.
          + repeat (inversion Hfe as [|? ? ? Hfe']; subst; try assumption;
                    clear Hfe; rename Hfe' into Hfe). }
      apply test_Lang in HL. rewrite HL. destruct core; reflexivity.
Qed.

(** Some values: the white space around a code may be a no-break space
    (160) or a line separator (8232); a letter is refused. *)
Example zip_examples :
  validateZip None = Valid /\
  validateZip (Some [32; 32]%N) = Valid /\
  validateZip (Some [49; 50; 51; 52; 53]%N) = Valid /\
  validateZip (Some [160; 49; 50; 51; 52; 53; 45; 54; 55; 56; 57; 8232]%N) = Valid /\
  validateZip (Some [49; 50; 51; 52]%N) <> Valid /\
  validateZip (Some [49; 50; 51; 52; 53; 45]%N) <> Valid /\
  validateZip (Some [49; 50; 51; 52; 53; 32; 54]%N) <> Valid /\
  validateZip (Some [65; 50; 51; 52; 53]%N) <> Valid.
Proof. vm_compute. repeat split; discriminate. Qed.
